(** * Web Intelligence Gatherer: a shallow embedding of [main.py] and [config.py]

    The development follows the layout of the program: the constants of
    [config.py], the Python values the program manipulates (parsed JSON,
    result dictionaries, exceptions), the searcher classes with their shared
    [_safe_request], the report generator and the orchestrator
    [WebIntelligenceGatherer].

    Conventions of the embedding.
    - A Python [str] is a [string]; every character stands for one code
      point, so [len] is [String.length].
    - A Python [dict] with string keys is an association list in insertion
      order; [dict.get] returns the first binding of the key.
    - A Python [float] is given by its exact rational value; [repr],
      subtraction and [round] on floats are the language's, and are taken
      as given (the class [Builtins]), as are [json.dumps] and [json.loads]
      (the class [JsonLibrary]).
    - Code that performs I/O or mutates [self] lives in the monad [M]: the
      state of the object at hand and the state of the outside world are
      threaded explicitly, and a raised exception keeps every mutation made
      before it, as in Python.
    - The world answers the calls of the libraries ([requests.get],
      [datetime.now], [time.time]) and records them in a trace.
    - The workers of the thread pool run one after the other, in the order
      of submission; the order in which their futures complete is a
      parameter of the world.
    - Console output ([print]) is not part of the model. *)

From Stdlib Require Import ZArith QArith Qround String Ascii List Lia.
From stdpp Require Import base tactics option list gmap sets strings pretty.

Set Warnings "-register-all".

Local Open Scope string_scope.
Local Open Scope Z_scope.
Local Open Scope list_scope.

(** ** config.py *)

Module config.

Definition TIMEOUT : Z := 10.
Definition RATE_LIMIT_DELAY : Q := 1.
Definition MAX_RESULTS_DEFAULT : Z := 5.
Definition MAX_RESULTS_LIMIT : Z := 50.
Definition REQUEST_RETRIES : nat := 2.

Definition AVAILABLE_SOURCES : list string :=
  ["wikipedia"; "stackoverflow"; "github"; "googlenews"; "hackernews"].

Definition DEFAULT_SOURCES : list string := ["wikipedia"; "github"; "stackoverflow"].

Definition USER_AGENT : string :=
  "Mozilla/5.0 (Windows NT 10.0; Win64; x64) AppleWebKit/537.36".

Definition WIKIPEDIA_API : string := "https://en.wikipedia.org/w/api.php".
Definition GITHUB_API : string := "https://api.github.com/search/repositories".
Definition STACKOVERFLOW_API : string := "https://api.stackexchange.com/2.3/search".
Definition GOOGLE_NEWS_URL : string := "https://news.google.com/search".
Definition HACKERNEWS_API : string := "https://hn.algolia.com/api/v1/search".

Definition MAX_THREADS : nat := 5.

Definition MIN_KEYWORD_LENGTH : nat := 2.
Definition MAX_KEYWORD_LENGTH : nat := 200.

End config.

(** ** Python values *)

(** What [json.loads] can produce, which is also what the fields of a result
    dictionary can hold. A float is given by its exact (rational) value. *)
Inductive value : Type :=
| VNone
| VBool (b : bool)
| VInt (n : Z)
| VFloat (q : Q)
| VStr (s : string)
| VList (l : list value)
| VDict (d : list (string * value)).

Abbreviation dict := (list (string * value)).

(** The message of a [ValueError] raised by the orchestrator's constructor.
    The last one interpolates a set, whose printing order is unspecified. *)
Inductive message : Type :=
| Msg (s : string)
| MsgInvalidSources (invalid : gset string).

(** The exceptions of the model, all of them subclasses of [Exception]. *)
Inductive exn : Type :=
| AttributeError
| TypeError
| ValueError (m : message)
| RequestException (reason : string)
| HTTPError (status : Z)
| JSONDecodeError.

Inductive result (A : Type) : Type :=
| Ok (a : A)
| Raise (e : exn).
Arguments Ok {A} a.
Arguments Raise {A} e.

Definition is_ok {A} (r : result A) : bool :=
  match r with Ok _ => true | Raise _ => false end.

(** *** Strings *)

(** [chr(n)] for a code point below 256. *)
Definition chr (n : nat) : string := String (ascii_of_nat n) EmptyString.

(** [sep.join(parts)] on strings. *)
Fixpoint str_join (sep : string) (parts : list string) : string :=
  match parts with
  | [] => EmptyString
  | [p] => p
  | p :: rest => p +:+ sep +:+ str_join sep rest
  end.

(** The scan of [str.replace] for a non-empty pattern: left to right, an
    occurrence is replaced and the scan resumes after it ([skip] counts the
    characters of the occurrence still to pass over). *)
Fixpoint replace_from (old new : string) (skip : nat) (s : string) : string :=
  match s with
  | EmptyString => EmptyString
  | String c s' =>
      match skip with
      | S k => replace_from old new k s'
      | O =>
          if String.prefix old s
          then new +:+ replace_from old new (Nat.pred (String.length old)) s'
          else String c (replace_from old new O s')
      end
  end.

(** With the empty pattern, [new] is put before every character and at the end. *)
Fixpoint replace_empty (new : string) (s : string) : string :=
  match s with
  | EmptyString => new
  | String c s' => new +:+ String c (replace_empty new s')
  end.

(** [s.replace(old, new)]. *)
Definition str_replace (old new s : string) : string :=
  match old with
  | EmptyString => replace_empty new s
  | _ => replace_from old new O s
  end.

(** *** Dictionaries and attribute access *)

(** [d.get(k, default)] on a dictionary. *)
Fixpoint dict_get (d : dict) (k : string) (default : value) : value :=
  match d with
  | [] => default
  | (k', v) :: d' => if String.eqb k' k then v else dict_get d' k default
  end.

(** [v.get(k, default)] on any value: only a [dict] has the method. *)
Definition py_get (v : value) (k : string) (default : value) : result value :=
  match v with
  | VDict d => Ok (dict_get d k default)
  | _ => Raise AttributeError
  end.

(** [v.replace(old, new)] on any value: only a [str] has the method. *)
Definition py_replace (v : value) (old new : string) : result string :=
  match v with
  | VStr s => Ok (str_replace old new s)
  | _ => Raise AttributeError
  end.

(** Truth value testing, as [if v], [v and ...], [v or ...] do. *)
Definition truthy (v : value) : bool :=
  match v with
  | VNone => false
  | VBool b => b
  | VInt n => negb (n =? 0)
  | VFloat q => negb (Qnum q =? 0)
  | VStr s => negb (String.eqb s EmptyString)
  | VList l => match l with [] => false | _ => true end
  | VDict d => match d with [] => false | _ => true end
  end.

(** The characters of a string, each as a string of length one. *)
Fixpoint str_chars (s : string) : list value :=
  match s with
  | EmptyString => []
  | String c s' => VStr (String c EmptyString) :: str_chars s'
  end.

(** The items [for item in v] goes through: the elements of a list, the keys
    of a dictionary, the characters of a string; anything else is not
    iterable. *)
Definition py_iter (v : value) : result (list value) :=
  match v with
  | VList l => Ok l
  | VDict d => Ok (map (fun kv => VStr (fst kv)) d)
  | VStr s => Ok (str_chars s)
  | _ => Raise TypeError
  end.

(** The strings of a list of values, for [str.join], which accepts nothing
    but strings. *)
Fixpoint all_strs (l : list value) : result (list string) :=
  match l with
  | [] => Ok []
  | VStr s :: l' =>
      match all_strs l' with
      | Ok ss => Ok (s :: ss)
      | Raise e => Raise e
      end
  | _ :: _ => Raise TypeError
  end.

(** [sep.join(v)] on any value. *)
Definition py_join (sep : string) (v : value) : result string :=
  match py_iter v with
  | Raise e => Raise e
  | Ok items =>
      match all_strs items with
      | Ok ss => Ok (str_join sep ss)
      | Raise e => Raise e
      end
  end.

(** [l[:n]]: the first [n] items, and for a negative [n] all but the last
    [-n] items. *)
Definition slice_to {A} (l : list A) (n : Z) : list A :=
  if 0 <=? n then take (Z.to_nat n) l
  else take (Z.to_nat (Z.of_nat (length l) + n)) l.

(** The language's own functions that the model takes as given: [repr] of a
    float or of a container (the scalar cases of [str] are written out
    below), the subtraction of two floats and [round(x, ndigits)]. *)
Class Builtins : Type := {
  py_repr : value → string;
  float_sub : Q → Q → Q;
  py_round : Q → Z → Q
}.

(** [str(v)], which is also what an f-string puts in place of [{v}]. *)
Definition py_str `{Builtins} (v : value) : string :=
  match v with
  | VStr s => s
  | VNone => "None"
  | VBool true => "True"
  | VBool false => "False"
  | VInt n => pretty n
  | VFloat _ | VList _ | VDict _ => py_repr v
  end.

(** *** Hashing *)

(** What a [set] compares: equal values have the same key. [True == 1 == 1.0],
    so the numbers share one kind of key, a fraction in lowest terms. Lists
    and dictionaries are unhashable. *)
Inductive key : Type :=
| KNone
| KNum (num : Z) (den : positive)
| KStr (s : string).

Definition hash_key (v : value) : result key :=
  match v with
  | VNone => Ok KNone
  | VBool b => Ok (KNum (if b then 1 else 0) 1)
  | VInt n => Ok (KNum n 1)
  | VFloat q => Ok (KNum (Qnum (Qred q)) (Qden (Qred q)))
  | VStr s => Ok (KStr s)
  | VList _ | VDict _ => Raise TypeError
  end.

Global Instance key_eq_dec : EqDecision key.
Proof. solve_decision. Defined.

Global Instance key_countable : Countable key.
Proof.
  refine (inj_countable'
    (fun k => match k with
              | KNone => inl ()
              | KNum n d => inr (inl (n, d))
              | KStr s => inr (inr s)
              end)
    (fun x => match x with
              | inl _ => KNone
              | inr (inl (n, d)) => KNum n d
              | inr (inr s) => KStr s
              end) _).
  intros []; reflexivity.
Defined.

(** ** The outside world *)

(** The keyword arguments a searcher passes on to [requests.get]. *)
Record kwargs : Type := Kwargs {
  kw_params : option dict;
  kw_headers : option (gmap string string)
}.

(** One call of [requests.get(url, timeout=..., **kwargs)]. *)
Record request : Type := Request {
  req_url : string;
  req_timeout : Z;
  req_kwargs : kwargs
}.

(** An element found in a parsed page: the text [get_text(strip=True)]
    returns and its attributes. *)
Record tag : Type := Tag {
  tag_text : string;
  tag_attrs : dict
}.

(** An [article] element, by what [find('h3')], [find('a')] and [find('p')]
    return on it ([None] when there is no such descendant). *)
Record article : Type := Article {
  find_h3 : option tag;
  find_a : option tag;
  find_p : option tag
}.

(** A [requests.Response], by what the program observes of it: the status
    [raise_for_status] tests, what [json()] returns or raises, and the
    [article] elements [BeautifulSoup(content, 'html.parser').find_all(
    'article', limit=n)] returns for each [n]. *)
Record response : Type := Response {
  status_code : Z;
  json : result value;
  find_all_article : Z → list article
}.

Inductive event : Type :=
| EvGet (r : request)
| EvSleep (seconds : Z)
| EvNow
| EvClock
| EvSubmit (source : string).

(** The world a run takes place in. [net n r] is what the [n]-th call of
    [requests.get] of the run returns or raises when it is the request [r];
    [now n] is the [n]-th reading of [datetime.now().isoformat()], [wall n]
    the [n]-th reading of [time.time()]; [order] fixes the order in which the
    submitted futures complete; [trace] records what has happened so far,
    oldest event first. *)
Record world : Type := World {
  net : nat → request → result response;
  now : nat → string;
  wall : nat → Q;
  order : nat → nat;
  trace : list event
}.

Definition is_get (e : event) : bool := match e with EvGet _ => true | _ => false end.
Definition is_sleep (e : event) : bool := match e with EvSleep _ => true | _ => false end.
Definition is_now (e : event) : bool := match e with EvNow => true | _ => false end.
Definition is_clock (e : event) : bool := match e with EvClock => true | _ => false end.
Definition is_submit (e : event) : bool := match e with EvSubmit _ => true | _ => false end.

(** How many events of a kind a trace holds. *)
Definition count (p : event → bool) (t : list event) : nat := length (filter p t).

Definition record_event (e : event) (w : world) : world :=
  World (net w) (now w) (wall w) (order w) (trace w ++ [e]).

(** ** The monad of methods *)

(** A method of an object with state [S]: it may read and update the object
    and the world, and it returns or raises. *)
Definition M (S A : Type) : Type := S → world → result A * S * world.

Definition ret {S A} (a : A) : M S A := fun s w => (Ok a, s, w).

Definition bind {S A B} (m : M S A) (k : A → M S B) : M S B :=
  fun s w =>
    match m s w with
    | (Ok a, s', w') => k a s' w'
    | (Raise e, s', w') => (Raise e, s', w')
    end.

Definition raise {S A} (e : exn) : M S A := fun s w => (Raise e, s, w).

(** [try: body / except Exception as e: handler e]. *)
Definition try_except {S A} (body : M S A) (handler : exn → M S A) : M S A :=
  fun s w =>
    match body s w with
    | (Ok a, s', w') => (Ok a, s', w')
    | (Raise e, s', w') => handler e s' w'
    end.

(** The outcome of an expression that touches neither the object nor the world. *)
Definition lift {S A} (r : result A) : M S A := fun s w => (r, s, w).

Definition get_self {S} : M S S := fun s w => (Ok s, s, w).

Declare Scope method_scope.
Delimit Scope method_scope with method.
Notation "x <- m ;; k" := (bind m (fun x => k))
  (at level 100, m at next level, right associativity) : method_scope.
Notation "m ;; k" := (bind m (fun _ => k))
  (at level 100, right associativity) : method_scope.
Local Open Scope method_scope.

(** [for x in l: body x]. *)
Fixpoint for_each {S A} (l : list A) (body : A → M S unit) : M S unit :=
  match l with
  | [] => ret tt
  | x :: l' => body x ;; for_each l' body
  end.

(** The result, final state and final world of a method run on its own object. *)
Definition outcome {S A} (r : result A * S * world) : result A := fst (fst r).
Definition final_self {S A} (r : result A * S * world) : S := snd (fst r).
Definition final_world {S A} (r : result A * S * world) : world := snd r.

(** *** Library calls *)

(** [requests.get(url, timeout=timeout, **kw)]. *)
Definition requests_get {S} (url : string) (timeout : Z) (kw : kwargs) : M S response :=
  fun s w =>
    let r := Request url timeout kw in
    (net w (count is_get (trace w)) r, s, record_event (EvGet r) w).

(** [response.raise_for_status()]. *)
Definition raise_for_status {S} (r : response) : M S unit :=
  if (400 <=? status_code r) && (status_code r <? 600)
  then raise (HTTPError (status_code r))
  else ret tt.

(** [time.sleep(seconds)]. *)
Definition time_sleep {S} (seconds : Z) : M S unit :=
  fun s w => (Ok tt, s, record_event (EvSleep seconds) w).

(** [datetime.now().isoformat()]. *)
Definition datetime_now_isoformat {S} : M S string :=
  fun s w => (Ok (now w (count is_now (trace w))), s, record_event EvNow w).

(** [time.time()]. *)
Definition time_time {S} : M S Q :=
  fun s w => (Ok (wall w (count is_clock (trace w))), s, record_event EvClock w).

(** [response.json()], where [response] may be [None]. *)
Definition response_json {S} (r : option response) : M S value :=
  match r with
  | Some r => lift (json r)
  | None => raise AttributeError
  end.

(** *** urllib.parse.quote *)

Definition hex_digit (n : nat) : ascii :=
  ascii_of_nat (if Nat.ltb n 10 then 48 + n else 55 + n).

(** [%XX] for one byte. *)
Definition percent (b : nat) : string :=
  String "%" (String (hex_digit (Nat.div b 16)) (String (hex_digit (Nat.modulo b 16)) EmptyString)).

(** Letters, digits and [_.-~] are never quoted, and [/] is safe by default. *)
Definition unreserved (n : nat) : bool :=
  (Nat.leb 65 n && Nat.leb n 90) || (Nat.leb 97 n && Nat.leb n 122)
  || (Nat.leb 48 n && Nat.leb n 57)
  || Nat.eqb n 95 || Nat.eqb n 46 || Nat.eqb n 45 || Nat.eqb n 126 || Nat.eqb n 47.

(** [quote(s)]: the UTF-8 bytes of every other character, percent-encoded. *)
Fixpoint quote (s : string) : string :=
  match s with
  | EmptyString => EmptyString
  | String c s' =>
      let n := nat_of_ascii c in
      (if unreserved n then String c EmptyString
       else if Nat.ltb n 128 then percent n
       else percent (192 + Nat.div n 64) +:+ percent (128 + Nat.modulo n 64))
      +:+ quote s'
  end.

(** ** Searchers *)

(** The classes of searchers. *)
Inductive searcher_class : Type :=
| WikipediaSearcher
| GitHubSearcher
| StackOverflowSearcher
| HackerNewsSearcher
| GoogleNewsSearcher.

(** The attributes of a searcher. *)
Record searcher : Type := Searcher {
  cls : searcher_class;
  keyword : string;
  max_results : Z;
  results : list dict;
  source_name : string
}.

Definition set_source_name (name : string) (self : searcher) : searcher :=
  Searcher (cls self) (keyword self) (max_results self) (results self) name.

(** [self.results.append(r)]. *)
Definition results_append (r : dict) : M searcher unit :=
  fun self w =>
    (Ok tt,
     Searcher (cls self) (keyword self) (max_results self) (results self ++ [r]) (source_name self),
     w).

(** [BaseSearcher.__init__]. *)
Definition BaseSearcher_init (c : searcher_class) (keyword : string) (max_results : Z) : searcher :=
  Searcher c keyword (Z.min max_results config.MAX_RESULTS_LIMIT) [] "base".

(** The name each subclass stores after calling the base constructor. *)
Definition class_source_name (c : searcher_class) : string :=
  match c with
  | WikipediaSearcher => "wikipedia"
  | GitHubSearcher => "github"
  | StackOverflowSearcher => "stackoverflow"
  | HackerNewsSearcher => "hackernews"
  | GoogleNewsSearcher => "googlenews"
  end.

(** The constructor of the class [c]. *)
Definition new_searcher (c : searcher_class) (keyword : string) (max_results : Z) : searcher :=
  set_source_name (class_source_name c) (BaseSearcher_init c keyword max_results).

(** The body of the loop of [_safe_request], over the attempts still to make. *)
Fixpoint safe_request_loop {S} (attempts : list Z) (url : string) (kw : kwargs)
    : M S (option response) :=
  match attempts with
  | [] => ret None
  | attempt :: rest =>
      try_except
        (response <- requests_get url config.TIMEOUT kw ;;
         raise_for_status response ;;
         ret (Some response))
        (fun e =>
           if attempt =? Z.of_nat config.REQUEST_RETRIES - 1 then raise e
           else time_sleep 1 ;; safe_request_loop rest url kw)
  end.

(** [range(n)]. *)
Definition range (n : nat) : list Z := map Z.of_nat (seq 0 n).

(** [BaseSearcher._safe_request]. *)
Definition _safe_request {S} (url : string) (kw : kwargs) : M S (option response) :=
  let headers := default ∅ (kw_headers kw) in
  let headers := <["User-Agent" := config.USER_AGENT]> headers in
  let kw := Kwargs (kw_params kw) (Some headers) in
  safe_request_loop (range config.REQUEST_RETRIES) url kw.

(** [return self.results[:self.max_results]]. *)
Definition return_results : M searcher (list dict) :=
  self <- get_self ;;
  ret (slice_to (results self) (max_results self)).

(** [WikipediaSearcher.search]. *)
Definition wikipedia_search : M searcher (list dict) :=
  try_except
    (self <- get_self ;;
     let params :=
       [("action", VStr "query"); ("format", VStr "json"); ("list", VStr "search");
        ("srsearch", VStr (keyword self)); ("srlimit", VInt (max_results self))] in
     response <- _safe_request config.WIKIPEDIA_API (Kwargs (Some params) None) ;;
     data <- response_json response ;;
     query <- lift (py_get data "query" (VDict [])) ;;
     found <- lift (py_get query "search" (VList [])) ;;
     items <- lift (py_iter found) ;;
     for_each items (fun item =>
       self <- get_self ;;
       title <- lift (py_get item "title" (VStr EmptyString)) ;;
       snippet <- lift (py_get item "snippet" (VStr EmptyString)) ;;
       snippet <- lift (py_replace snippet "<span class='searchmatch'>" EmptyString) ;;
       description <- lift (py_replace (VStr snippet) "</span>" EmptyString) ;;
       page <- lift (py_get item "title" (VStr EmptyString)) ;;
       page <- lift (py_replace page " " "_") ;;
       timestamp <- datetime_now_isoformat ;;
       results_append
         [("source", VStr (source_name self));
          ("title", title);
          ("description", VStr description);
          ("url", VStr ("https://en.wikipedia.org/wiki/" +:+ page));
          ("timestamp", VStr timestamp)]))
    (fun e => ret tt) ;;
  return_results.

(** [GitHubSearcher.search]. *)
Definition github_search : M searcher (list dict) :=
  try_except
    (self <- get_self ;;
     let params :=
       [("q", VStr (keyword self)); ("sort", VStr "stars"); ("order", VStr "desc");
        ("per_page", VInt (max_results self))] in
     response <- _safe_request config.GITHUB_API (Kwargs (Some params) None) ;;
     data <- response_json response ;;
     found <- lift (py_get data "items" (VList [])) ;;
     items <- lift (py_iter found) ;;
     for_each items (fun item =>
       self <- get_self ;;
       title <- lift (py_get item "name" (VStr EmptyString)) ;;
       description <- lift (py_get item "description" (VStr "No description provided")) ;;
       url <- lift (py_get item "html_url" (VStr EmptyString)) ;;
       timestamp <- datetime_now_isoformat ;;
       results_append
         [("source", VStr (source_name self));
          ("title", title);
          ("description", description);
          ("url", url);
          ("timestamp", VStr timestamp)]))
    (fun e => ret tt) ;;
  return_results.

(** [StackOverflowSearcher.search]. *)
Definition stackoverflow_search `{Builtins} : M searcher (list dict) :=
  try_except
    (self <- get_self ;;
     let params :=
       [("intitle", VStr (keyword self)); ("sort", VStr "relevance"); ("order", VStr "desc");
        ("pagesize", VInt (max_results self)); ("site", VStr "stackoverflow.com")] in
     response <- _safe_request config.STACKOVERFLOW_API (Kwargs (Some params) None) ;;
     data <- response_json response ;;
     found <- lift (py_get data "items" (VList [])) ;;
     items <- lift (py_iter found) ;;
     for_each items (fun item =>
       self <- get_self ;;
       title <- lift (py_get item "title" (VStr EmptyString)) ;;
       title <- lift (py_replace title "&quot;" (chr 34)) ;;
       title <- lift (py_replace (VStr title) "&amp;" "&") ;;
       score <- lift (py_get item "score" (VInt 0)) ;;
       tags <- lift (py_get item "tags" (VList [])) ;;
       tags <- lift (py_join ", " tags) ;;
       url <- lift (py_get item "link" (VStr EmptyString)) ;;
       timestamp <- datetime_now_isoformat ;;
       results_append
         [("source", VStr (source_name self));
          ("title", VStr title);
          ("description", VStr ("Score: " +:+ py_str score +:+ ", Tags: " +:+ tags));
          ("url", url);
          ("timestamp", VStr timestamp)]))
    (fun e => ret tt) ;;
  return_results.

(** [HackerNewsSearcher.search]. *)
Definition hackernews_search `{Builtins} : M searcher (list dict) :=
  try_except
    (self <- get_self ;;
     let params :=
       [("query", VStr (keyword self)); ("hitsPerPage", VInt (max_results self));
        ("tags", VStr "story")] in
     response <- _safe_request config.HACKERNEWS_API (Kwargs (Some params) None) ;;
     data <- response_json response ;;
     found <- lift (py_get data "hits" (VList [])) ;;
     items <- lift (py_iter found) ;;
     for_each items (fun item =>
       self <- get_self ;;
       title <- lift (py_get item "title" (VStr EmptyString)) ;;
       points <- lift (py_get item "points" (VInt 0)) ;;
       comments <- lift (py_get item "num_comments" (VInt 0)) ;;
       url <- lift (py_get item "url" (VStr EmptyString)) ;;
       url <- (if truthy url then ret url
               else
                 id <- lift (py_get item "objectID" (VStr EmptyString)) ;;
                 ret (VStr ("https://news.ycombinator.com/item?id=" +:+ py_str id))) ;;
       timestamp <- datetime_now_isoformat ;;
       results_append
         [("source", VStr (source_name self));
          ("title", title);
          ("description",
           VStr ("Points: " +:+ py_str points +:+ ", Comments: " +:+ py_str comments));
          ("url", url);
          ("timestamp", VStr timestamp)]))
    (fun e => ret tt) ;;
  return_results.

(** [soup = BeautifulSoup(response.content, 'html.parser')] followed by
    [soup.find_all('article', limit=limit)], where [response] may be [None]. *)
Definition soup_find_all_article {S} (r : option response) (limit : Z) : M S (list article) :=
  match r with
  | Some r => ret (find_all_article r limit)
  | None => raise AttributeError
  end.

(** [GoogleNewsSearcher.search]. *)
Definition googlenews_search : M searcher (list dict) :=
  try_except
    (self <- get_self ;;
     let url := config.GOOGLE_NEWS_URL +:+ "?q=" +:+ quote (keyword self) in
     response <- _safe_request url (Kwargs None None) ;;
     articles <- soup_find_all_article response (max_results self) ;;
     for_each articles (fun article =>
       try_except
         (self <- get_self ;;
          match find_h3 article, find_a article with
          | Some title_elem, Some link_elem =>
              let description :=
                match find_p article with
                | Some desc_elem => tag_text desc_elem
                | None => "News article"
                end in
              timestamp <- datetime_now_isoformat ;;
              results_append
                [("source", VStr (source_name self));
                 ("title", VStr (tag_text title_elem));
                 ("description", VStr description);
                 ("url", dict_get (tag_attrs link_elem) "href" (VStr EmptyString));
                 ("timestamp", VStr timestamp)]
          | _, _ => ret tt
          end)
         (fun _ => ret tt)))
    (fun e => ret tt) ;;
  return_results.

(** [searcher.search()], resolved by the class of the object. *)
Definition searcher_search `{Builtins} : M searcher (list dict) :=
  self <- get_self ;;
  match cls self with
  | WikipediaSearcher => wikipedia_search
  | GitHubSearcher => github_search
  | StackOverflowSearcher => stackoverflow_search
  | HackerNewsSearcher => hackernews_search
  | GoogleNewsSearcher => googlenews_search
  end.

(** ** Report generator *)

(** [json.dumps(obj, indent=2, ensure_ascii=False)] and [json.loads], which
    the model takes as given. *)
Class JsonLibrary : Type := {
  json_dumps : value → string;
  json_loads : string → result value
}.

(** Sequencing of expressions that may raise. *)
Definition and_then {A B} (r : result A) (k : A → result B) : result B :=
  match r with
  | Ok a => k a
  | Raise e => Raise e
  end.

Module ReportGenerator.

(** The dictionary [to_json] serialises, given the reading of the clock. *)
Definition report `{Builtins} (all_results : list dict) (keyword : string)
    (search_time : Q) (sources : list string) (timestamp : string) : value :=
  VDict
    [("search",
      VDict
        [("keyword", VStr keyword);
         ("timestamp", VStr timestamp);
         ("sources", VList (map VStr sources));
         ("total_results", VInt (Z.of_nat (length all_results)));
         ("search_time_seconds", VFloat (py_round search_time 2))]);
     ("results", VList (map VDict all_results))].

(** [ReportGenerator.to_json]. *)
Definition to_json `{Builtins} `{JsonLibrary} {S} (all_results : list dict)
    (keyword : string) (search_time : Q) (sources : list string) : M S string :=
  timestamp <- datetime_now_isoformat ;;
  ret (json_dumps (report all_results keyword search_time sources timestamp)).

(** One row of the CSV report, without the line end. *)
Definition csv_row (entry : dict) : result string :=
  let quote_mark := chr 34 in
  and_then (py_replace (dict_get entry "title" (VStr EmptyString))
              quote_mark (quote_mark +:+ quote_mark)) (fun title =>
  and_then (py_replace (dict_get entry "description" (VStr EmptyString))
              quote_mark (quote_mark +:+ quote_mark)) (fun description =>
  py_join ","
    (VList
       [dict_get entry "source" (VStr EmptyString);
        VStr (quote_mark +:+ title +:+ quote_mark);
        VStr (quote_mark +:+ description +:+ quote_mark);
        dict_get entry "url" (VStr EmptyString);
        dict_get entry "timestamp" (VStr EmptyString)]))).

(** The loop of [to_csv]: [output] grows by one line per result. *)
Fixpoint csv_rows (all_results : list dict) (output : string) : result string :=
  match all_results with
  | [] => Ok output
  | entry :: rest =>
      and_then (csv_row entry) (fun row => csv_rows rest (output +:+ row +:+ chr 10))
  end.

(** [ReportGenerator.to_csv]. *)
Definition to_csv (all_results : list dict) : result string :=
  match all_results with
  | [] => Ok "No results found"
  | _ => csv_rows all_results ("source,title,description,url,timestamp" +:+ chr 10)
  end.

End ReportGenerator.

(** ** Orchestrator *)

(** A future of the thread pool, once done: what the submitted call returned
    or raised. *)
Abbreviation future := (result (list dict)).

(** [list.insert(n, x)]. *)
Definition insert_at {A} (n : nat) (x : A) (l : list A) : list A :=
  take n l ++ x :: drop n l.

(** The futures in the order they complete: the [i]-th submitted future
    takes the place [order i] among those submitted before it. Every
    completion order is obtained for some [order], and nothing but a
    rearrangement of the futures is. *)
Fixpoint arrange {A} (order : nat → nat) (i : nat) (done pending : list A) : list A :=
  match pending with
  | [] => done
  | x :: rest => arrange order (S i) (insert_at (order i) x done) rest
  end.

(** [as_completed(futures)]. *)
Definition as_completed {S A} (futures : list A) : M S (list A) :=
  fun s w => (Ok (arrange (order w) 0 [] futures), s, w).

Module WebIntelligenceGatherer.

(** The attributes of the orchestrator. *)
Record t : Type := Make {
  keyword : string;
  sources : list string;
  max_results : Z;
  all_results : list dict;
  search_time : Q
}.

Definition set_all_results (l : list dict) : M t unit :=
  fun self w =>
    (Ok tt, Make (keyword self) (sources self) (max_results self) l (search_time self), w).

Definition set_search_time (x : Q) : M t unit :=
  fun self w =>
    (Ok tt, Make (keyword self) (sources self) (max_results self) (all_results self) x, w).

(** [WebIntelligenceGatherer.__init__]. *)
Definition __init__ (keyword : string) (sources : list string) (max_results : Z) : result t :=
  let self := Make keyword sources max_results [] 0 in
  if negb (truthy (VStr keyword))
     || Nat.ltb (String.length keyword) config.MIN_KEYWORD_LENGTH
  then Raise (ValueError (Msg ("Keyword must be at least " +:+
                               pretty config.MIN_KEYWORD_LENGTH +:+ " characters")))
  else if Nat.ltb config.MAX_KEYWORD_LENGTH (String.length keyword)
  then Raise (ValueError (Msg ("Keyword must be less than " +:+
                               pretty config.MAX_KEYWORD_LENGTH +:+ " characters")))
  else
    let invalid_sources : gset string :=
      list_to_set sources ∖ list_to_set config.AVAILABLE_SOURCES in
    if decide (invalid_sources = ∅) then Ok self
    else Raise (ValueError (MsgInvalidSources invalid_sources)).

(** The table of [_get_searcher]. *)
Definition searchers : gmap string searcher_class :=
  list_to_map
    [("wikipedia", WikipediaSearcher);
     ("github", GitHubSearcher);
     ("stackoverflow", StackOverflowSearcher);
     ("hackernews", HackerNewsSearcher);
     ("googlenews", GoogleNewsSearcher)].

(** [WebIntelligenceGatherer._get_searcher]. *)
Definition _get_searcher (self : t) (source : string) : option searcher :=
  match searchers !! source with
  | None => None
  | Some searcher_class => Some (new_searcher searcher_class (keyword self) (max_results self))
  end.

(** [executor.submit(searcher.search)]: the call runs on the searcher's own
    state, and the future holds what it returned or raised. The submission
    is recorded in the trace. *)
Definition submit `{Builtins} (s : searcher) : M t future :=
  fun self w =>
    let '(r, _, w') := searcher_search s (record_event (EvSubmit (source_name s)) w) in
    (Ok r, self, w').

(** The first loop of [search]: one future per source that has a searcher. *)
Fixpoint submit_all `{Builtins} (sources : list string) (futures : list (future * string))
    : M t (list (future * string)) :=
  match sources with
  | [] => ret futures
  | source :: rest =>
      self <- get_self ;;
      match _get_searcher self source with
      | Some searcher =>
          future <- submit searcher ;;
          submit_all rest (futures ++ [(future, source)])
      | None => submit_all rest futures
      end
  end.

(** The deduplication loop of [search]. *)
Fixpoint dedup_loop (all_results unique_results : list dict) (seen_urls : gset key)
    : result (list dict) :=
  match all_results with
  | [] => Ok unique_results
  | entry :: rest =>
      let url := dict_get entry "url" (VStr EmptyString) in
      if truthy url then
        and_then (hash_key url) (fun k =>
          if decide (k ∈ seen_urls) then dedup_loop rest unique_results seen_urls
          else dedup_loop rest (unique_results ++ [entry]) ({[k]} ∪ seen_urls))
      else dedup_loop rest unique_results seen_urls
  end.

(** The deduplication pass of [search] on a list of results. *)
Definition deduplicate (all_results : list dict) : result (list dict) :=
  dedup_loop all_results [] ∅.

(** [WebIntelligenceGatherer.search]. *)
Definition search `{Builtins} : M t (list dict) :=
  start_time <- time_time ;;
  self <- get_self ;;
  futures <- submit_all (sources self) [] ;;
  completed <- as_completed futures ;;
  for_each completed (fun '(future, source) =>
    try_except
      (results <- lift future ;;
       self <- get_self ;;
       set_all_results (all_results self ++ results))
      (fun e => ret tt)) ;;
  end_time <- time_time ;;
  set_search_time (float_sub end_time start_time) ;;
  self <- get_self ;;
  unique_results <- lift (deduplicate (all_results self)) ;;
  set_all_results unique_results ;;
  ret unique_results.

(** Construction followed by [search], as [main] does. *)
Definition construct_and_search `{Builtins} (keyword : string) (sources : list string)
    (max_results : Z) (w : world) : result (list dict) * option t * world :=
  match __init__ keyword sources max_results with
  | Raise e => (Raise e, None, w)
  | Ok self =>
      let '(r, self', w') := search self w in
      (r, Some self', w')
  end.

End WebIntelligenceGatherer.

(** ** Printing the results *)

(** Of [print_results] the model keeps what can go wrong and the grouping:
    the text itself goes to the console. *)

(** [v.upper()]: only a [str] has the method. What it returns is printed. *)
Definition py_upper (v : value) : result unit :=
  match v with
  | VStr _ => Ok tt
  | _ => Raise AttributeError
  end.

(** [v[:n]]: a string and a list can be sliced, the other values cannot (a
    dictionary raises a [TypeError] too, or from Python 3.12 on a [KeyError],
    an [Exception] as well). What it returns is printed. *)
Definition py_slice (v : value) (n : Z) : result unit :=
  match v with
  | VStr _ | VList _ => Ok tt
  | _ => Raise TypeError
  end.

(** The dictionary [by_source]: for each key, in the order of insertion,
    the source as first met and the results filed under it. *)
Abbreviation groups := (list (key * (value * list dict))).

(** [if source not in by_source: by_source[source] = []] followed by
    [by_source[source].append(result)], for a source with the hash key [k]. *)
Fixpoint file_under (k : key) (source : value) (entry : dict) (by_source : groups) : groups :=
  match by_source with
  | [] => [(k, (source, [entry]))]
  | (k', (source', filed)) :: rest =>
      if decide (k' = k) then (k', (source', filed ++ [entry])) :: rest
      else (k', (source', filed)) :: file_under k source entry rest
  end.

(** The first loop of [print_results]. *)
Fixpoint group_by_source (all_results : list dict) (by_source : groups) : result groups :=
  match all_results with
  | [] => Ok by_source
  | entry :: rest =>
      let source := dict_get entry "source" (VStr "unknown") in
      and_then (hash_key source) (fun k =>
        group_by_source rest (file_under k source entry by_source))
  end.

(** [WebIntelligenceGatherer.print_results]. *)
Definition print_results : M WebIntelligenceGatherer.t unit :=
  self <- get_self ;;
  match WebIntelligenceGatherer.all_results self with
  | [] => ret tt
  | _ =>
      by_source <- lift (group_by_source (WebIntelligenceGatherer.all_results self) []) ;;
      for_each by_source (fun '(_, (source, filed)) =>
        lift (py_upper source) ;;
        for_each filed (fun entry =>
          lift (py_slice (dict_get entry "description" (VStr "No description")) 100) ;;
          lift (py_slice (dict_get entry "url" (VStr "N/A")) 70) ;;
          ret tt))
  end.

(** ** Entry point *)

(** The formats [--format] accepts. *)
Inductive report_format : Type :=
| OUTPUT_FORMAT_JSON
| OUTPUT_FORMAT_CSV.

(** The arguments as [parse_args] returns them; [output] is [None] when the
    option is not given. *)
Record arguments : Type := Args {
  arg_keyword : string;
  arg_sources : list string;
  arg_max_results : Z;
  arg_format : report_format;
  arg_output : option string
}.

(** What [create_parser] makes of a command line that gives the keyword only. *)
Definition default_arguments (keyword : string) : arguments :=
  Args keyword config.DEFAULT_SOURCES config.MAX_RESULTS_DEFAULT OUTPUT_FORMAT_JSON None.

(** What [parser.parse_args()] comes to: the arguments, or the end of the
    process that [argparse] brings about itself, with the status 2 on a
    command line it refuses (no [--keyword], an unknown format, a cap that is
    no integer) and with the status 0 once the help is printed. The call
    stands inside the [try] of [main], but [SystemExit] is no [Exception]:
    neither handler catches it. *)
Inductive command_line : Type :=
| Parsed (args : arguments)
| ParserExit (status : Z).

(** How the writing of a file ends: [mkdir] raises and nothing is there;
    the directories are made and [open] raises; the file is open, hence
    created or emptied, and [write] raises, [partial] being what the file then
    holds; or the content is written. *)
Inductive write_outcome : Type :=
| MkdirFails
| OpenFails
| WriteFails (partial : string)
| WriteDone.

(** The files under [config.OUTPUT_DIR]: how the writing of a given content
    at a given path ends, the paths whose directories have been made, and
    the files written so far, with what they hold. *)
Record disk : Type := Disk {
  store : string → string → write_outcome;
  made : list string;
  written : list (string * string)
}.

(** The end of [main]: [output_path.parent.mkdir(parents=True,
    exist_ok=True)], then [open(output_path, 'w')] and [f.write(report)].
    Every failure is an exception, which ends the run with the status 1;
    the status is 0 when the report is written. *)
Definition write_report (output report : string) (d : disk) : Z * disk :=
  match store d output report with
  | MkdirFails => (1, d)
  | OpenFails => (1, Disk (store d) (made d ++ [output]) (written d))
  | WriteFails partial =>
      (1, Disk (store d) (made d ++ [output]) (written d ++ [(output, partial)]))
  | WriteDone =>
      (0, Disk (store d) (made d ++ [output]) (written d ++ [(output, report)]))
  end.

(** The sources [main] goes on with: the list the user gave, or every
    available source when the list is [all] alone. *)
Definition process_sources (sources : list string) : list string :=
  if decide (sources = ["all"]) then config.AVAILABLE_SOURCES else sources.

(** [main]: the exit status of the process, 0 when [main] returns, with
    the disk and the world it leaves. [sys.exit(1)] and every exception end
    the run with the status 1. An interruption from the keyboard is not
    modelled. *)
Definition main `{Builtins} `{JsonLibrary} (cmd : command_line) (d : disk) (w : world)
    : Z * disk * world :=
  match cmd with
  | ParserExit status => (status, d, w)
  | Parsed args =>
      let sources := process_sources (arg_sources args) in
      let invalid : gset string :=
        list_to_set sources ∖ list_to_set config.AVAILABLE_SOURCES in
      if decide (invalid = ∅) then
        match WebIntelligenceGatherer.__init__ (arg_keyword args) sources
                (arg_max_results args) with
        | Raise _ => (1, d, w)
        | Ok gatherer =>
            match WebIntelligenceGatherer.search gatherer w with
            | (Raise _, _, w) => (1, d, w)
            | (Ok _, gatherer, w) =>
                match print_results gatherer w with
                | (Raise _, _, w) => (1, d, w)
                | (Ok _, gatherer, w) =>
                    match arg_output args with
                    | Some output =>
                        if truthy (VStr output) then
                          let '(report, _, w) :=
                            match arg_format args with
                            | OUTPUT_FORMAT_JSON =>
                                ReportGenerator.to_json
                                  (WebIntelligenceGatherer.all_results gatherer)
                                  (arg_keyword args)
                                  (WebIntelligenceGatherer.search_time gatherer) sources tt w
                            | OUTPUT_FORMAT_CSV =>
                                lift (ReportGenerator.to_csv
                                        (WebIntelligenceGatherer.all_results gatherer)) tt w
                            end in
                          match report with
                          | Raise _ => (1, d, w)
                          | Ok report => (write_report output report d, w)
                          end
                        else (0, d, w)
                    | None => (0, d, w)
                    end
                end
            end
        end
      else (1, d, w)
  end.

(** * Specification vocabulary *)

(** ** Deduplication *)

Abbreviation deduplicate := WebIntelligenceGatherer.deduplicate.

Abbreviation dedup_loop := WebIntelligenceGatherer.dedup_loop.

(** The URL of a result, as the deduplication pass reads it. *)
Definition url_of (entry : dict) : value := dict_get entry "url" (VStr EmptyString).

(** The key under which a set holds the URL of a result. *)
Definition url_key (entry : dict) : result key := hash_key (url_of entry).

(** The URLs of the results can be looked up in a set: every non-empty one
    is hashable. This holds in particular when every URL is text. *)
Definition hashable_urls (l : list dict) : Prop :=
  ∀ entry, entry ∈ l → truthy (url_of entry) = true → is_ok (url_key entry) = true.

(** The entry at position [i] of [l] has a non-empty URL that no earlier
    entry of [l] has. *)
Definition first_occurrence (l : list dict) (i : nat) (entry : dict) : Prop :=
  l !! i = Some entry ∧ truthy (url_of entry) = true ∧
  ∀ j other, (j < i)%nat → l !! j = Some other → url_key other ≠ url_key entry.

(** The results of the first example of the specification. *)
Definition with_url (u : string) : dict := [("url", VStr u)].

Definition example_results : list dict :=
  [with_url "http://a"; with_url "http://a"; with_url EmptyString; with_url EmptyString].

(** Whether a value is empty can be read off its key. *)
Definition empty_key (k : key) : bool :=
  match k with
  | KNone => true
  | KNum n _ => n =? 0
  | KStr s => String.eqb s EmptyString
  end.

(** ** Relations kept by the steps of a method *)

(** Every run of [m] takes the object and the world to related ones,
    whether it returns or raises. *)
Definition respects {S A} (R : relation (S * world)) (m : M S A) : Prop :=
  ∀ s w, R (s, w) (final_self (m s w), final_world (m s w)).

(** The keys of a normalized result, in the order the searchers write them. *)
Definition schema_keys : list string := ["source"; "title"; "description"; "url"; "timestamp"].

Definition has_schema_keys (entry : dict) : Prop := entry.*1 = schema_keys.

(** The sources submitted to the thread pool, in order, as a trace records them. *)
Definition submissions (t : list event) : list string :=
  omap (fun e => match e with EvSubmit s => Some s | _ => None end) t.

(** A step that leaves the object alone and submits nothing. *)
Definition quiet_step {S} : relation (S * world) :=
  fun x y => y.1 = x.1 ∧ submissions (trace y.2) = submissions (trace x.2).

(** A step of a searcher: its class, keyword, cap and name stay, its results
    grow at the end by normalized entries, and nothing is submitted. *)
Definition searcher_step : relation (searcher * world) :=
  fun x y =>
    cls y.1 = cls x.1 ∧ keyword y.1 = keyword x.1 ∧
    max_results y.1 = max_results x.1 ∧ source_name y.1 = source_name x.1 ∧
    (∃ more, results y.1 = results x.1 ++ more ∧ Forall has_schema_keys more) ∧
    submissions (trace y.2) = submissions (trace x.2).

(** ** Requests and worlds *)

(** What one attempt of [_safe_request] comes to: the [n]-th call of
    [requests.get] of the run followed by [raise_for_status]. *)
Definition attempt (w : world) (n : nat) (r : request) : result response :=
  match net w n r with
  | Ok resp =>
      if (400 <=? status_code resp) && (status_code resp <? 600)
      then Raise (HTTPError (status_code resp))
      else Ok resp
  | Raise e => Raise e
  end.

(** The request [_safe_request url kw] sends. *)
Definition request_of (url : string) (kw : kwargs) : request :=
  Request url config.TIMEOUT
    (Kwargs (kw_params kw)
       (Some (<["User-Agent" := config.USER_AGENT]> (default ∅ (kw_headers kw))))).

(** A world in which every request gets the same answer. *)
Definition world_of (answer : result response) : world :=
  World (fun _ _ => answer) (fun _ => "2024-01-01T00:00:00") (fun _ => 0%Q) (fun _ => 0%nat) [].

(** A world without network. *)
Definition offline : world := world_of (Raise (RequestException "offline")).

(** A successful response with a JSON body. *)
Definition json_response (v : value) : response := Response 200 (Ok v) (fun _ => []).

(** ** Answers and failures *)

(** An example answer: three hits of the encyclopedia. *)
Definition hit (title : string) : value :=
  VDict [("title", VStr title); ("snippet", VStr "text")].

Definition three_hits : value :=
  VDict [("query", VDict [("search", VList [hit "A"; hit "B"; hit "C"])])].





(** The searchers that read a JSON body. *)
Definition reads_json (c : searcher_class) : bool :=
  match c with
  | GoogleNewsSearcher => false
  | _ => true
  end.

(** The shape all [search] methods share: the guarded body, then the
    truncated results. *)
Definition guarded (body : M searcher unit) : M searcher (list dict) :=
  bind (try_except body (fun _ => ret tt)) (fun _ => return_results).

(** ** Construction and dispatch *)

(** Every requested source is one of the available ones. *)
Definition known_sources (srcs : list string) : Prop :=
  ∀ s, s ∈ srcs → s ∈ config.AVAILABLE_SOURCES.

(** A step of the orchestrator that submits nothing. *)
Definition gatherer_step : relation (WebIntelligenceGatherer.t * world) :=
  fun x y => submissions (trace y.2) = submissions (trace x.2).

(** ** An instance of the builtins to compute with *)

(** The theorems hold for every instance of [Builtins]. To run the model on
    examples, here is one that computes on exact values: a float is printed
    by its decimal expansion (up to twenty places), a container in the manner
    of [repr] with strings quoted as they are, the difference of two floats
    is their exact difference, and [round] rounds the exact value half to
    even. *)

Definition digit_char (d : Z) : ascii := ascii_of_nat (48 + Z.to_nat d).

Fixpoint fraction_digits (fuel : nat) (num den : Z) : string :=
  match fuel with
  | O => EmptyString
  | S fuel' =>
      if num =? 0 then EmptyString
      else String (digit_char (num * 10 / den))
             (fraction_digits fuel' (num * 10 mod den) den)
  end.

Definition decimal (q : Q) : string :=
  let n := Z.abs (Qnum q) in
  let d := Zpos (Qden q) in
  let fraction := fraction_digits 20 (n mod d) d in
  (if Qnum q <? 0 then "-" else EmptyString) +:+ pretty (n / d) +:+ "." +:+
  (if String.eqb fraction EmptyString then "0" else fraction).

Fixpoint exact_repr (v : value) : string :=
  match v with
  | VNone => "None"
  | VBool true => "True"
  | VBool false => "False"
  | VInt n => pretty n
  | VFloat q => decimal q
  | VStr s => "'" +:+ s +:+ "'"
  | VList l => "[" +:+ str_join ", " (map exact_repr l) +:+ "]"
  | VDict d =>
      "{" +:+
      str_join ", " (map (fun '(k, x) => "'" +:+ k +:+ "': " +:+ exact_repr x) d) +:+
      "}"
  end.

Definition round_half_even (q : Q) : Z :=
  let below := Qfloor q in
  match Qcompare (q - inject_Z below) (1 # 2) with
  | Lt => below
  | Gt => below + 1
  | Eq => if Z.even below then below else below + 1
  end.

Definition exact_round (q : Q) (ndigits : Z) : Q :=
  Qred (inject_Z (round_half_even (q * Qpower 10 ndigits)) / Qpower 10 ndigits).

Global Instance exact_builtins : Builtins := {|
  py_repr := exact_repr;
  float_sub := fun x y => Qred (x - y);
  py_round := exact_round
|}.

(** ** Example inputs *)

(** An orchestrator as the constructor returns it. *)
Definition example_gatherer : WebIntelligenceGatherer.t :=
  WebIntelligenceGatherer.Make "kw" ["wikipedia"; "github"] 5 [] 0.

(** A world in which every request is answered with three hits. *)
Definition example_world : world := world_of (Ok (json_response three_hits)).

(** A keyword of [n] characters. *)
Definition keyword_of_length (n : nat) : string := string_of_list_ascii (repeat "a"%char n).

(** ** The CSV report *)

(** The report as the specification words it: a placeholder for no result;
    otherwise the header row, then one row per result, in order, in which
    the title and the description stand between double quotes with every
    double quote of theirs doubled, and the other fields stand as they are. *)

Definition quote_char : ascii := ascii_of_nat 34.

Fixpoint double_quotes (s : string) : string :=
  match s with
  | EmptyString => EmptyString
  | String c s' =>
      if Ascii.eqb c quote_char then String c (String c (double_quotes s'))
      else String c (double_quotes s')
  end.

Definition quoted (s : string) : string :=
  String quote_char (double_quotes s +:+ String quote_char EmptyString).

(** The text of a field, empty when the field is missing. *)
Definition text_of (entry : dict) (k : string) : string :=
  match dict_get entry k (VStr EmptyString) with
  | VStr s => s
  | _ => EmptyString
  end.

Definition csv_line (entry : dict) : string :=
  text_of entry "source" +:+ "," +:+ quoted (text_of entry "title") +:+ "," +:+
  quoted (text_of entry "description") +:+ "," +:+ text_of entry "url" +:+ "," +:+
  text_of entry "timestamp" +:+ chr 10.

Definition csv_header : string := "source,title,description,url,timestamp" +:+ chr 10.

Definition csv_document (l : list dict) : string :=
  match l with
  | [] => "No results found"
  | _ => csv_header +:+ foldr String.append EmptyString (map csv_line l)
  end.

(** The fields of a result are text, as the data model has them (a field
    may be missing). *)
Definition text_fields (entry : dict) : Prop :=
  ∀ k, k ∈ schema_keys → ∃ s, dict_get entry k (VStr EmptyString) = VStr s.

(** A result whose title holds double quotes. *)
Definition quoting_entry : dict :=
  [("source", VStr "github"); ("title", VStr ("say " +:+ chr 34 +:+ "hi" +:+ chr 34));
   ("description", VStr "a, b"); ("url", VStr "http://a");
   ("timestamp", VStr "2024-01-01T00:00:00")].

(** ** A JSON library to compute with *)

(** A writer that lays a value out as
    [json.dumps(obj, indent=2, ensure_ascii=False)] does (floats by their
    decimal expansion), and a reader of such texts. The theorem on [to_json]
    holds for every library that reads back what it wrote. *)
Module ReferenceJson.

Definition backslash : ascii := ascii_of_nat 92.

Definition hex_lower (n : nat) : ascii :=
  ascii_of_nat (if Nat.ltb n 10 then 48 + n else 87 + n).

Definition escape_char (c : ascii) : string :=
  let n := nat_of_ascii c in
  if Nat.eqb n 34 then String backslash (chr 34)
  else if Nat.eqb n 92 then String backslash (String backslash EmptyString)
  else if Nat.eqb n 10 then String backslash "n"
  else if Nat.eqb n 13 then String backslash "r"
  else if Nat.eqb n 9 then String backslash "t"
  else if Nat.eqb n 8 then String backslash "b"
  else if Nat.eqb n 12 then String backslash "f"
  else if Nat.ltb n 32
  then String backslash
         ("u00" +:+ String (hex_lower (Nat.div n 16))
                      (String (hex_lower (Nat.modulo n 16)) EmptyString))
  else String c EmptyString.

Fixpoint escape (s : string) : string :=
  match s with
  | EmptyString => EmptyString
  | String c s' => escape_char c +:+ escape s'
  end.

Definition write_string (s : string) : string := chr 34 +:+ escape s +:+ chr 34.

Fixpoint spaces (n : nat) : string :=
  match n with
  | O => EmptyString
  | S n' => String " " (spaces n')
  end.

(** The text of a value whose own line is indented by [level] steps. *)
Fixpoint write (level : nat) (v : value) : string :=
  let inner := spaces (2 * S level) in
  let line_break := chr 10 in
  match v with
  | VNone => "null"
  | VBool true => "true"
  | VBool false => "false"
  | VInt n => pretty n
  | VFloat q => decimal q
  | VStr s => write_string s
  | VList [] => "[]"
  | VList l =>
      "[" +:+ line_break +:+
      str_join ("," +:+ line_break) (map (fun x => inner +:+ write (S level) x) l) +:+
      line_break +:+ spaces (2 * level) +:+ "]"
  | VDict [] => "{}"
  | VDict d =>
      "{" +:+ line_break +:+
      str_join ("," +:+ line_break)
        (map (fun '(k, x) => inner +:+ write_string k +:+ ": " +:+ write (S level) x) d) +:+
      line_break +:+ spaces (2 * level) +:+ "}"
  end.

Definition is_space (c : ascii) : bool :=
  let n := nat_of_ascii c in
  Nat.eqb n 32 || Nat.eqb n 10 || Nat.eqb n 13 || Nat.eqb n 9.

Fixpoint skip_spaces (s : string) : string :=
  match s with
  | EmptyString => EmptyString
  | String c s' => if is_space c then skip_spaces s' else s
  end.

Definition hex_value (c : ascii) : option nat :=
  let n := nat_of_ascii c in
  if Nat.leb 48 n && Nat.leb n 57 then Some (n - 48)%nat
  else if Nat.leb 97 n && Nat.leb n 102 then Some (n - 87)%nat
  else if Nat.leb 65 n && Nat.leb n 70 then Some (n - 55)%nat
  else None.

(** The character an escape letter stands for. *)
Definition unescape (c : ascii) : option ascii :=
  let n := nat_of_ascii c in
  if Nat.eqb n 34 then Some c
  else if Nat.eqb n 92 then Some c
  else if Nat.eqb n 47 then Some c
  else if Nat.eqb n 110 then Some (ascii_of_nat 10)
  else if Nat.eqb n 114 then Some (ascii_of_nat 13)
  else if Nat.eqb n 116 then Some (ascii_of_nat 9)
  else if Nat.eqb n 98 then Some (ascii_of_nat 8)
  else if Nat.eqb n 102 then Some (ascii_of_nat 12)
  else None.

Definition prepend (c : ascii) (r : option (string * string)) : option (string * string) :=
  match r with
  | Some (s, rest) => Some (String c s, rest)
  | None => None
  end.

(** A string, read from after its opening quote. *)
Fixpoint read_string (s : string) : option (string * string) :=
  match s with
  | EmptyString => None
  | String c s' =>
      if Nat.eqb (nat_of_ascii c) 34 then Some (EmptyString, s')
      else if Nat.eqb (nat_of_ascii c) 92 then
        match s' with
        | EmptyString => None
        | String e s'' =>
            if Nat.eqb (nat_of_ascii e) 117 then
              match s'' with
              | String h1 (String h2 (String h3 (String h4 s5))) =>
                  match hex_value h1, hex_value h2, hex_value h3, hex_value h4 with
                  | Some 0%nat, Some 0%nat, Some a, Some b =>
                      prepend (ascii_of_nat (16 * a + b)) (read_string s5)
                  | _, _, _, _ => None
                  end
              | _ => None
              end
            else
              match unescape e with
              | Some c' => prepend c' (read_string s'')
              | None => None
              end
        end
      else prepend c (read_string s')
  end.

Fixpoint read_digits (s : string) : list Z * string :=
  match s with
  | EmptyString => ([], EmptyString)
  | String c s' =>
      let n := nat_of_ascii c in
      if Nat.leb 48 n && Nat.leb n 57
      then let '(ds, rest) := read_digits s' in (Z.of_nat (n - 48) :: ds, rest)
      else ([], s)
  end.

Definition digits_value (ds : list Z) : Z := fold_left (fun acc d => acc * 10 + d) ds 0.

(** A number without exponent: an integer, or a float when it has a
    fraction. *)
Definition read_number (s : string) : option (value * string) :=
  let '(negative, s1) :=
    match s with
    | String c s' => if Nat.eqb (nat_of_ascii c) 45 then (true, s') else (false, s)
    | EmptyString => (false, s)
    end in
  let sign := fun n : Z => if negative then - n else n in
  let '(whole, s2) := read_digits s1 in
  match whole, s2 with
  | [], _ => None
  | _, String c s3 =>
      if Nat.eqb (nat_of_ascii c) 46 then
        let '(fraction, s4) := read_digits s3 in
        match fraction with
        | [] => None
        | _ =>
            Some (VFloat (Qred (Qmake (sign (digits_value (whole ++ fraction)))
                                  (Z.to_pos (10 ^ Z.of_nat (length fraction))))),
                  s4)
        end
      else Some (VInt (sign (digits_value whole)), s2)
  | _, EmptyString => Some (VInt (sign (digits_value whole)), s2)
  end.

Fixpoint drop_chars (n : nat) (s : string) : string :=
  match n, s with
  | S n', String _ s' => drop_chars n' s'
  | _, _ => s
  end.

Definition starts_with (c : nat) (s : string) : option string :=
  match s with
  | String c' rest => if Nat.eqb (nat_of_ascii c') c then Some rest else None
  | EmptyString => None
  end.

Fixpoint read_value (fuel : nat) (s : string) : option (value * string) :=
  match fuel with
  | O => None
  | S fuel' =>
      let s := skip_spaces s in
      match s with
      | EmptyString => None
      | String c rest =>
          let n := nat_of_ascii c in
          if Nat.eqb n 34 then
            match read_string rest with
            | Some (text, r) => Some (VStr text, r)
            | None => None
            end
          else if Nat.eqb n 91 then
            match starts_with 93 (skip_spaces rest) with
            | Some r => Some (VList [], r)
            | None =>
                match read_elements fuel' rest with
                | Some (l, r) => Some (VList l, r)
                | None => None
                end
            end
          else if Nat.eqb n 123 then
            match starts_with 125 (skip_spaces rest) with
            | Some r => Some (VDict [], r)
            | None =>
                match read_members fuel' rest with
                | Some (d, r) => Some (VDict d, r)
                | None => None
                end
            end
          else if String.prefix "null" s then Some (VNone, drop_chars 4 s)
          else if String.prefix "true" s then Some (VBool true, drop_chars 4 s)
          else if String.prefix "false" s then Some (VBool false, drop_chars 5 s)
          else read_number s
      end
  end
with read_elements (fuel : nat) (s : string) : option (list value * string) :=
  match fuel with
  | O => None
  | S fuel' =>
      match read_value fuel' s with
      | None => None
      | Some (v, r) =>
          let r := skip_spaces r in
          match starts_with 44 r, starts_with 93 r with
          | Some r', _ =>
              match read_elements fuel' r' with
              | Some (l, r'') => Some (v :: l, r'')
              | None => None
              end
          | None, Some r' => Some ([v], r')
          | None, None => None
          end
      end
  end
with read_members (fuel : nat) (s : string) : option (list (string * value) * string) :=
  match fuel with
  | O => None
  | S fuel' =>
      match starts_with 34 (skip_spaces s) with
      | None => None
      | Some r0 =>
          match read_string r0 with
          | None => None
          | Some (k, r1) =>
              match starts_with 58 (skip_spaces r1) with
              | None => None
              | Some r2 =>
                  match read_value fuel' r2 with
                  | None => None
                  | Some (v, r3) =>
                      let r3 := skip_spaces r3 in
                      match starts_with 44 r3, starts_with 125 r3 with
                      | Some r', _ =>
                          match read_members fuel' r' with
                          | Some (d, r'') => Some ((k, v) :: d, r'')
                          | None => None
                          end
                      | None, Some r' => Some ([(k, v)], r')
                      | None, None => None
                      end
                  end
              end
          end
      end
  end.

Definition read (s : string) : result value :=
  match read_value (2 * String.length s + 2) s with
  | Some (v, rest) =>
      match skip_spaces rest with
      | EmptyString => Ok v
      | _ => Raise JSONDecodeError
      end
  | None => Raise JSONDecodeError
  end.

Definition library : JsonLibrary := {| json_dumps := write 0; json_loads := read |}.

End ReferenceJson.

(** ** Normalized results *)

(** A future that holds nothing but normalized entries. *)
Definition normalized_future (f : future * string) : Prop :=
  ∀ out, f.1 = Ok out → Forall has_schema_keys out.

(** ** What a searcher builds from an answer *)

(** The searcher [s] with the results [l]. *)
Definition with_results (l : list dict) (s : searcher) : searcher :=
  Searcher (cls s) (keyword s) (max_results s) l (source_name s).

(** The world [w] once the events [evs] have taken place. *)
Definition after (evs : list event) (w : world) : world :=
  World (net w) (now w) (wall w) (order w) (trace w ++ evs).

(** The address each class of searcher sends its request to. *)
Definition search_url (c : searcher_class) (kw : string) : string :=
  match c with
  | WikipediaSearcher => config.WIKIPEDIA_API
  | GitHubSearcher => config.GITHUB_API
  | StackOverflowSearcher => config.STACKOVERFLOW_API
  | HackerNewsSearcher => config.HACKERNEWS_API
  | GoogleNewsSearcher => config.GOOGLE_NEWS_URL +:+ "?q=" +:+ quote kw
  end.

(** The query parameters of the request of each class. *)
Definition search_params (c : searcher_class) (kw : string) (cap : Z) : option dict :=
  match c with
  | WikipediaSearcher =>
      Some [("action", VStr "query"); ("format", VStr "json"); ("list", VStr "search");
            ("srsearch", VStr kw); ("srlimit", VInt cap)]
  | GitHubSearcher =>
      Some [("q", VStr kw); ("sort", VStr "stars"); ("order", VStr "desc");
            ("per_page", VInt cap)]
  | StackOverflowSearcher =>
      Some [("intitle", VStr kw); ("sort", VStr "relevance"); ("order", VStr "desc");
            ("pagesize", VInt cap); ("site", VStr "stackoverflow.com")]
  | HackerNewsSearcher =>
      Some [("query", VStr kw); ("hitsPerPage", VInt cap); ("tags", VStr "story")]
  | GoogleNewsSearcher => None
  end.

(** The request a searcher sends. *)
Definition search_request (s : searcher) : request :=
  request_of (search_url (cls s) (keyword s))
    (Kwargs (search_params (cls s) (keyword s) (max_results s)) None).

(** The response [_safe_request] ends with in the world [w]: that of the
    first attempt, or that of the second one when the first fails. *)
Definition safe_response (w : world) (r : request) : result response :=
  match attempt w (count is_get (trace w)) r with
  | Ok resp => Ok resp
  | Raise _ => attempt w (S (count is_get (trace w))) r
  end.

(** The events of a run of [_safe_request] in the world [w]. *)
Definition request_events (w : world) (r : request) : list event :=
  match attempt w (count is_get (trace w)) r with
  | Ok _ => [EvGet r]
  | Raise _ => [EvGet r; EvSleep 1; EvGet r]
  end.

(** The items each searcher that reads JSON goes through. *)
Definition json_items (c : searcher_class) (data : value) : result (list value) :=
  match c with
  | WikipediaSearcher =>
      and_then (py_get data "query" (VDict [])) (fun query =>
      and_then (py_get query "search" (VList [])) py_iter)
  | GitHubSearcher | StackOverflowSearcher =>
      and_then (py_get data "items" (VList [])) py_iter
  | HackerNewsSearcher =>
      and_then (py_get data "hits" (VList [])) py_iter
  | GoogleNewsSearcher => Ok []
  end.

(** What the body of the loop of each searcher makes of one item: the entry
    it appends, given the reading of the clock, or the exception it raises. *)
Definition json_entry `{Builtins} (c : searcher_class) (name : string) (item : value)
    : result (option (string → dict)) :=
  match c with
  | WikipediaSearcher =>
      and_then (py_get item "title" (VStr EmptyString)) (fun title =>
      and_then (py_get item "snippet" (VStr EmptyString)) (fun snippet =>
      and_then (py_replace snippet "<span class='searchmatch'>" EmptyString) (fun snippet =>
      and_then (py_replace (VStr snippet) "</span>" EmptyString) (fun description =>
      and_then (py_get item "title" (VStr EmptyString)) (fun page =>
      and_then (py_replace page " " "_") (fun page =>
      Ok (Some (fun timestamp =>
        [("source", VStr name);
         ("title", title);
         ("description", VStr description);
         ("url", VStr ("https://en.wikipedia.org/wiki/" +:+ page));
         ("timestamp", VStr timestamp)]))))))))
  | GitHubSearcher =>
      and_then (py_get item "name" (VStr EmptyString)) (fun title =>
      and_then (py_get item "description" (VStr "No description provided")) (fun description =>
      and_then (py_get item "html_url" (VStr EmptyString)) (fun url =>
      Ok (Some (fun timestamp =>
        [("source", VStr name);
         ("title", title);
         ("description", description);
         ("url", url);
         ("timestamp", VStr timestamp)])))))
  | StackOverflowSearcher =>
      and_then (py_get item "title" (VStr EmptyString)) (fun title =>
      and_then (py_replace title "&quot;" (chr 34)) (fun title =>
      and_then (py_replace (VStr title) "&amp;" "&") (fun title =>
      and_then (py_get item "score" (VInt 0)) (fun score =>
      and_then (py_get item "tags" (VList [])) (fun tags =>
      and_then (py_join ", " tags) (fun tags =>
      and_then (py_get item "link" (VStr EmptyString)) (fun url =>
      Ok (Some (fun timestamp =>
        [("source", VStr name);
         ("title", VStr title);
         ("description", VStr ("Score: " +:+ py_str score +:+ ", Tags: " +:+ tags));
         ("url", url);
         ("timestamp", VStr timestamp)])))))))))
  | HackerNewsSearcher =>
      and_then (py_get item "title" (VStr EmptyString)) (fun title =>
      and_then (py_get item "points" (VInt 0)) (fun points =>
      and_then (py_get item "num_comments" (VInt 0)) (fun comments =>
      and_then (py_get item "url" (VStr EmptyString)) (fun url =>
      and_then (if truthy url then Ok url
                else and_then (py_get item "objectID" (VStr EmptyString)) (fun id =>
                     Ok (VStr ("https://news.ycombinator.com/item?id=" +:+ py_str id))))
               (fun url =>
      Ok (Some (fun timestamp =>
        [("source", VStr name);
         ("title", title);
         ("description",
          VStr ("Points: " +:+ py_str points +:+ ", Comments: " +:+ py_str comments));
         ("url", url);
         ("timestamp", VStr timestamp)])))))))
  | GoogleNewsSearcher => Ok None
  end.

(** What the loop of the news searcher makes of one [article]: an entry when
    it has both a heading and a link, nothing otherwise. *)
Definition article_entry (name : string) (a : article) : result (option (string → dict)) :=
  match find_h3 a, find_a a with
  | Some title_elem, Some link_elem =>
      Ok (Some (fun timestamp =>
        [("source", VStr name);
         ("title", VStr (tag_text title_elem));
         ("description",
          VStr match find_p a with
               | Some desc_elem => tag_text desc_elem
               | None => "News article"
               end);
         ("url", dict_get (tag_attrs link_elem) "href" (VStr EmptyString));
         ("timestamp", VStr timestamp)]))
  | _, _ => Ok None
  end.

(** The entries a loop appends: the items are gone through in order, every
    entry takes the next reading of the clock, and the first item that
    raises ends the loop. *)
Fixpoint built_entries {A} (build : A → result (option (string → dict)))
    (clock : nat → string) (k : nat) (items : list A) : list dict :=
  match items with
  | [] => []
  | item :: rest =>
      match build item with
      | Ok (Some entry) => entry (clock k) :: built_entries build clock (S k) rest
      | Ok None => built_entries build clock k rest
      | Raise _ => []
      end
  end.

(** The entries the searcher [s] appends to its results in the world [w]. *)
Definition built `{Builtins} (s : searcher) (w : world) : list dict :=
  let k := count is_now (trace w) in
  match safe_response w (search_request s) with
  | Raise _ => []
  | Ok resp =>
      match cls s with
      | GoogleNewsSearcher =>
          built_entries (article_entry (source_name s)) (now w) k
            (find_all_article resp (max_results s))
      | c =>
          match and_then (json resp) (json_items c) with
          | Ok items => built_entries (json_entry c (source_name s)) (now w) k items
          | Raise _ => []
          end
      end
  end.

(** ** Items and the entries made of them *)

(** The field [k] of an item of an answer, [default] when the item has none. *)
Definition item_field (item : value) (k : string) (default : value) : value :=
  match item with
  | VDict d => dict_get d k default
  | _ => default
  end.

(** The text of the field [k] of an item, empty when there is none. *)
Definition item_text (item : value) (k : string) : string :=
  match item_field item k (VStr EmptyString) with
  | VStr s => s
  | _ => EmptyString
  end.

Definition is_object (item : value) : bool :=
  match item with VDict _ => true | _ => false end.

Definition is_text (v : value) : bool :=
  match v with VStr _ => true | _ => false end.

(** An item the encyclopedia searcher can use: an object whose title and
    snippet, if any, are text. *)
Definition wikipedia_item (item : value) : bool :=
  is_object item && is_text (item_field item "title" (VStr EmptyString))
  && is_text (item_field item "snippet" (VStr EmptyString)).

(** The entry made of such an item. *)
Definition wikipedia_result (item : value) (timestamp : string) : dict :=
  [("source", VStr "wikipedia");
   ("title", VStr (item_text item "title"));
   ("description",
    VStr (str_replace "</span>" EmptyString
            (str_replace "<span class='searchmatch'>" EmptyString (item_text item "snippet"))));
   ("url",
    VStr ("https://en.wikipedia.org/wiki/" +:+ str_replace " " "_" (item_text item "title")));
   ("timestamp", VStr timestamp)].

(** The entry made of a repository, which may be any object. *)
Definition github_result (item : value) (timestamp : string) : dict :=
  [("source", VStr "github");
   ("title", item_field item "name" (VStr EmptyString));
   ("description", item_field item "description" (VStr "No description provided"));
   ("url", item_field item "html_url" (VStr EmptyString));
   ("timestamp", VStr timestamp)].

(** A question the searcher can use: an object whose title, if any, is text
    and whose tags, if any, can be joined. *)
Definition stackoverflow_item (item : value) : bool :=
  is_object item && is_text (item_field item "title" (VStr EmptyString))
  && is_ok (py_join ", " (item_field item "tags" (VList []))).

Definition joined_tags (item : value) : string :=
  match py_join ", " (item_field item "tags" (VList [])) with
  | Ok s => s
  | Raise _ => EmptyString
  end.

(** The entry made of such a question. *)
Definition stackoverflow_result `{Builtins} (item : value) (timestamp : string) : dict :=
  [("source", VStr "stackoverflow");
   ("title",
    VStr (str_replace "&amp;" "&" (str_replace "&quot;" (chr 34) (item_text item "title"))));
   ("description",
    VStr ("Score: " +:+ py_str (item_field item "score" (VInt 0)) +:+ ", Tags: " +:+
          joined_tags item));
   ("url", item_field item "link" (VStr EmptyString));
   ("timestamp", VStr timestamp)].

(** The entry made of a story, which may be any object. *)
Definition hackernews_result `{Builtins} (item : value) (timestamp : string) : dict :=
  [("source", VStr "hackernews");
   ("title", item_field item "title" (VStr EmptyString));
   ("description",
    VStr ("Points: " +:+ py_str (item_field item "points" (VInt 0)) +:+ ", Comments: " +:+
          py_str (item_field item "num_comments" (VInt 0))));
   ("url",
    if truthy (item_field item "url" (VStr EmptyString))
    then item_field item "url" (VStr EmptyString)
    else VStr ("https://news.ycombinator.com/item?id=" +:+
               py_str (item_field item "objectID" (VStr EmptyString))));
   ("timestamp", VStr timestamp)].

(** An [article] the news searcher keeps: one with a heading and a link. *)
Definition has_heading_and_link (a : article) : bool :=
  match find_h3 a, find_a a with
  | Some _, Some _ => true
  | _, _ => false
  end.

Definition tag_text_or (default : string) (t : option tag) : string :=
  match t with
  | Some t => tag_text t
  | None => default
  end.

Definition tag_attr (t : option tag) (k : string) (default : value) : value :=
  match t with
  | Some t => dict_get (tag_attrs t) k default
  | None => default
  end.

(** The entry made of such an article. *)
Definition googlenews_result (a : article) (timestamp : string) : dict :=
  [("source", VStr "googlenews");
   ("title", VStr (tag_text_or EmptyString (find_h3 a)));
   ("description", VStr (tag_text_or "News article" (find_p a)));
   ("url", tag_attr (find_a a) "href" (VStr EmptyString));
   ("timestamp", VStr timestamp)].

(** The entries made of the items [l], the first one with the [k]-th
    reading of the clock. *)
Definition stamped {A} (entry : A → string → dict) (clock : nat → string) (k : nat)
    (l : list A) : list dict :=
  imap (fun i item => entry item (clock (k + i)%nat)) l.

(** The items from the first one on that cannot be used: the loop ends there. *)
Definition ends_at {A} (usable : A → bool) (rest : list A) : Prop :=
  ∀ item, head rest = Some item → usable item = false.

(** The searchers whose entries always carry a link. *)
Definition always_links (c : searcher_class) : bool :=
  match c with
  | WikipediaSearcher | HackerNewsSearcher => true
  | _ => false
  end.

(** ** A run of the orchestrator *)

(** The results a future adds to [all_results]: those it returned. *)
Definition future_results (f : future * string) : list dict :=
  match f.1 with
  | Ok l => l
  | Raise _ => []
  end.

(** The futures of the first loop of [search] on the sources [srcs], and the
    world once the searchers have run. *)
Fixpoint submitted `{Builtins} (self : WebIntelligenceGatherer.t) (srcs : list string)
    (w : world) : list (future * string) * world :=
  match srcs with
  | [] => ([], w)
  | source :: rest =>
      match WebIntelligenceGatherer._get_searcher self source with
      | Some s =>
          let w1 := after [EvSubmit (source_name s)] w in
          let found := built s w1 in
          let w2 := after (request_events w1 (search_request s) ++
                           repeat EvNow (length found)) w1 in
          ((Ok (slice_to found (max_results s)), source) :: (submitted self rest w2).1,
           (submitted self rest w2).2)
      | None => submitted self rest w
      end
  end.

(** The orchestrator [self] with the results [l] and the duration [t]. *)
Definition with_all_results (l : list dict) (self : WebIntelligenceGatherer.t)
    : WebIntelligenceGatherer.t :=
  WebIntelligenceGatherer.Make (WebIntelligenceGatherer.keyword self)
    (WebIntelligenceGatherer.sources self) (WebIntelligenceGatherer.max_results self)
    l (WebIntelligenceGatherer.search_time self).

Definition with_search_time (t : Q) (self : WebIntelligenceGatherer.t)
    : WebIntelligenceGatherer.t :=
  WebIntelligenceGatherer.Make (WebIntelligenceGatherer.keyword self)
    (WebIntelligenceGatherer.sources self) (WebIntelligenceGatherer.max_results self)
    (WebIntelligenceGatherer.all_results self) t.

(** The results of [self] followed by those of the futures, in the order
    the futures complete in the world [w]. *)
Definition merged (self : WebIntelligenceGatherer.t) (w : world)
    (futures : list (future * string)) : list dict :=
  WebIntelligenceGatherer.all_results self ++
  concat (map future_results (arrange (order w) 0 [] futures)).

(** ** Keys, orders and labels *)

(** The keys of the URLs of a list of results. *)
Definition url_keys (l : list dict) : gset key :=
  list_to_set (omap (fun entry => match url_key entry with
                                  | Ok k => Some k
                                  | Raise _ => None
                                  end) l).

(** The world [w] with the futures completing in the order [o]. *)
Definition with_order (o : nat → nat) (w : world) : world :=
  World (net w) (now w) (wall w) o (trace w).

(** The source a result is labelled with. *)
Definition source_of (entry : dict) : value := dict_get entry "source" VNone.

(** ** Reading a quoted field back *)

Definition prepend_char (c : ascii) (r : option (string * string)) : option (string * string) :=
  match r with
  | Some (content, rest) => Some (String c content, rest)
  | None => None
  end.

(** The content of a quoted field, read after its opening quote as a reader
    of CSV does: two double quotes stand for one, and a single one ends the
    field. Returns the content and what follows the closing quote. *)
Fixpoint read_quoted_content (s : string) : option (string * string) :=
  match s with
  | EmptyString => None
  | String c s' =>
      if Ascii.eqb c quote_char then
        match s' with
        | String c' s'' =>
            if Ascii.eqb c' quote_char then prepend_char quote_char (read_quoted_content s'')
            else Some (EmptyString, s')
        | EmptyString => Some (EmptyString, EmptyString)
        end
      else prepend_char c (read_quoted_content s')
  end.

(** A quoted field at the start of [s]. *)
Definition read_quoted (s : string) : option (string * string) :=
  match s with
  | String c s' => if Ascii.eqb c quote_char then read_quoted_content s' else None
  | EmptyString => None
  end.

(** What follows a quoted field in a row: not a double quote. *)
Definition no_quote_ahead (rest : string) : bool :=
  match rest with
  | String c _ => negb (Ascii.eqb c quote_char)
  | EmptyString => true
  end.

(** ** Groups *)

(** The key under which [print_results] files a result. *)
Definition source_key (entry : dict) : result key :=
  hash_key (dict_get entry "source" (VStr "unknown")).

(** [by_source[source]] for a source with the key [k], empty when there is
    no such group. *)
Fixpoint filed_under (k : key) (by_source : groups) : list dict :=
  match by_source with
  | [] => []
  | (k', (_, filed)) :: rest => if decide (k' = k) then filed else filed_under k rest
  end.

(** The results with the key [k], in their order. *)
Definition has_source_key (k : key) (entry : dict) : bool :=
  match source_key entry with
  | Ok k' => bool_decide (k' = k)
  | Raise _ => false
  end.

Definition with_source_key (k : key) (l : list dict) : list dict :=
  filter (has_source_key k) l.

(** All the results of the groups. *)
Definition all_filed (by_source : groups) : list dict :=
  concat (map (fun g => g.2.2) by_source).

(** A value that can be sliced. *)
Definition sliceable (v : value) : bool :=
  match v with
  | VStr _ | VList _ => true
  | _ => false
  end.

(** A result [print_results] can print: its source is text, its description
    and its URL can be sliced (each with the default of [print_results] when
    missing). *)
Definition printable (entry : dict) : bool :=
  is_text (dict_get entry "source" (VStr "unknown"))
  && sliceable (dict_get entry "description" (VStr "No description"))
  && sliceable (dict_get entry "url" (VStr "N/A")).

(** The groups are those of a run of the loop: every one is filed under the
    key of its source. *)
Definition keyed (by_source : groups) : Prop :=
  Forall (fun g => hash_key g.2.1 = Ok g.1) by_source.

(** ** The checks of [print_results] *)

(** What a loop that only checks its items comes to: the first check that
    raises ends it. *)
Fixpoint checks {A} (check : A → result unit) (l : list A) : result unit :=
  match l with
  | [] => Ok tt
  | x :: l' => and_then (check x) (fun _ => checks check l')
  end.

(** The expressions [print_results] evaluates on one result. *)
Definition check_entry (entry : dict) : result unit :=
  and_then (py_slice (dict_get entry "description" (VStr "No description")) 100) (fun _ =>
  py_slice (dict_get entry "url" (VStr "N/A")) 70).

(** The expressions [print_results] evaluates on one group. *)
Definition check_group (g : key * (value * list dict)) : result unit :=
  and_then (py_upper g.2.1) (fun _ => checks check_entry g.2.2).

(** ** Runs of [main] *)


(** The keyword has an accepted length. *)
Definition valid_keyword (kw : string) : Prop := (2 ≤ String.length kw ≤ 200)%nat.

(** A disk on which every file can be written, and none has been. *)
Definition empty_disk : disk := Disk (fun _ _ => WriteDone) [] [].

(** The path [output] can be written on the disk [d], whatever the content. *)
Definition can_write (d : disk) (output : string) : Prop :=
  ∀ content, store d output content = WriteDone.

(** ** Example answers *)

Definition repository (name : string) (description : value) : value :=
  VDict [("name", VStr name); ("description", description);
         ("html_url", VStr ("https://github.com/a/" +:+ name))].

(** Two repositories, the second without description, then an item that is
    no object. *)
Definition two_repositories : value :=
  VDict [("items",
          VList [repository "one" (VStr "first"); repository "two" VNone; VStr "garbage"])].

Definition question : value :=
  VDict [("title", VStr "How to &quot;quote&quot; &amp; escape");
         ("score", VInt 3); ("tags", VList [VStr "python"; VStr "csv"]);
         ("link", VStr "https://stackoverflow.com/q/1")].

(** A question, then one whose tags cannot be joined. *)
Definition two_questions : value :=
  VDict [("items", VList [question; VDict [("title", VStr "t"); ("tags", VInt 0)]])].

(** Two stories, the second without address. *)
Definition two_stories : value :=
  VDict [("hits",
          VList [VDict [("title", VStr "a"); ("points", VInt 10); ("num_comments", VInt 2);
                        ("url", VStr "https://a.example")];
                 VDict [("title", VStr "b"); ("url", VNone); ("objectID", VStr "42")]])].

(** A page with two articles, the second without heading. *)
Definition news_page : response :=
  Response 200 (Raise JSONDecodeError)
    (fun limit =>
       slice_to
         [Article (Some (Tag "Headline" [])) (Some (Tag "link" [("href", VStr "./articles/1")]))
            None;
          Article None (Some (Tag "link" [("href", VStr "./articles/2")]))
            (Some (Tag "text" []))]
         limit).

(** Two results of different sources, as [print_results] groups them. *)
Definition example_listing : list dict :=
  [[("source", VStr "wikipedia"); ("title", VStr "A")];
   [("source", VStr "github"); ("title", VStr "B")];
   [("source", VStr "wikipedia"); ("title", VStr "C")]].

(** The arguments of a run on the repository search, with a JSON report. *)
Definition github_arguments : arguments :=
  Args "kw" ["github"] 5 OUTPUT_FORMAT_JSON (Some "report.json").

(** The arguments of a run on the encyclopedia, with a CSV report. *)
Definition wikipedia_arguments : arguments :=
  Args "kw" ["wikipedia"] 5 OUTPUT_FORMAT_CSV (Some "report.csv").

(** * Properties *)

(** ** Deduplication *)

Lemma and_then_ok {A B} (r : result A) (k : A → result B) b :
  and_then r k = Ok b → ∃ a, r = Ok a ∧ k a = Ok b.
Proof. destruct r; simpl; [eauto | discriminate]. Qed.

(** The accumulator of the loop only ever grows at its end. *)
Lemma dedup_loop_acc l : ∀ acc seen,
  dedup_loop l acc seen = and_then (dedup_loop l [] seen) (fun out => Ok (acc ++ out)%list).
Proof.
  induction l as [|entry rest IH]; intros acc seen; simpl.
  - by rewrite app_nil_r.
  - destruct (truthy _); [|apply IH].
    destruct (hash_key _) as [k|e]; simpl; [|done].
    destruct (decide (k ∈ seen)); [apply IH|].
    rewrite (IH (acc ++ [entry])), (IH [entry]).
    destruct (dedup_loop rest [] _); simpl; [|done].
    by rewrite <- app_assoc.
Qed.

(** One step of the loop, read from the front of the list. *)
Lemma dedup_loop_cons entry rest seen :
  dedup_loop (entry :: rest) [] seen =
  if truthy (url_of entry) then
    and_then (url_key entry) (fun k =>
      if decide (k ∈ seen) then dedup_loop rest [] seen
      else and_then (dedup_loop rest [] ({[k]} ∪ seen)) (fun out => Ok (entry :: out)))
  else dedup_loop rest [] seen.
Proof.
  unfold url_key, url_of; simpl.
  destruct (truthy _); [|done].
  destruct (hash_key _) as [k|e]; simpl; [|done].
  destruct (decide (k ∈ seen)); [done|].
  by rewrite dedup_loop_acc.
Qed.

Lemma Qred_num_zero q : (Qnum (Qred q) =? 0) = (Qnum q =? 0).
Proof.
  pose proof (Qred_correct q) as Hq. unfold Qeq in Hq.
  destruct (Z.eqb_spec (Qnum q) 0) as [Hz|Hz].
  - rewrite Hz in Hq. apply Z.eqb_eq. lia.
  - apply Z.eqb_neq. intros Hz'. rewrite Hz' in Hq. lia.
Qed.

Lemma truthy_empty_key v k : hash_key v = Ok k → truthy v = negb (empty_key k).
Proof.
  destruct v as [|[]|n|q|s|?|?]; simpl; intros Hk; simplify_eq; simpl; try done.
  by rewrite Qred_num_zero.
Qed.

(** A non-empty URL and an empty one never share a key. *)
Lemma truthy_key_separation v v' k :
  truthy v = true → truthy v' = false → hash_key v = Ok k → hash_key v' ≠ Ok k.
Proof.
  intros Ht Hf Hk Hk'.
  rewrite (truthy_empty_key _ _ Hk) in Ht.
  rewrite (truthy_empty_key _ _ Hk') in Hf. congruence.
Qed.

(** The pass goes through when every non-empty URL is hashable. *)
Lemma dedup_loop_ok l : ∀ seen, hashable_urls l → ∃ out, dedup_loop l [] seen = Ok out.
Proof.
  induction l as [|entry rest IH]; intros seen Hl; [by eexists|].
  assert (hashable_urls rest) as Hrest.
  { intros r Hr. apply Hl. by right. }
  rewrite dedup_loop_cons.
  destruct (truthy (url_of entry)) eqn:Ht; [|by apply IH].
  specialize (Hl entry (list_elem_of_here _ _) Ht).
  destruct (url_key entry) as [k|e]; [simpl|done].
  destruct (decide (k ∈ seen)); [by apply IH|].
  destruct (IH ({[k]} ∪ seen) Hrest) as [out ->]. by eexists.
Qed.

(** Moving one position down a list keeps a first occurrence, provided the
    new head has another URL. *)
Lemma first_occurrence_skip head rest i entry :
  url_key head ≠ url_key entry →
  first_occurrence rest i entry → first_occurrence (head :: rest) (S i) entry.
Proof.
  intros Hne (Hi & Ht & Hfirst). split; [done|]. split; [done|].
  intros [|j] other Hj Hother; simpl in Hother.
  - by simplify_eq.
  - apply (Hfirst j); [lia|done].
Qed.

(** What the loop returns, started with the set [seen]. *)
Lemma dedup_loop_spec l : ∀ seen out,
  dedup_loop l [] seen = Ok out →
  out `sublist_of` l ∧
  (∀ entry, entry ∈ out →
     truthy (url_of entry) = true ∧ ∃ k, url_key entry = Ok k ∧ k ∉ seen) ∧
  NoDup (url_key <$> out) ∧
  (∀ entry k, entry ∈ l → truthy (url_of entry) = true → url_key entry = Ok k →
     k ∈ seen ∨ ∃ kept, kept ∈ out ∧ url_key kept = Ok k) ∧
  (∀ entry, entry ∈ out → ∃ i, first_occurrence l i entry).
Proof.
  induction l as [|entry rest IH]; intros seen out Hout.
  { simpl in Hout. simplify_eq.
    split; [constructor|]. split; [by intros ? ?%elem_of_nil|].
    split; [constructor|]. split; [by intros ? ? ?%elem_of_nil|by intros ? ?%elem_of_nil]. }
  rewrite dedup_loop_cons in Hout.
  destruct (truthy (url_of entry)) eqn:Ht.
  - apply and_then_ok in Hout as (k & Hk & Hout).
    destruct (decide (k ∈ seen)) as [Hseen|Hfresh].
    + destruct (IH _ _ Hout) as (Hsub & Hkept & Hnodup & Hall & Hfirst).
      refine (conj _ (conj Hkept (conj Hnodup (conj _ _)))).
      * by apply sublist_cons.
      * intros r kr [->|Hr]%elem_of_cons Htr Hkr; [left; congruence|by eapply Hall].
      * intros r Hr. destruct (Hfirst r Hr) as [i Hi]. exists (S i).
        apply first_occurrence_skip; [|done].
        destruct (Hkept r Hr) as (_ & kr & Hkr & Hnot). congruence.
    + apply and_then_ok in Hout as (out' & Hout' & ?). simplify_eq.
      destruct (IH _ _ Hout') as (Hsub & Hkept & Hnodup & Hall & Hfirst).
      assert (∀ r, r ∈ out' → url_key r ≠ url_key entry) as Hother.
      { intros r Hr Heq. destruct (Hkept r Hr) as (_ & kr & Hkr & Hnot).
        apply Hnot. rewrite Heq in Hkr.
        apply elem_of_union. left. apply elem_of_singleton. congruence. }
      refine (conj _ (conj _ (conj _ (conj _ _)))).
      * by apply sublist_skip.
      * intros r [->|Hr]%elem_of_cons; [by eauto|].
        destruct (Hkept r Hr) as (? & kr & Hkr & Hnot).
        split; [done|]. exists kr. split; [done|].
        intros Hin. apply Hnot, elem_of_union. by right.
      * simpl. apply NoDup_cons. split; [|done].
        intros (r & Heq & Hr)%list_elem_of_fmap. by apply (Hother r).
      * intros r kr [->|Hr]%elem_of_cons Htr Hkr.
        { right. exists entry. split; [left|done]. }
        destruct (Hall r kr Hr Htr Hkr) as [[Hin|Hin]%elem_of_union|(kept & ? & ?)].
        { apply elem_of_singleton in Hin as ->. right. exists entry. split; [left|done]. }
        { by left. }
        { right. exists kept. split; [by right|done]. }
      * intros r [->|Hr]%elem_of_cons.
        { exists 0%nat. split; [done|]. split; [done|]. intros; lia. }
        destruct (Hfirst r Hr) as [i Hi]. exists (S i).
        apply first_occurrence_skip; [|done]. intros Heq. by apply (Hother r).
  - destruct (IH _ _ Hout) as (Hsub & Hkept & Hnodup & Hall & Hfirst).
    refine (conj _ (conj Hkept (conj Hnodup (conj _ _)))).
    + by apply sublist_cons.
    + intros r kr [->|Hr]%elem_of_cons Htr Hkr; [congruence|by eapply Hall].
    + intros r Hr. destruct (Hfirst r Hr) as [i Hi]. exists (S i).
      apply first_occurrence_skip; [|done].
      destruct (Hkept r Hr) as (Htr & kr & Hkr & _). rewrite Hkr.
      by apply (truthy_key_separation (url_of r)).
Qed.

(** A list the pass would return is returned as it is. *)
Lemma dedup_loop_fixed l : ∀ seen,
  (∀ entry, entry ∈ l →
     truthy (url_of entry) = true ∧ ∃ k, url_key entry = Ok k ∧ k ∉ seen) →
  NoDup (url_key <$> l) →
  dedup_loop l [] seen = Ok l.
Proof.
  induction l as [|entry rest IH]; intros seen Hl Hnodup; [done|].
  rewrite dedup_loop_cons.
  destruct (Hl entry (list_elem_of_here _ _)) as (-> & k & Hk & Hfresh).
  rewrite Hk. simpl. rewrite decide_False by done.
  simpl in Hnodup. apply NoDup_cons in Hnodup as [Hhead Hnodup].
  rewrite IH; [done| |done].
  intros r Hr. destruct (Hl r) as (Htr & kr & Hkr & Hnot); [by right|].
  split; [done|]. exists kr. split; [done|].
  intros [Hin|Hin]%elem_of_union; [|done].
  apply elem_of_singleton in Hin as ->.
  apply Hhead. apply list_elem_of_fmap. exists r. split; [congruence|done].
Qed.

(** ** Reasoning about methods *)

Lemma bind_ok {S A B} (m : M S A) (k : A → M S B) s w b s2 w2 :
  bind m k s w = (Ok b, s2, w2) →
  ∃ a s1 w1, m s w = (Ok a, s1, w1) ∧ k a s1 w1 = (Ok b, s2, w2).
Proof.
  unfold bind. destruct (m s w) as [[[a|e] s1] w1]; [eauto 6|discriminate].
Qed.

Ltac bind_inv H :=
  let a := fresh "a" in
  let s := fresh "s" in
  let w := fresh "w" in
  let Hm := fresh "Hm" in
  apply bind_ok in H as (a & s & w & Hm & H).

(** [search] returns what the deduplication pass returns, and stores it. *)
Lemma search_returns_deduplicated `{Builtins} (self : WebIntelligenceGatherer.t) w out self' w' :
  WebIntelligenceGatherer.search self w = (Ok out, self', w') →
  ∃ merged, deduplicate merged = Ok out ∧ WebIntelligenceGatherer.all_results self' = out.
Proof.
  unfold WebIntelligenceGatherer.search. intros Hs. repeat bind_inv Hs.
  repeat match goal with
         | Hx : lift _ _ _ = _ |- _ => unfold lift in Hx
         | Hx : WebIntelligenceGatherer.set_all_results _ _ _ = _ |- _ => unfold WebIntelligenceGatherer.set_all_results in Hx
         | Hx : ret _ _ _ = _ |- _ => unfold ret in Hx
         end.
  simplify_eq. eauto.
Qed.

(** Outside the data model: a URL that is a non-empty list cannot be looked
    up in a set, and the pass raises. *)
Example deduplicate_unhashable_url :
  deduplicate [[("url", VList [VStr "http://a"])]] = Raise TypeError.
Proof. reflexivity. Qed.

(** C1, the claim as it stands. On the example of the specification the
    pass returns one entry, not three: the entries with an empty URL are
    dropped. *)
Lemma deduplicate_example_drops_empty_urls :
  deduplicate example_results = Ok [with_url "http://a"] ∧
  ¬ (∃ out, deduplicate example_results = Ok out ∧ length out = 3%nat) ∧
  ¬ (∃ out, deduplicate example_results = Ok out ∧ with_url EmptyString ∈ out).
Proof.
  assert (deduplicate example_results = Ok [with_url "http://a"]) as Hrun
    by (vm_compute; reflexivity).
  split; [done|]. rewrite Hrun. split.
  - intros (out & Hout & Hlen). by simplify_eq.
  - intros (out & Hout & Hin). simplify_eq.
    apply list_elem_of_singleton in Hin. discriminate.
Qed.

(** C1, amended. For every sequence of results whose non-empty URLs are
    hashable (text, in particular), the deduplication pass returns a
    subsequence of its input, in the input's order, that holds exactly the
    first occurrence of each non-empty URL: later entries with that URL are
    dropped, and so is every entry whose URL is empty or missing. On the
    example of the specification it returns one entry. *)
Theorem deduplicate_keeps_first_occurrences :
  (∀ l : list dict,
     hashable_urls l →
     ∃ out, deduplicate l = Ok out ∧
       out `sublist_of` l ∧
       (∀ entry, entry ∈ out ↔ ∃ i, first_occurrence l i entry) ∧
       NoDup (url_key <$> out) ∧
       (∀ entry, entry ∈ out → truthy (url_of entry) = true)) ∧
  deduplicate example_results = Ok [with_url "http://a"].
Proof.
  split; [|by vm_compute].
  intros l Hl. destruct (dedup_loop_ok l ∅ Hl) as [out Hout].
  exists out. split; [done|].
  destruct (dedup_loop_spec _ _ _ Hout) as (Hsub & Hkept & Hnodup & Hall & Hfirst).
  split; [done|]. split; [|split; [done|intros r Hr; by destruct (Hkept r Hr)]].
  intros entry. split; [by apply Hfirst|].
  intros (i & Hi & Ht & Hmin).
  assert (entry ∈ l) as Hin by (apply list_elem_of_lookup; eauto).
  pose proof (Hl entry Hin Ht) as Hhash.
  destruct (url_key entry) as [k|] eqn:Hk; [|done].
  destruct (Hall entry k Hin Ht Hk) as [[]%elem_of_empty|(kept & Hkept_in & Hkk)].
  destruct (Hfirst kept Hkept_in) as (i' & Hi' & Ht' & Hmin').
  destruct (Nat.lt_trichotomy i i') as [Hlt|[->|Hlt]].
  - destruct (Hmin' i entry Hlt Hi). congruence.
  - by simplify_eq.
  - destruct (Hmin i' kept Hlt Hi'). congruence.
Qed.

(** The hypothesis of C1 holds of the example, and the theorem applies to it. *)
Lemma deduplicate_keeps_first_occurrences_witness :
  hashable_urls example_results ∧
  ∃ out, deduplicate example_results = Ok out ∧
    out `sublist_of` example_results ∧
    (∀ entry, entry ∈ out ↔ ∃ i, first_occurrence example_results i entry) ∧
    NoDup (url_key <$> out) ∧
    (∀ entry, entry ∈ out → truthy (url_of entry) = true).
Proof.
  assert (hashable_urls example_results) as Hh.
  { intros entry Hin _. unfold example_results in Hin.
    repeat (apply elem_of_cons in Hin as [->|Hin]; [reflexivity|]).
    by apply elem_of_nil in Hin. }
  split; [exact Hh|].
  exact (proj1 deduplicate_keeps_first_occurrences example_results Hh).
Defined.

(** C2. The list a completed search returns holds no two entries with the
    same non-empty URL (indeed no entry with an empty one), and it is a fixed
    point of the deduplication pass. *)
Theorem search_result_has_unique_urls `{Builtins} (self : WebIntelligenceGatherer.t) (w : world)
    (out : list dict) (self' : WebIntelligenceGatherer.t) (w' : world) :
  WebIntelligenceGatherer.search self w = (Ok out, self', w') →
  NoDup (url_key <$> out) ∧
  (∀ i j a b, out !! i = Some a → out !! j = Some b → i ≠ j →
     truthy (url_of a) = true → url_of a ≠ url_of b) ∧
  deduplicate out = Ok out.
Proof.
  intros (merged & Hout & _)%search_returns_deduplicated.
  destruct (dedup_loop_spec _ _ _ Hout) as (_ & Hkept & Hnodup & _ & _).
  split; [done|]. split.
  - intros i j a b Hi Hj Hij _ Heq. apply Hij.
    apply (NoDup_lookup (url_key <$> out) i j (url_key a)); [done|..].
    + by rewrite list_lookup_fmap, Hi.
    + rewrite list_lookup_fmap, Hj. unfold url_key. by rewrite Heq.
  - by apply dedup_loop_fixed.
Qed.

(** *** Relations kept by every step of a method *)

Section Respects.
Context {S : Type} (R : relation (S * world)) `{!PreOrder R}.

Lemma respects_ret {A} (a : A) : respects R (ret a).
Proof. intros s w. reflexivity. Qed.

Lemma respects_raise {A} e : respects R (raise (A:=A) e).
Proof. intros s w. reflexivity. Qed.

Lemma respects_lift {A} (r : result A) : respects R (lift r).
Proof. intros s w. reflexivity. Qed.

Lemma respects_get_self : respects R get_self.
Proof. intros s w. reflexivity. Qed.

Lemma respects_bind {A B} (m : M S A) (k : A → M S B) :
  respects R m → (∀ a, respects R (k a)) → respects R (bind m k).
Proof.
  intros Hm Hk s w. specialize (Hm s w). unfold bind, final_self, final_world in *.
  destruct (m s w) as [[[a|e] s1] w1]; simpl in *; [|done].
  etrans; [exact Hm|apply Hk].
Qed.

Lemma respects_try_except {A} (body : M S A) (handler : exn → M S A) :
  respects R body → (∀ e, respects R (handler e)) → respects R (try_except body handler).
Proof.
  intros Hb Hh s w. specialize (Hb s w).
  unfold try_except, final_self, final_world in *.
  destruct (body s w) as [[[a|e] s1] w1]; simpl in *; [done|].
  etrans; [exact Hb|apply Hh].
Qed.

Lemma respects_for_each {A} (l : list A) (body : A → M S unit) :
  (∀ x, respects R (body x)) → respects R (for_each l body).
Proof.
  intros Hbody. induction l as [|x l IH]; simpl.
  - apply respects_ret.
  - apply respects_bind; [apply Hbody|by intros _].
Qed.
End Respects.

Global Instance quiet_step_preorder {S} : PreOrder (@quiet_step S).
Proof.
  split.
  - by intros [s w].
  - intros [s1 w1] [s2 w2] [s3 w3] [? ?] [? ?]; simpl in *. split; simpl; congruence.
Qed.

Global Instance searcher_step_preorder : PreOrder searcher_step.
Proof.
  split.
  - intros [s w]. repeat split. exists []. by rewrite app_nil_r.
  - intros [s1 w1] [s2 w2] [s3 w3]
      (? & ? & ? & ? & (m1 & Hm1 & ?) & ?) (? & ? & ? & ? & (m2 & Hm2 & ?) & ?); simpl in *.
    repeat split; simpl; try congruence.
    exists (m1 ++ m2). split; [|by apply Forall_app].
    by rewrite Hm2, Hm1, app_assoc.
Qed.

Lemma quiet_is_searcher_step {A} (m : M searcher A) :
  respects quiet_step m → respects searcher_step m.
Proof.
  intros Hm s w. destruct (Hm s w) as [Hs Hw]. simpl in *.
  rewrite Hs. repeat split; [|done]. exists []. by rewrite app_nil_r.
Qed.

Lemma submissions_snoc t e :
  is_submit e = false → submissions (t ++ [e]) = submissions t.
Proof.
  intros He. unfold submissions. rewrite omap_app. destruct e; simplify_eq; simpl;
    by rewrite app_nil_r.
Qed.

Section Quiet.
Context {S : Type}.

Lemma quiet_requests_get url timeout kw :
  respects (S:=S) quiet_step (requests_get url timeout kw).
Proof. intros s w. split; [done|]. by apply submissions_snoc. Qed.

Lemma quiet_raise_for_status r : respects (S:=S) quiet_step (raise_for_status r).
Proof. unfold raise_for_status. destruct (_ && _); by intros s w. Qed.

Lemma quiet_time_sleep n : respects (S:=S) quiet_step (time_sleep n).
Proof. intros s w. split; [done|]. by apply submissions_snoc. Qed.

Lemma quiet_datetime_now : respects (S:=S) quiet_step datetime_now_isoformat.
Proof. intros s w. split; [done|]. by apply submissions_snoc. Qed.

Lemma quiet_time_time : respects (S:=S) quiet_step time_time.
Proof. intros s w. split; [done|]. by apply submissions_snoc. Qed.

Lemma quiet_response_json r : respects (S:=S) quiet_step (response_json r).
Proof. destruct r; by intros s w. Qed.

Lemma quiet_soup_find_all_article r n :
  respects (S:=S) quiet_step (soup_find_all_article r n).
Proof. destruct r; by intros s w. Qed.

Lemma quiet_safe_request_loop attempts url kw :
  respects (S:=S) quiet_step (safe_request_loop attempts url kw).
Proof.
  induction attempts as [|attempt rest IH]; simpl.
  - apply respects_ret; apply _.
  - apply respects_try_except; [apply _|..].
    + apply respects_bind; [apply _|apply quiet_requests_get|intros resp].
      apply respects_bind; [apply _|apply quiet_raise_for_status|intros _].
      apply respects_ret; apply _.
    + intros e. destruct (_ =? _); [apply respects_raise; apply _|].
      apply respects_bind; [apply _|apply quiet_time_sleep|by intros _].
Qed.

Lemma quiet_safe_request url kw : respects (S:=S) quiet_step (_safe_request url kw).
Proof. apply quiet_safe_request_loop. Qed.
End Quiet.

Lemma step_results_append entry :
  has_schema_keys entry → respects searcher_step (results_append entry).
Proof.
  intros Hentry s w. repeat split. exists [entry]. split; [done|]. by apply Forall_singleton.
Qed.

(** One rule of the relation [searcher_step] applied to the goal. *)
Ltac searcher_step_rule :=
  first
    [ progress cbv zeta
    | apply respects_ret; apply _
    | apply respects_raise; apply _
    | apply respects_lift; apply _
    | apply respects_get_self; apply _
    | apply step_results_append; reflexivity
    | apply quiet_is_searcher_step;
      first [ apply quiet_safe_request | apply quiet_datetime_now | apply quiet_response_json
            | apply quiet_soup_find_all_article ]
    | apply respects_bind; [apply _| |intros ?]
    | apply respects_try_except; [apply _| |intros ?]
    | apply respects_for_each; [apply _|intros ?]
    | match goal with
      | |- respects _ (if ?b then _ else _) => destruct b
      | |- respects _ (match ?x with _ => _ end) => destruct x
      end ].

Lemma step_return_results : respects searcher_step return_results.
Proof. unfold return_results. repeat searcher_step_rule. Qed.

Lemma step_wikipedia_search : respects searcher_step wikipedia_search.
Proof. unfold wikipedia_search. repeat searcher_step_rule. Qed.

Lemma step_github_search : respects searcher_step github_search.
Proof. unfold github_search. repeat searcher_step_rule. Qed.

Lemma step_stackoverflow_search `{Builtins} : respects searcher_step stackoverflow_search.
Proof. unfold stackoverflow_search. repeat searcher_step_rule. Qed.

Lemma step_hackernews_search `{Builtins} : respects searcher_step hackernews_search.
Proof. unfold hackernews_search. repeat searcher_step_rule. Qed.

Lemma step_googlenews_search : respects searcher_step googlenews_search.
Proof. unfold googlenews_search. repeat searcher_step_rule. Qed.

Lemma step_searcher_search `{Builtins} : respects searcher_step searcher_search.
Proof.
  unfold searcher_search. apply respects_bind; [apply _|apply respects_get_self; apply _|].
  intros self. destruct (cls self);
    auto using step_wikipedia_search, step_github_search, step_stackoverflow_search,
      step_hackernews_search, step_googlenews_search.
Qed.

(** ** Requests *)

Lemma count_snoc p t e : count p (t ++ [e]) = (count p t + (if p e then 1 else 0))%nat.
Proof.
  unfold count. rewrite filter_app, length_app. f_equal.
  destruct (p e) eqn:He.
  - rewrite filter_cons_True; [reflexivity|by apply Is_true_true].
  - rewrite filter_cons_False; [reflexivity|by apply Is_true_false].
Qed.

(** A run of [_safe_request], in full: the request is sent once and, if that
    attempt fails, the method sleeps one second and sends it a second and
    last time; the outcome of the second attempt is the outcome of the call. *)
Lemma safe_request_run {Self} (url : string) (kw : kwargs) (s : Self)
    (w : world) :
  _safe_request url kw s w =
  let r := request_of url kw in
  let n := count is_get (trace w) in
  match attempt w n r with
  | Ok resp => (Ok (Some resp), s, record_event (EvGet r) w)
  | Raise _ =>
      (match attempt w (S n) r with
       | Ok resp => Ok (Some resp)
       | Raise e => Raise e
       end,
       s,
       record_event (EvGet r) (record_event (EvSleep 1) (record_event (EvGet r) w)))
  end.
Proof.
  unfold _safe_request, range, config.REQUEST_RETRIES. simpl.
  fold (request_of url kw).
  unfold try_except, bind, requests_get, raise_for_status, attempt.
  change (Request url config.TIMEOUT
            (Kwargs (kw_params kw)
               (Some (<["User-Agent" := config.USER_AGENT]> (default ∅ (kw_headers kw))))))
    with (request_of url kw).
  assert (∀ t, count is_get (t ++ [EvGet (request_of url kw)] ++ [EvSleep 1])
               = S (count is_get t)) as Hcount.
  { intros t. rewrite app_assoc, !count_snoc. simpl. lia. }
  destruct (net w (count is_get (trace w)) (request_of url kw)) as [resp|e] eqn:Hfirst.
  - destruct ((400 <=? status_code resp) && (status_code resp <? 600)); [|done].
    simpl. rewrite <- app_assoc, Hcount.
    destruct (net w (S _) _) as [resp'|e']; [|done].
    by destruct ((400 <=? status_code resp') && (status_code resp' <? 600)).
  - simpl. rewrite <- app_assoc, Hcount.
    destruct (net w (S _) _) as [resp'|e']; [|done].
    by destruct ((400 <=? status_code resp') && (status_code resp' <? 600)).
Qed.

(** C3, what the code does. Whatever the world, [_safe_request] sends at
    most two requests and sleeps at most once; without network it sends the
    request, sleeps one second, sends it a second time and raises: one retry
    and not the two that [REQUEST_RETRIES = 2] announces. *)
Theorem safe_request_makes_two_attempts {Self} (url : string) (kw : kwargs) (s : Self) :
  (∀ w, let w' := final_world (_safe_request url kw s w) in
        (count is_get (trace w') ≤ count is_get (trace w) + 2)%nat ∧
        (count is_sleep (trace w') ≤ count is_sleep (trace w) + 1)%nat) ∧
  outcome (_safe_request url kw s offline) = Raise (RequestException "offline") ∧
  trace (final_world (_safe_request url kw s offline)) =
    [EvGet (request_of url kw); EvSleep 1; EvGet (request_of url kw)] ∧
  count is_get (trace (final_world (_safe_request url kw s offline))) = 2%nat.
Proof.
  split.
  - intros w. rewrite safe_request_run. simpl.
    destruct (attempt w _ _); simpl; rewrite !count_snoc; simpl; lia.
  - rewrite safe_request_run. done.
Qed.

(** ** Searchers *)

Lemma guarded_run body s w :
  guarded body s w =
  (Ok (slice_to (results (final_self (body s w))) (max_results (final_self (body s w)))),
   final_self (body s w), final_world (body s w)).
Proof.
  unfold guarded, bind, try_except, return_results, final_self, final_world.
  by destruct (body s w) as [[[[]|e] s1] w1].
Qed.

Lemma searcher_search_unfold `{Builtins} s w :
  searcher_search s w =
  match cls s with
  | WikipediaSearcher => wikipedia_search s w
  | GitHubSearcher => github_search s w
  | StackOverflowSearcher => stackoverflow_search s w
  | HackerNewsSearcher => hackernews_search s w
  | GoogleNewsSearcher => googlenews_search s w
  end.
Proof. unfold searcher_search, bind, get_self. by destruct (cls s). Qed.

(** Each [search] method has the shape [guarded]. *)
Ltac expose_guarded :=
  unfold wikipedia_search, github_search, stackoverflow_search, hackernews_search,
    googlenews_search;
  repeat match goal with
         | |- context [bind (try_except ?body ?h) ?k] =>
             change (bind (try_except body h) k) with (guarded body)
         end.

(** A [search] method never raises: it returns its results, truncated. *)
Lemma searcher_search_outcome `{Builtins} s w :
  outcome (searcher_search s w) =
  Ok (slice_to (results (final_self (searcher_search s w)))
        (max_results (final_self (searcher_search s w)))).
Proof.
  rewrite searcher_search_unfold.
  destruct (cls s); expose_guarded; rewrite guarded_run; reflexivity.
Qed.

Lemma searcher_search_config `{Builtins} s w :
  max_results (final_self (searcher_search s w)) = max_results s.
Proof. by destruct (step_searcher_search s w) as (_ & _ & ? & _). Qed.

Lemma length_slice_to {A} (l : list A) n :
  0 ≤ n → Z.of_nat (length (slice_to l n)) ≤ n.
Proof.
  intros Hn. unfold slice_to. rewrite (proj2 (Z.leb_le 0 n) Hn), length_take. lia.
Qed.


Lemma bind_get_self {S B} (k : S → M S B) s w : bind get_self k s w = k s s w.
Proof. reflexivity. Qed.


Lemma bind_run_ok {S A B} (m : M S A) (k : A → M S B) s w a s1 w1 :
  m s w = (Ok a, s1, w1) → bind m k s w = k a s1 w1.
Proof. intros Hm. unfold bind. by rewrite Hm. Qed.








Lemma new_searcher_max_results c kw m :
  max_results (new_searcher c kw m) = Z.min m config.MAX_RESULTS_LIMIT.
Proof. reflexivity. Qed.

(** C10. The cap is not validated: the orchestrator's constructor accepts
    the same arguments whatever the cap and stores it as given; a searcher's
    constructor stores [min(cap, 50)], so that a cap above 50 becomes 50, and
    a negative cap is kept as it is; with the cap 0 every searcher returns
    the empty sequence; with a negative cap [m] it returns its results
    without the last [-m] of them. *)
Theorem max_results_is_not_validated `{Builtins} :
  (∀ kw srcs m m',
     is_ok (WebIntelligenceGatherer.__init__ kw srcs m) =
     is_ok (WebIntelligenceGatherer.__init__ kw srcs m')) ∧
  (∀ kw srcs m self,
     WebIntelligenceGatherer.__init__ kw srcs m = Ok self →
     WebIntelligenceGatherer.max_results self = m) ∧
  (∀ c kw m, max_results (new_searcher c kw m) = Z.min m config.MAX_RESULTS_LIMIT) ∧
  (∀ c kw m, 50 < m → max_results (new_searcher c kw m) = 50) ∧
  (∀ c kw w, outcome (searcher_search (new_searcher c kw 0) w) = Ok []) ∧
  (∀ c kw m w, m < 0 →
     max_results (new_searcher c kw m) = m ∧
     let r := searcher_search (new_searcher c kw m) w in
     outcome r =
     Ok (take (length (results (final_self r)) - Z.to_nat (- m)) (results (final_self r)))).
Proof.
  unfold config.MAX_RESULTS_LIMIT.
  split; [|split; [|split; [|split; [|split]]]].
  - intros kw srcs m m'. unfold WebIntelligenceGatherer.__init__.
    by repeat case_match.
  - intros kw srcs m self. unfold WebIntelligenceGatherer.__init__.
    repeat case_match; intros; by simplify_eq.
  - done.
  - intros c kw m Hm. rewrite new_searcher_max_results.
    unfold config.MAX_RESULTS_LIMIT. lia.
  - intros c kw w.
    rewrite searcher_search_outcome, searcher_search_config, new_searcher_max_results.
    unfold slice_to. simpl. by rewrite take_0.
  - intros c kw m w Hm.
    assert (max_results (new_searcher c kw m) = m) as Hcap.
    { rewrite new_searcher_max_results. unfold config.MAX_RESULTS_LIMIT. lia. }
    split; [done|]. cbv zeta.
    rewrite searcher_search_outcome, searcher_search_config, Hcap.
    unfold slice_to. rewrite (proj2 (Z.leb_gt 0 m)) by lia.
    do 2 f_equal. lia.
Qed.

(** ** Construction of the orchestrator *)

Lemma invalid_sources_empty srcs :
  list_to_set srcs ∖ list_to_set config.AVAILABLE_SOURCES = (∅ : gset string) ↔
  known_sources srcs.
Proof.
  split.
  - intros Hempty s Hs.
    destruct (decide (s ∈ config.AVAILABLE_SOURCES)) as [|Hnot]; [done|].
    assert (s ∈ (list_to_set srcs ∖ list_to_set config.AVAILABLE_SOURCES : gset string))
      as Hin.
    { apply elem_of_difference. split; [by apply elem_of_list_to_set|].
      by rewrite elem_of_list_to_set. }
    rewrite Hempty in Hin. by apply elem_of_empty in Hin.
  - intros Hknown. apply set_eq. intros s. split.
    + intros [Hs Hnot]%elem_of_difference. apply elem_of_list_to_set in Hs.
      destruct Hnot. apply elem_of_list_to_set. by apply Hknown.
    + by intros ?%elem_of_empty.
Qed.

Lemma empty_keyword_is_short kw :
  negb (truthy (VStr kw)) || Nat.ltb (String.length kw) config.MIN_KEYWORD_LENGTH =
  Nat.ltb (String.length kw) config.MIN_KEYWORD_LENGTH.
Proof. by destruct kw. Qed.

(** When the constructor returns. *)
Lemma init_ok kw srcs m :
  is_ok (WebIntelligenceGatherer.__init__ kw srcs m) = true ↔
  (2 ≤ String.length kw ≤ 200)%nat ∧ known_sources srcs.
Proof.
  unfold WebIntelligenceGatherer.__init__. rewrite empty_keyword_is_short.
  unfold config.MIN_KEYWORD_LENGTH, config.MAX_KEYWORD_LENGTH.
  destruct (Nat.ltb_spec (String.length kw) 2); [simpl; split; [done|lia]|].
  destruct (Nat.ltb_spec 200 (String.length kw)); [simpl; split; [done|lia]|].
  destruct (decide _) as [Hempty|Hsome]; simpl.
  - apply invalid_sources_empty in Hempty. split; [split; [lia|done]|done].
  - split; [done|]. intros [_ Hknown]. by apply invalid_sources_empty in Hknown.
Qed.

(** What the constructor raises is a [ValueError]. *)
Lemma init_raises kw srcs m e :
  WebIntelligenceGatherer.__init__ kw srcs m = Raise e → ∃ msg, e = ValueError msg.
Proof.
  unfold WebIntelligenceGatherer.__init__. repeat case_match; intros; simplify_eq; eauto.
Qed.

(** C5. A keyword of length 1 or 201 makes the constructor raise a
    [ValueError], a keyword of length 2 or 200 is accepted (with known
    sources), and so does an unknown source. The constructor returns exactly
    when the keyword has 2 to 200 characters and every source is known. When
    it raises, nothing has happened in the world and nothing happens after:
    no searcher is submitted and no request is sent. *)
Theorem keyword_and_sources_are_validated `{Builtins} (kw : string) (srcs : list string)
    (m : Z) :
  (String.length kw = 1%nat ∨ String.length kw = 201%nat →
     ∃ msg, WebIntelligenceGatherer.__init__ kw srcs m = Raise (ValueError msg)) ∧
  (String.length kw = 2%nat ∨ String.length kw = 200%nat → known_sources srcs →
     is_ok (WebIntelligenceGatherer.__init__ kw srcs m) = true) ∧
  ((∃ s, s ∈ srcs ∧ s ∉ config.AVAILABLE_SOURCES) →
     ∃ msg, WebIntelligenceGatherer.__init__ kw srcs m = Raise (ValueError msg)) ∧
  (is_ok (WebIntelligenceGatherer.__init__ kw srcs m) = true ↔
     (2 ≤ String.length kw ≤ 200)%nat ∧ known_sources srcs) ∧
  (∀ e, WebIntelligenceGatherer.__init__ kw srcs m = Raise e →
     ∀ w, WebIntelligenceGatherer.construct_and_search kw srcs m w = (Raise e, None, w)).
Proof.
  assert (is_ok (WebIntelligenceGatherer.__init__ kw srcs m) = false →
          ∃ msg, WebIntelligenceGatherer.__init__ kw srcs m = Raise (ValueError msg))
    as Hraise.
  { destruct (WebIntelligenceGatherer.__init__ kw srcs m) as [|e] eqn:Hinit; [done|].
    intros _. destruct (init_raises _ _ _ _ Hinit) as [msg ->]. eauto. }
  pose proof (init_ok kw srcs m) as Hok.
  split; [|split; [|split; [|split]]].
  - intros Hlen. apply Hraise. apply not_true_is_false. rewrite Hok. lia.
  - intros Hlen Hknown. apply Hok. split; [lia|done].
  - intros (s & Hs & Hnot). apply Hraise. apply not_true_is_false. rewrite Hok.
    intros [_ Hknown]. by apply Hnot, Hknown.
  - done.
  - intros e Hinit w. unfold WebIntelligenceGatherer.construct_and_search.
    by rewrite Hinit.
Qed.

(** ** Dispatch *)

Global Instance gatherer_step_preorder : PreOrder gatherer_step.
Proof.
  split.
  - by intros [s w].
  - intros [s1 w1] [s2 w2] [s3 w3]. unfold gatherer_step. simpl. congruence.
Qed.

Lemma quiet_is_gatherer_step {A} (m : M WebIntelligenceGatherer.t A) :
  respects quiet_step m → respects gatherer_step m.
Proof. intros Hm s w. by destruct (Hm s w). Qed.

(** One rule of the relation [gatherer_step] applied to the goal. *)
Ltac gatherer_step_rule :=
  first
    [ progress cbv zeta
    | apply respects_ret; apply _
    | apply respects_raise; apply _
    | apply respects_lift; apply _
    | apply respects_get_self; apply _
    | apply quiet_is_gatherer_step; apply quiet_time_time
    | apply respects_bind; [apply _| |intros ?]
    | apply respects_try_except; [apply _| |intros ?]
    | apply respects_for_each; [apply _|intros ?]
    | match goal with
      | |- respects _ (WebIntelligenceGatherer.set_all_results _) => by intros ? ?
      | |- respects _ (WebIntelligenceGatherer.set_search_time _) => by intros ? ?
      | |- respects _ (as_completed _) => by intros ? ?
      | |- respects _ (match ?x with _ => _ end) => destruct x
      end ].

(** A known source has a searcher, which carries the name of the source. *)
Lemma get_searcher_known self source :
  source ∈ config.AVAILABLE_SOURCES →
  ∃ s, WebIntelligenceGatherer._get_searcher self source = Some s ∧ source_name s = source.
Proof.
  unfold config.AVAILABLE_SOURCES. intros Hin.
  repeat (apply elem_of_cons in Hin as [->|Hin]; [by eexists|]).
  by apply elem_of_nil in Hin.
Qed.

(** The first loop of [search]: every listed source is submitted, in order. *)
Lemma submit_all_run `{Builtins} srcs : ∀ futures self w,
  known_sources srcs →
  ∃ fs w',
    WebIntelligenceGatherer.submit_all srcs futures self w = (Ok (futures ++ fs), self, w') ∧
    submissions (trace w') = submissions (trace w) ++ srcs ∧
    length fs = length srcs.
Proof.
  induction srcs as [|source rest IH]; intros futures self w Hknown.
  - exists [], w. by rewrite !app_nil_r.
  - destruct (get_searcher_known self source) as (s & Hs & Hname);
      [apply Hknown; left|].
    simpl. rewrite bind_get_self, Hs.
    unfold bind at 1. unfold WebIntelligenceGatherer.submit at 1.
    pose proof (step_searcher_search s (record_event (EvSubmit (source_name s)) w))
      as (_ & _ & _ & _ & _ & Hsub).
    destruct (searcher_search s _) as [[r s'] w1]. simpl in Hsub.
    destruct (IH (futures ++ [(r, source)]) self w1) as (fs & w' & -> & Hsubs & Hlen).
    { intros s0 Hs0. apply Hknown. by right. }
    exists ((r, source) :: fs), w'. split; [by rewrite <- app_assoc|].
    split; [|simpl; by rewrite Hlen].
    rewrite Hsubs, Hsub. unfold submissions. rewrite omap_app. simpl.
    by rewrite Hname, <- app_assoc.
Qed.

(** The sources [search] submits are the listed ones, in order. *)
Lemma search_submissions `{Builtins} self w :
  known_sources (WebIntelligenceGatherer.sources self) →
  submissions (trace (final_world (WebIntelligenceGatherer.search self w))) =
  submissions (trace w) ++ WebIntelligenceGatherer.sources self.
Proof.
  intros Hknown. unfold WebIntelligenceGatherer.search.
  rewrite (bind_run_ok time_time _ self w _ _ _ eq_refl), bind_get_self.
  destruct (submit_all_run (WebIntelligenceGatherer.sources self) [] self
              (record_event EvClock w) Hknown) as (fs & w' & Hrun & Hsubs & _).
  rewrite (bind_run_ok _ _ _ _ _ _ _ Hrun).
  match goal with
  | |- submissions (trace (final_world (?m self w'))) = _ =>
      assert (respects gatherer_step m) as Hquiet by repeat gatherer_step_rule;
      pose proof (Hquiet self w') as Hsame
  end.
  unfold gatherer_step in Hsame. cbn [snd] in Hsame.
  rewrite Hsame, Hsubs. simpl. by rewrite submissions_snoc.
Qed.

Lemma init_sources kw srcs m self :
  WebIntelligenceGatherer.__init__ kw srcs m = Ok self →
  WebIntelligenceGatherer.sources self = srcs ∧ known_sources srcs.
Proof.
  intros Hinit. split.
  - revert Hinit. unfold WebIntelligenceGatherer.__init__.
    repeat case_match; intros; by simplify_eq.
  - apply (init_ok kw srcs m). by rewrite Hinit.
Qed.

(** C4, the claim as it stands. A source listed twice is submitted twice:
    two invocations for one distinct source. *)
Lemma repeated_source_is_submitted_twice :
  ∃ self,
    WebIntelligenceGatherer.__init__ "kw" ["wikipedia"; "wikipedia"] 5 = Ok self ∧
    submissions (trace (final_world (WebIntelligenceGatherer.search self offline))) =
      ["wikipedia"; "wikipedia"] ∧
    length (remove_dups ["wikipedia"; "wikipedia"]) = 1%nat.
Proof. eexists. split; [vm_compute; reflexivity|]. split; vm_compute; reflexivity. Qed.

(** C4, amended. For an orchestrator that was constructed, [search]
    submits one searcher per entry of the list of sources, in the order of
    the list: the number of invocations is the length of the list, and a
    source listed several times is invoked as many times. *)
Theorem search_submits_every_listed_source `{Builtins} (kw : string) (srcs : list string)
    (m : Z) (self : WebIntelligenceGatherer.t) (w : world) :
  WebIntelligenceGatherer.__init__ kw srcs m = Ok self →
  let w' := final_world (WebIntelligenceGatherer.search self w) in
  submissions (trace w') = submissions (trace w) ++ srcs ∧
  count is_submit (trace w') = (count is_submit (trace w) + length srcs)%nat.
Proof.
  intros [Hsrcs Hknown]%init_sources. rewrite <- Hsrcs in Hknown.
  pose proof (search_submissions self w Hknown) as Hsub. rewrite Hsrcs in Hsub.
  split; [done|].
  assert (∀ t, count is_submit t = length (submissions t)) as Hcount.
  { intros t. unfold count, submissions. induction t as [|[] t IH]; simpl; try done.
    f_equal. exact IH. }
  by rewrite !Hcount, Hsub, length_app.
Qed.

(** ** The theorems at concrete inputs *)

Lemma known_sources_check srcs :
  forallb (fun s => bool_decide (s ∈ config.AVAILABLE_SOURCES)) srcs = true →
  known_sources srcs.
Proof.
  intros Hall s Hs. rewrite forallb_forall in Hall.
  apply list_elem_of_In in Hs. by apply Hall, bool_decide_eq_true in Hs.
Qed.

(** C2 at a run that completes. *)
Lemma search_result_has_unique_urls_witness :
  ∃ out self' w',
    WebIntelligenceGatherer.search example_gatherer example_world = (Ok out, self', w') ∧
    NoDup (url_key <$> out) ∧
    (∀ i j a b, out !! i = Some a → out !! j = Some b → i ≠ j →
       truthy (url_of a) = true → url_of a ≠ url_of b) ∧
    deduplicate out = Ok out.
Proof.
  destruct (WebIntelligenceGatherer.search example_gatherer example_world)
    as [[[out|e] self'] w'] eqn:Hrun.
  - exists out, self', w'. split; [reflexivity|].
    exact (search_result_has_unique_urls _ _ _ _ _ Hrun).
  - vm_compute in Hrun. discriminate Hrun.
Defined.

(** C4 at an orchestrator that was constructed. *)
Lemma search_submits_every_listed_source_witness :
  WebIntelligenceGatherer.__init__ "kw" ["wikipedia"; "github"] 5 = Ok example_gatherer ∧
  submissions (trace (final_world (WebIntelligenceGatherer.search example_gatherer offline)))
    = submissions (trace offline) ++ ["wikipedia"; "github"] ∧
  count is_submit (trace (final_world (WebIntelligenceGatherer.search example_gatherer offline)))
    = (count is_submit (trace offline) + length ["wikipedia"; "github"])%nat.
Proof.
  assert (WebIntelligenceGatherer.__init__ "kw" ["wikipedia"; "github"] 5
          = Ok example_gatherer) as Hinit by (vm_compute; reflexivity).
  split; [exact Hinit|].
  exact (search_submits_every_listed_source "kw" ["wikipedia"; "github"] 5
           example_gatherer offline Hinit).
Defined.

(** C5 at keywords of 1, 2, 200 and 201 characters and at an unknown source. *)
Lemma keyword_and_sources_are_validated_witness :
  (∃ msg, WebIntelligenceGatherer.__init__ "a" ["wikipedia"] 5 = Raise (ValueError msg)) ∧
  (∃ msg, WebIntelligenceGatherer.__init__ (keyword_of_length 201) ["wikipedia"] 5
          = Raise (ValueError msg)) ∧
  is_ok (WebIntelligenceGatherer.__init__ "ab" ["wikipedia"] 5) = true ∧
  is_ok (WebIntelligenceGatherer.__init__ (keyword_of_length 200) ["wikipedia"] 5) = true ∧
  (∃ msg, WebIntelligenceGatherer.__init__ "ab" ["reddit"] 5 = Raise (ValueError msg)).
Proof.
  assert (known_sources ["wikipedia"]) as Hknown
    by (apply known_sources_check; vm_compute; reflexivity).
  pose proof (fun kw srcs => proj1 (keyword_and_sources_are_validated kw srcs 5)) as Hbad.
  pose proof (fun kw srcs =>
                proj1 (proj2 (keyword_and_sources_are_validated kw srcs 5))) as Hgood.
  pose proof (fun kw srcs =>
                proj1 (proj2 (proj2 (keyword_and_sources_are_validated kw srcs 5))))
    as Hunknown.
  split; [|split; [|split; [|split]]].
  - apply Hbad. left. reflexivity.
  - apply Hbad. right. vm_compute. reflexivity.
  - apply Hgood; [left; reflexivity|exact Hknown].
  - apply Hgood; [right; vm_compute; reflexivity|exact Hknown].
  - apply Hunknown. exists "reddit". split; [apply list_elem_of_singleton; reflexivity|].
    apply (bool_decide_eq_false_1 ("reddit" ∈ config.AVAILABLE_SOURCES)).
    vm_compute. reflexivity.
Defined.




(** C10 at the caps 51 and -1. *)
Lemma max_results_is_not_validated_witness :
  50 < 51 ∧ max_results (new_searcher GitHubSearcher "kw" 51) = 50 ∧
  -1 < 0 ∧ max_results (new_searcher GitHubSearcher "kw" (-1)) = -1.
Proof.
  assert (50 < 51) as Habove by lia. assert (-1 < 0) as Hbelow by lia.
  split; [exact Habove|]. split.
  - exact (proj1 (proj2 (proj2 (proj2 max_results_is_not_validated)))
             GitHubSearcher "kw" 51 Habove).
  - split; [exact Hbelow|].
    exact (proj1 (proj2 (proj2 (proj2 (proj2 (proj2 max_results_is_not_validated))))
                    GitHubSearcher "kw" (-1) offline Hbelow)).
Defined.

(** ** CSV report *)

Lemma string_app_assoc (a b c : string) : (a +:+ b) +:+ c = a +:+ (b +:+ c).
Proof.
  induction a as [|x a IH]; [done|].
  change (String x ((a +:+ b) +:+ c) = String x (a +:+ (b +:+ c))). by rewrite IH.
Qed.

Lemma prefix_empty s : String.prefix EmptyString s = true.
Proof. by destruct s. Qed.

Lemma prefix_char q c s :
  String.prefix (String q EmptyString) (String c s) = Ascii.eqb q c.
Proof.
  unfold String.prefix; fold String.prefix.
  destruct (ascii_dec q c) as [->|Hne].
  - by rewrite prefix_empty, Ascii.eqb_refl.
  - symmetry. by apply Ascii.eqb_neq.
Qed.

Lemma replace_from_cons old new c s :
  replace_from old new 0 (String c s) =
  if String.prefix old (String c s)
  then new +:+ replace_from old new (Nat.pred (String.length old)) s
  else String c (replace_from old new 0 s).
Proof. reflexivity. Qed.

(** Replacing the double quote by two of them doubles each one. *)
Lemma replace_quote s :
  str_replace (chr 34) (chr 34 +:+ chr 34) s = double_quotes s.
Proof.
  change (replace_from (String quote_char EmptyString)
            (String quote_char (String quote_char EmptyString)) 0 s = double_quotes s).
  induction s as [|c s IH]; [done|].
  rewrite replace_from_cons, prefix_char, Ascii.eqb_sym.
  change (double_quotes (String c s))
    with (if Ascii.eqb c quote_char then String c (String c (double_quotes s))
          else String c (double_quotes s)).
  destruct (Ascii.eqb_spec c quote_char) as [->|Hne].
  - change (String quote_char (String quote_char
              (replace_from (String quote_char EmptyString)
                 (String quote_char (String quote_char EmptyString)) 0 s))
            = String quote_char (String quote_char (double_quotes s))).
    by rewrite IH.
  - by rewrite IH.
Qed.

(** Membership of a given key in [schema_keys]. *)
Ltac schema_key :=
  unfold schema_keys; repeat first [apply list_elem_of_here | apply list_elem_of_further].

Lemma csv_row_text entry :
  text_fields entry →
  ReportGenerator.csv_row entry = Ok (
    text_of entry "source" +:+ "," +:+ quoted (text_of entry "title") +:+ "," +:+
    quoted (text_of entry "description") +:+ "," +:+ text_of entry "url" +:+ "," +:+
    text_of entry "timestamp").
Proof.
  intros Htext. unfold ReportGenerator.csv_row, text_of.
  destruct (Htext "source") as [? ->]; [schema_key|].
  destruct (Htext "title") as [? ->]; [schema_key|].
  destruct (Htext "description") as [? ->]; [schema_key|].
  destruct (Htext "url") as [? ->]; [schema_key|].
  destruct (Htext "timestamp") as [? ->]; [schema_key|].
  cbv zeta. cbn [py_replace and_then]. rewrite !replace_quote. reflexivity.
Qed.

Lemma string_app_nil_r (s : string) : s +:+ EmptyString = s.
Proof.
  induction s as [|c s IH]; [done|].
  change (String c (s +:+ EmptyString) = String c s). by rewrite IH.
Qed.

Lemma csv_rows_text l : ∀ output,
  Forall text_fields l →
  ReportGenerator.csv_rows l output =
  Ok (output +:+ foldr String.append EmptyString (map csv_line l)).
Proof.
  induction l as [|entry rest IH]; intros output Hl.
  - cbn [ReportGenerator.csv_rows map foldr]. by rewrite string_app_nil_r.
  - apply Forall_cons in Hl as [Hentry Hrest].
    cbn [ReportGenerator.csv_rows map foldr].
    rewrite (csv_row_text _ Hentry). cbn [and_then]. rewrite (IH _ Hrest).
    unfold csv_line. by rewrite !string_app_assoc.
Qed.


(** Outside the data model: a description that is [None], as a searcher
    stores it when the provider sends [null], makes [to_csv] raise. *)
Example to_csv_null_description :
  ReportGenerator.to_csv
    [[("source", VStr "github"); ("title", VStr "repo"); ("description", VNone);
      ("url", VStr "http://a"); ("timestamp", VStr "2024-01-01T00:00:00")]]
  = Raise AttributeError.
Proof. reflexivity. Qed.


(** ** JSON report *)

(** C9. If the JSON library reads back the report it wrote, then parsing
    the string [to_json] returns yields an object whose [search] block holds
    the keyword, the time of generation, the list of sources, as
    [total_results] the length of the [results] array and as
    [search_time_seconds] the elapsed time rounded to two decimals, and
    whose [results] array holds the given records, as they are and in their
    order; each has exactly the keys of the normalized schema when the
    given records have. *)
Theorem to_json_reads_back `{Builtins} `{JsonLibrary} {Self} (all_results : list dict)
    (keyword : string) (search_time : Q) (sources : list string) (s : Self) (w : world) :
  let timestamp := now w (count is_now (trace w)) in
  let document := ReportGenerator.report all_results keyword search_time sources timestamp in
  json_loads (json_dumps document) = Ok document →
  Forall has_schema_keys all_results →
  ∃ text parsed meta entries,
    outcome (ReportGenerator.to_json all_results keyword search_time sources s w) = Ok text ∧
    json_loads text = Ok parsed ∧
    py_get parsed "search" VNone = Ok (VDict meta) ∧
    dict_get meta "keyword" VNone = VStr keyword ∧
    dict_get meta "timestamp" VNone = VStr timestamp ∧
    dict_get meta "sources" VNone = VList (map VStr sources) ∧
    dict_get meta "total_results" VNone = VInt (Z.of_nat (length entries)) ∧
    dict_get meta "search_time_seconds" VNone = VFloat (py_round search_time 2) ∧
    py_get parsed "results" VNone = Ok (VList entries) ∧
    entries = map VDict all_results ∧
    (∀ i entry, entries !! i = Some entry →
       ∃ d, entry = VDict d ∧ all_results !! i = Some d ∧ d.*1 = schema_keys).
Proof.
  intros timestamp document Hloads Hkeys.
  exists (json_dumps document), document.
  eexists. exists (map VDict all_results).
  split; [reflexivity|]. split; [exact Hloads|].
  split; [reflexivity|]. split; [reflexivity|]. split; [reflexivity|].
  split; [reflexivity|]. split; [simpl; by rewrite length_map|].
  split; [reflexivity|]. split; [reflexivity|]. split; [reflexivity|].
  intros i entry Hi. change (map VDict all_results) with (VDict <$> all_results) in Hi.
  rewrite list_lookup_fmap in Hi.
  destruct (all_results !! i) as [d|] eqn:Hd; simplify_eq/=.
  exists d. split; [done|]. split; [done|].
  by apply (Forall_lookup_1 _ _ _ _ Hkeys Hd).
Qed.

(** C9 with the library above, on a report of one result. *)
Lemma to_json_reads_back_witness :
  let document :=
    ReportGenerator.report [quoting_entry] "kw" (1234 # 1000) ["wikipedia"; "github"]
      (now example_world (count is_now (trace example_world))) in
  ReferenceJson.read (ReferenceJson.write 0 document) = Ok document ∧
  Forall has_schema_keys [quoting_entry] ∧
  ∃ text parsed meta entries,
    outcome (ReportGenerator.to_json (H0:=ReferenceJson.library) [quoting_entry] "kw"
               (1234 # 1000) ["wikipedia"; "github"] tt example_world) = Ok text ∧
    ReferenceJson.read text = Ok parsed ∧
    py_get parsed "search" VNone = Ok (VDict meta) ∧
    dict_get meta "keyword" VNone = VStr "kw" ∧
    dict_get meta "timestamp" VNone =
      VStr (now example_world (count is_now (trace example_world))) ∧
    dict_get meta "sources" VNone = VList (map VStr ["wikipedia"; "github"]) ∧
    dict_get meta "total_results" VNone = VInt (Z.of_nat (length entries)) ∧
    dict_get meta "search_time_seconds" VNone = VFloat (py_round (1234 # 1000) 2) ∧
    py_get parsed "results" VNone = Ok (VList entries) ∧
    entries = map VDict [quoting_entry] ∧
    (∀ i entry, entries !! i = Some entry →
       ∃ d, entry = VDict d ∧ [quoting_entry] !! i = Some d ∧ d.*1 = schema_keys).
Proof.
  assert (ReferenceJson.read
            (ReferenceJson.write 0
               (ReportGenerator.report [quoting_entry] "kw" (1234 # 1000)
                  ["wikipedia"; "github"]
                  (now example_world (count is_now (trace example_world)))))
          = Ok (ReportGenerator.report [quoting_entry] "kw" (1234 # 1000)
                  ["wikipedia"; "github"]
                  (now example_world (count is_now (trace example_world)))))
    as Hloads by (vm_compute; reflexivity).
  assert (Forall has_schema_keys [quoting_entry]) as Hkeys
    by (apply Forall_singleton; reflexivity).
  split; [exact Hloads|]. split; [exact Hkeys|].
  exact (to_json_reads_back (H0:=ReferenceJson.library) [quoting_entry] "kw" (1234 # 1000)
           ["wikipedia"; "github"] tt example_world Hloads Hkeys).
Defined.

(** ** The results of a search are normalized *)

Lemma slice_to_normalized l n : Forall has_schema_keys l → Forall has_schema_keys (slice_to l n).
Proof. intros Hl. unfold slice_to. destruct (0 <=? n); by apply Forall_take. Qed.

Lemma searcher_search_normalized `{Builtins} s w out :
  Forall has_schema_keys (results s) →
  outcome (searcher_search s w) = Ok out → Forall has_schema_keys out.
Proof.
  intros Hs. rewrite searcher_search_outcome. intros [= <-].
  apply slice_to_normalized.
  destruct (step_searcher_search s w) as (_ & _ & _ & _ & (more & Hgrow & Hmore) & _).
  cbn [fst] in Hgrow. rewrite Hgrow. by apply Forall_app.
Qed.

Lemma get_searcher_fresh self source s :
  WebIntelligenceGatherer._get_searcher self source = Some s → results s = [].
Proof.
  unfold WebIntelligenceGatherer._get_searcher.
  destruct (_ !! _); intros; by simplify_eq.
Qed.

Lemma submit_all_normalized `{Builtins} srcs : ∀ futures self w fs self' w',
  WebIntelligenceGatherer.submit_all srcs futures self w = (Ok fs, self', w') →
  Forall normalized_future futures →
  self' = self ∧ Forall normalized_future fs.
Proof.
  induction srcs as [|source rest IH]; intros futures self w fs self' w' Hrun Hfutures.
  - simpl in Hrun. unfold ret in Hrun. by simplify_eq.
  - simpl in Hrun. rewrite bind_get_self in Hrun.
    destruct (WebIntelligenceGatherer._get_searcher self source) as [s|] eqn:Hs;
      [|by apply (IH _ _ _ _ _ _ Hrun)].
    unfold bind at 1 in Hrun. unfold WebIntelligenceGatherer.submit at 1 in Hrun.
    destruct (searcher_search s _) as [[r s1] w1] eqn:Hsearch.
    apply (IH _ _ _ _ _ _ Hrun). apply Forall_app. split; [done|].
    apply Forall_singleton. intros out Hout. simpl in Hout. subst r.
    apply (searcher_search_normalized s (record_event (EvSubmit (source_name s)) w)).
    + rewrite (get_searcher_fresh _ _ _ Hs). constructor.
    + by rewrite Hsearch.
Qed.

Lemma insert_at_elem_of {A} n (x y : A) l : y ∈ insert_at n x l → y = x ∨ y ∈ l.
Proof.
  unfold insert_at. intros [Hy|[->|Hy]%elem_of_cons]%elem_of_app; [right|by left|right].
  - by apply (subseteq_take n l).
  - by apply (subseteq_drop n l).
Qed.

Lemma arrange_elem_of {A} order (pending : list A) : ∀ i done x,
  x ∈ arrange order i done pending → x ∈ done ∨ x ∈ pending.
Proof.
  induction pending as [|y rest IH]; intros i done x Hx; simpl in Hx; [by left|].
  destruct (IH _ _ _ Hx) as [[->|Hin]%insert_at_elem_of|Hin].
  - right. by left.
  - by left.
  - right. by right.
Qed.

(** The loop that collects the futures keeps the merged list normalized. *)
Lemma collect_normalized (completed : list (future * string)) : ∀ self w,
  Forall normalized_future completed →
  Forall has_schema_keys (WebIntelligenceGatherer.all_results self) →
  Forall has_schema_keys
    (WebIntelligenceGatherer.all_results
       (final_self
          (for_each completed
             (fun '(future, source) =>
                try_except
                  (bind (lift future) (fun results =>
                   bind get_self (fun self =>
                   WebIntelligenceGatherer.set_all_results
                     (WebIntelligenceGatherer.all_results self ++ results))))
                  (fun e => ret tt)) self w))).
Proof.
  induction completed as [|[f source] rest IH]; intros self w Hall Hself; [done|].
  apply Forall_cons in Hall as [Hf Hrest]. simpl.
  unfold bind at 1. unfold try_except at 1. unfold bind at 1. unfold lift at 1.
  destruct f as [out|e]; simpl.
  - apply IH; [done|]. simpl. apply Forall_app. split; [done|]. by apply Hf.
  - by apply IH.
Qed.

(** X1. Every entry a completed [search] returns has exactly the keys [source],
    [title], [description], [url] and [timestamp], in this order, when the
    entries the orchestrator held before the call have. *)
Lemma search_results_are_normalized `{Builtins} self w out self' w' :
  WebIntelligenceGatherer.search self w = (Ok out, self', w') →
  Forall has_schema_keys (WebIntelligenceGatherer.all_results self) →
  Forall has_schema_keys out.
Proof.
  unfold WebIntelligenceGatherer.search. intros Hrun Hself.
  rewrite (bind_run_ok time_time _ self w _ _ _ eq_refl), bind_get_self in Hrun.
  bind_inv Hrun.
  apply submit_all_normalized in Hm as [-> Hfutures]; [|constructor].
  rewrite (bind_run_ok (as_completed a) _ self w0 _ _ _ eq_refl) in Hrun.
  assert (Forall normalized_future (arrange (order w0) 0 [] a)) as Hcompleted.
  { apply Forall_forall. intros f [[]%elem_of_nil|Hf]%arrange_elem_of.
    by eapply (proj1 (Forall_forall _ _) Hfutures). }
  pose proof (collect_normalized _ self w0 Hcompleted Hself) as Hmerged.
  bind_inv Hrun. rewrite Hm in Hmerged. simpl in Hmerged.
  rewrite (bind_run_ok time_time _ s w1 _ _ _ eq_refl) in Hrun.
  unfold bind at 1, WebIntelligenceGatherer.set_search_time at 1 in Hrun.
  rewrite bind_get_self in Hrun. simpl in Hrun.
  bind_inv Hrun. unfold lift in Hm0. simplify_eq.
  unfold bind, WebIntelligenceGatherer.set_all_results, ret in Hrun. simplify_eq.
  match goal with
  | Hd : deduplicate _ = Ok _ |- _ =>
      destruct (dedup_loop_spec _ _ _ Hd) as (Hsub & _)
  end.
  apply Forall_forall. intros entry Hentry.
  match goal with
  | Hmerged : Forall has_schema_keys _ |- _ =>
      apply (proj1 (Forall_forall _ _) Hmerged)
  end.
  by apply (sublist_subseteq _ _ Hsub).
Qed.

(** ** A run of a searcher, in full *)

Lemma with_results_same s : with_results (results s) s = s.
Proof. by destruct s. Qed.

Lemma after_nil w : after [] w = w.
Proof. destruct w. unfold after. simpl. by rewrite app_nil_r. Qed.

Lemma after_after evs evs' w : after evs' (after evs w) = after (evs ++ evs') w.
Proof. unfold after. simpl. by rewrite app_assoc. Qed.

Lemma count_app p t t' : count p (t ++ t') = (count p t + count p t')%nat.
Proof. unfold count. by rewrite filter_app, length_app. Qed.

(** A loop whose body builds one entry per item, or none, or raises. *)
Lemma for_each_builds {A} (build : string → A → result (option (string → dict)))
    (body : A → M searcher unit) :
  (∀ item s w,
     body item s w =
     match build (source_name s) item with
     | Ok (Some entry) =>
         (Ok tt, with_results (results s ++ [entry (now w (count is_now (trace w)))]) s,
          after [EvNow] w)
     | Ok None => (Ok tt, s, w)
     | Raise e => (Raise e, s, w)
     end) →
  ∀ items s w,
    let more := built_entries (build (source_name s)) (now w) (count is_now (trace w)) items in
    final_self (for_each items body s w) = with_results (results s ++ more) s ∧
    final_world (for_each items body s w) = after (repeat EvNow (length more)) w.
Proof.
  intros Hbody items. induction items as [|item items IH]; intros s w; cbv zeta.
  - simpl. by rewrite app_nil_r, with_results_same, after_nil.
  - cbn [for_each built_entries]. unfold bind. rewrite Hbody.
    destruct (build (source_name s) item) as [[entry|]|e].
    + destruct (IH (with_results (results s ++ [entry (now w (count is_now (trace w)))]) s)
                  (after [EvNow] w)) as [Hs Hw].
      cbn [source_name with_results now after trace] in Hs, Hw.
      replace (count is_now (trace w ++ [EvNow])) with (S (count is_now (trace w))) in Hs, Hw
        by (rewrite count_snoc; simpl; lia).
      rewrite Hs, Hw. split.
      * unfold with_results. simpl. by rewrite <- app_assoc.
      * by rewrite after_after.
    + apply IH.
    + simpl. by rewrite app_nil_r, with_results_same, after_nil.
Qed.

(** A request followed by the parsing of its response. *)
Lemma request_then_parse url kw (parse : option response → M searcher unit)
    (more : response → list dict) s w :
  (∀ resp evs, count is_now evs = 0%nat →
     final_self (parse (Some resp) s (after evs w)) = with_results (results s ++ more resp) s ∧
     final_world (parse (Some resp) s (after evs w)) =
       after (repeat EvNow (length (more resp))) (after evs w)) →
  let r := bind (_safe_request url kw) parse s w in
  let new :=
    match safe_response w (request_of url kw) with
    | Ok resp => more resp
    | Raise _ => []
    end in
  final_self r = with_results (results s ++ new) s ∧
  final_world r = after (request_events w (request_of url kw) ++ repeat EvNow (length new)) w.
Proof.
  intros Hparse. cbv zeta. unfold bind. rewrite safe_request_run. cbv zeta.
  unfold safe_response, request_events.
  destruct (attempt w (count is_get (trace w)) _) as [resp|e].
  - destruct (Hparse resp [EvGet (request_of url kw)] eq_refl) as [Hs Hw].
    split; [exact Hs|]. change (record_event ?e w) with (after [e] w).
    by rewrite Hw, after_after.
  - set (g := EvGet (request_of url kw)).
    assert (record_event g (record_event (EvSleep 1) (record_event g w))
            = after [g; EvSleep 1; g] w) as ->
      by (unfold record_event, after; simpl; by rewrite <- !app_assoc).
    destruct (attempt w (S _) _) as [resp|e'].
    + destruct (Hparse resp [g; EvSleep 1; g] eq_refl) as [Hs Hw].
      split; [exact Hs|]. by rewrite Hw, after_after.
    + simpl. by rewrite !app_nil_r, with_results_same.
Qed.

Ltac stop_here := simpl; by rewrite ?app_nil_r, ?with_results_same, ?after_nil.

Lemma bind_lift {S A B} (r : result A) (k : A → M S B) s w :
  bind (lift r) k s w = match r with Ok a => k a s w | Raise e => (Raise e, s, w) end.
Proof. unfold bind, lift. by destruct r. Qed.

(** One step of the parsing of an answer: when it raises, nothing is built. *)
Ltac parse_step :=
  rewrite bind_lift;
  lazymatch goal with
  | |- final_self (match ?r with Ok _ => _ | Raise _ => _ end) = _ ∧ _ =>
      destruct r; [|stop_here]
  end.

(** What the body of a loop does on one item, by cases on what the item holds. *)
Ltac body_spec :=
  intros item s0 w0;
  unfold bind, lift, get_self, datetime_now_isoformat, results_append, json_entry,
    article_entry, and_then, with_results, after, record_event, try_except, ret;
  repeat case_match; simplify_eq; reflexivity.

Ltac loop_spec c :=
  lazymatch goal with
  | |- context [for_each ?items ?body ?s (after ?evs ?w)] =>
      let Hbody := fresh "Hbody" in
      assert (∀ item s w,
                body item s w =
                match c (source_name s) item with
                | Ok (Some entry) =>
                    (Ok tt,
                     with_results (results s ++ [entry (now w (count is_now (trace w)))]) s,
                     after [EvNow] w)
                | Ok None => (Ok tt, s, w)
                | Raise e => (Raise e, s, w)
                end) as Hbody by body_spec;
      destruct (for_each_builds c body Hbody items s (after evs w)) as [Hs Hw];
      cbn [now after trace] in Hs, Hw;
      rewrite count_app in Hs, Hw;
      lazymatch goal with
      | Hevs : count is_now evs = 0%nat |- _ => rewrite Hevs, Nat.add_0_r in Hs, Hw
      end;
      split; [exact Hs|exact Hw]
  end.

(** The start of the proof for each class: down to the parsing of the response. *)
Ltac run_to_parse Hc :=
  expose_guarded; rewrite guarded_run;
  match goal with
  | |- context [final_self (?body ?s ?w)] =>
      assert (final_self (body s w) = with_results (results s ++ built s w) s ∧
              final_world (body s w) =
                after (request_events w (search_request s) ++
                       repeat EvNow (length (built s w))) w) as [-> ->]; [|done]
  end;
  rewrite bind_get_self; cbv zeta;
  unfold built, search_request; rewrite Hc; cbn [search_url search_params];
  apply request_then_parse; intros resp evs Hevs;
  unfold response_json, soup_find_all_article, json_items, and_then.

Lemma wikipedia_search_run `{Builtins} s w :
  cls s = WikipediaSearcher →
  wikipedia_search s w =
  (Ok (slice_to (results s ++ built s w) (max_results s)),
   with_results (results s ++ built s w) s,
   after (request_events w (search_request s) ++ repeat EvNow (length (built s w))) w).
Proof.
  intros Hc. run_to_parse Hc. do 4 parse_step.
  loop_spec (json_entry WikipediaSearcher).
Qed.

Lemma github_search_run `{Builtins} s w :
  cls s = GitHubSearcher →
  github_search s w =
  (Ok (slice_to (results s ++ built s w) (max_results s)),
   with_results (results s ++ built s w) s,
   after (request_events w (search_request s) ++ repeat EvNow (length (built s w))) w).
Proof.
  intros Hc. run_to_parse Hc. do 3 parse_step.
  loop_spec (json_entry GitHubSearcher).
Qed.

Lemma stackoverflow_search_run `{Builtins} s w :
  cls s = StackOverflowSearcher →
  stackoverflow_search s w =
  (Ok (slice_to (results s ++ built s w) (max_results s)),
   with_results (results s ++ built s w) s,
   after (request_events w (search_request s) ++ repeat EvNow (length (built s w))) w).
Proof.
  intros Hc. run_to_parse Hc. do 3 parse_step.
  loop_spec (json_entry StackOverflowSearcher).
Qed.

Lemma hackernews_search_run `{Builtins} s w :
  cls s = HackerNewsSearcher →
  hackernews_search s w =
  (Ok (slice_to (results s ++ built s w) (max_results s)),
   with_results (results s ++ built s w) s,
   after (request_events w (search_request s) ++ repeat EvNow (length (built s w))) w).
Proof.
  intros Hc. run_to_parse Hc. do 3 parse_step.
  loop_spec (json_entry HackerNewsSearcher).
Qed.

Lemma googlenews_search_run `{Builtins} s w :
  cls s = GoogleNewsSearcher →
  googlenews_search s w =
  (Ok (slice_to (results s ++ built s w) (max_results s)),
   with_results (results s ++ built s w) s,
   after (request_events w (search_request s) ++ repeat EvNow (length (built s w))) w).
Proof.
  intros Hc. run_to_parse Hc.
  unfold bind at 1, ret at 1.
  loop_spec article_entry.
Qed.

(** A run of [search] on a searcher, in full: the request is sent (twice if
    the first attempt fails), the entries built from the answer are appended
    to the results, one reading of the clock each, and the results are
    returned, truncated. *)
Lemma searcher_search_run `{Builtins} s w :
  searcher_search s w =
  (Ok (slice_to (results s ++ built s w) (max_results s)),
   with_results (results s ++ built s w) s,
   after (request_events w (search_request s) ++ repeat EvNow (length (built s w))) w).
Proof.
  rewrite searcher_search_unfold. destruct (cls s) eqn:Hc.
  - by apply wikipedia_search_run.
  - by apply github_search_run.
  - by apply stackoverflow_search_run.
  - by apply hackernews_search_run.
  - by apply googlenews_search_run.
Qed.

(** ** The entries a searcher makes of the items of an answer *)

Lemma stamped_cons {A} (entry : A → string → dict) clock k x l :
  stamped entry clock k (x :: l) = entry x (clock k) :: stamped entry clock (S k) l.
Proof.
  unfold stamped. rewrite imap_cons, Nat.add_0_r. f_equal.
  apply imap_ext. intros i y _. simpl. do 2 f_equal. lia.
Qed.

(** The loop builds the entries of the usable items that come first. *)
Lemma built_entries_usable {A} (build : A → result (option (string → dict)))
    (usable : A → bool) (entry : A → string → dict) clock good rest :
  (∀ item, usable item = true → build item = Ok (Some (entry item))) →
  (∀ item, usable item = false → is_ok (build item) = false) →
  Forall (fun item => usable item = true) good → ends_at usable rest →
  ∀ k, built_entries build clock k (good ++ rest) = stamped entry clock k good.
Proof.
  intros Hgood Hbad Hall Hend. induction Hall as [|item good Hitem _ IH]; intros k.
  - simpl. destruct rest as [|bad rest]; [done|].
    simpl. specialize (Hbad bad (Hend bad eq_refl)).
    by destruct (build bad).
  - simpl. rewrite (Hgood item Hitem), stamped_cons. f_equal. apply IH.
Qed.

(** A loop that skips the items it cannot use builds the entries of the others. *)
Lemma built_entries_kept {A} (build : A → result (option (string → dict)))
    (keep : A → bool) (entry : A → string → dict) clock items :
  (∀ item, build item = if keep item then Ok (Some (entry item)) else Ok None) →
  ∀ k, built_entries build clock k items = stamped entry clock k (filter keep items).
Proof.
  intros Hbuild. induction items as [|item items IH]; intros k; [done|].
  simpl. rewrite Hbuild. destruct (keep item) eqn:Hkeep.
  - rewrite filter_cons_True by (by apply Is_true_true).
    rewrite stamped_cons. f_equal. apply IH.
  - rewrite filter_cons_False by (by apply Is_true_false). apply IH.
Qed.

Lemma built_entries_Forall {A} (build : A → result (option (string → dict)))
    (P : dict → Prop) clock items :
  (∀ item entry timestamp, build item = Ok (Some entry) → P (entry timestamp)) →
  ∀ k, Forall P (built_entries build clock k items).
Proof.
  intros Hbuild. induction items as [|item items IH]; intros k; simpl; [done|].
  destruct (build item) as [[entry|]|] eqn:Hitem; [|apply IH|done].
  constructor; [by eapply Hbuild|apply IH].
Qed.

(** What a fresh searcher returns, in terms of what it builds. *)
Lemma fresh_search_outcome `{Builtins} c kw m w :
  outcome (searcher_search (new_searcher c kw m) w) =
  Ok (slice_to (built (new_searcher c kw m) w) (Z.min m config.MAX_RESULTS_LIMIT)).
Proof. by rewrite searcher_search_run. Qed.

(** What a fresh searcher that reads JSON builds from a list of items. *)
Lemma built_from_items `{Builtins} c kw m w resp data items :
  reads_json c = true →
  safe_response w (search_request (new_searcher c kw m)) = Ok resp →
  json resp = Ok data → json_items c data = Ok items →
  built (new_searcher c kw m) w =
  built_entries (json_entry c (class_source_name c)) (now w) (count is_now (trace w)) items.
Proof.
  intros Hc Hresp Hdata Hitems. unfold built. rewrite Hresp, Hdata.
  destruct c; [| | | |done]; cbn [cls new_searcher set_source_name BaseSearcher_init and_then];
    by rewrite Hitems.
Qed.

(** What the body of a loop makes of an item, by cases on the fields it reads. *)
Ltac item_cases :=
  intros [] Hitem; try done; revert Hitem;
  unfold wikipedia_item, stackoverflow_item, wikipedia_result, github_result,
    stackoverflow_result, hackernews_result, joined_tags, item_text, item_field, is_object,
    is_text, json_entry, and_then, py_get, py_replace;
  repeat case_match; simplify_eq; done.

(** X2. The entries of the encyclopedia searcher. Let the request be
    answered, at the first attempt or at the second, by a JSON object whose
    [query.search] is a list, and let [good] be the items of that list before
    the first one that is not an object with a text title and a text snippet.
    A fresh searcher returns one entry per item of [good], in the order of
    the answer: the title as given, the snippet without the two highlighting
    tags, the address of the page (the title with every space replaced by an
    underscore) and the next reading of the clock. The list is cut at
    [min(m, 50)] by the final slice. *)
Theorem wikipedia_search_maps_items `{Builtins} (kw : string) (m : Z) (w : world)
    (resp : response) (d q : dict) (good rest : list value) :
  safe_response w (search_request (new_searcher WikipediaSearcher kw m)) = Ok resp →
  json resp = Ok (VDict d) →
  dict_get d "query" (VDict []) = VDict q →
  dict_get q "search" (VList []) = VList (good ++ rest) →
  Forall (fun item => wikipedia_item item = true) good →
  ends_at wikipedia_item rest →
  outcome (searcher_search (new_searcher WikipediaSearcher kw m) w) =
  Ok (slice_to (stamped wikipedia_result (now w) (count is_now (trace w)) good)
        (Z.min m config.MAX_RESULTS_LIMIT)).
Proof.
  intros Hresp Hdata Hquery Hsearch Hgood Hend.
  rewrite fresh_search_outcome.
  rewrite (built_from_items WikipediaSearcher kw m w resp (VDict d) (good ++ rest) eq_refl Hresp Hdata)
    by (unfold json_items, and_then, py_get; by rewrite Hquery, Hsearch).
  erewrite built_entries_usable; [reflexivity| | |exact Hgood|exact Hend].
  - item_cases.
  - item_cases.
Qed.

(** X3. The entries of the repository searcher. With an answer whose
    [items] is a list, a fresh searcher returns one entry per item that comes
    before the first item that is not an object, in the order of the answer:
    title, description and URL are the values of [name], [description] and
    [html_url] as they come, whatever their type (a description that is
    [null] gives [None], not the default text, which stands for a missing key
    only), with the next reading of the clock; the list is cut by the final
    slice. *)
Theorem github_search_maps_items `{Builtins} (kw : string) (m : Z) (w : world)
    (resp : response) (d : dict) (good rest : list value) :
  safe_response w (search_request (new_searcher GitHubSearcher kw m)) = Ok resp →
  json resp = Ok (VDict d) →
  dict_get d "items" (VList []) = VList (good ++ rest) →
  Forall (fun item => is_object item = true) good →
  ends_at is_object rest →
  outcome (searcher_search (new_searcher GitHubSearcher kw m) w) =
  Ok (slice_to (stamped github_result (now w) (count is_now (trace w)) good)
        (Z.min m config.MAX_RESULTS_LIMIT)).
Proof.
  intros Hresp Hdata Hitems Hgood Hend.
  rewrite fresh_search_outcome.
  rewrite (built_from_items GitHubSearcher kw m w resp (VDict d) (good ++ rest) eq_refl Hresp Hdata)
    by (unfold json_items, and_then, py_get; by rewrite Hitems).
  erewrite built_entries_usable; [reflexivity| | |exact Hgood|exact Hend].
  - item_cases.
  - item_cases.
Qed.

(** X4. The entries of the question searcher. With an answer whose
    [items] is a list, a fresh searcher returns one entry per item that comes
    before the first one that is not an object with a text title and tags
    that [', '.join] accepts: the title with [&quot;] and then [&amp;]
    replaced, the description made of the score and the joined tags, the
    link as it comes, the next reading of the clock; the list is cut by the
    final slice. *)
Theorem stackoverflow_search_maps_items `{Builtins} (kw : string) (m : Z) (w : world)
    (resp : response) (d : dict) (good rest : list value) :
  safe_response w (search_request (new_searcher StackOverflowSearcher kw m)) = Ok resp →
  json resp = Ok (VDict d) →
  dict_get d "items" (VList []) = VList (good ++ rest) →
  Forall (fun item => stackoverflow_item item = true) good →
  ends_at stackoverflow_item rest →
  outcome (searcher_search (new_searcher StackOverflowSearcher kw m) w) =
  Ok (slice_to (stamped stackoverflow_result (now w) (count is_now (trace w)) good)
        (Z.min m config.MAX_RESULTS_LIMIT)).
Proof.
  intros Hresp Hdata Hitems Hgood Hend.
  rewrite fresh_search_outcome.
  rewrite (built_from_items StackOverflowSearcher kw m w resp (VDict d) (good ++ rest) eq_refl Hresp Hdata)
    by (unfold json_items, and_then, py_get; by rewrite Hitems).
  erewrite built_entries_usable; [reflexivity| | |exact Hgood|exact Hend].
  - item_cases.
  - item_cases.
Qed.

(** X5. The entries of the story searcher. With an answer whose [hits]
    is a list, a fresh searcher returns one entry per item that comes before
    the first one that is not an object: the title as it comes, the
    description made of the points and the number of comments, and as URL
    the [url] of the item when it is not empty, the address of the
    discussion (built from [objectID]) otherwise; the list is cut by the
    final slice. *)
Theorem hackernews_search_maps_items `{Builtins} (kw : string) (m : Z) (w : world)
    (resp : response) (d : dict) (good rest : list value) :
  safe_response w (search_request (new_searcher HackerNewsSearcher kw m)) = Ok resp →
  json resp = Ok (VDict d) →
  dict_get d "hits" (VList []) = VList (good ++ rest) →
  Forall (fun item => is_object item = true) good →
  ends_at is_object rest →
  outcome (searcher_search (new_searcher HackerNewsSearcher kw m) w) =
  Ok (slice_to (stamped hackernews_result (now w) (count is_now (trace w)) good)
        (Z.min m config.MAX_RESULTS_LIMIT)).
Proof.
  intros Hresp Hdata Hitems Hgood Hend.
  rewrite fresh_search_outcome.
  rewrite (built_from_items HackerNewsSearcher kw m w resp (VDict d) (good ++ rest) eq_refl Hresp Hdata)
    by (unfold json_items, and_then, py_get; by rewrite Hitems).
  erewrite built_entries_usable; [reflexivity| | |exact Hgood|exact Hend].
  - item_cases.
  - item_cases.
Qed.

(** X6. The entries of the news searcher. When the request is answered,
    a fresh searcher asks the page for at most [min(m, 50)] [article]
    elements and returns one entry for each of them that has both a heading
    and a link, in the order of the page, skipping the others: the text of
    the heading, the text of the paragraph (or [News article] when there is
    none) and the [href] of the link (empty when the link has none). *)
Theorem googlenews_search_keeps_articles_with_heading_and_link `{Builtins} (kw : string)
    (m : Z) (w : world) (resp : response) :
  safe_response w (search_request (new_searcher GoogleNewsSearcher kw m)) = Ok resp →
  outcome (searcher_search (new_searcher GoogleNewsSearcher kw m) w) =
  Ok (slice_to
        (stamped googlenews_result (now w) (count is_now (trace w))
           (filter has_heading_and_link
              (find_all_article resp (Z.min m config.MAX_RESULTS_LIMIT))))
        (Z.min m config.MAX_RESULTS_LIMIT)).
Proof.
  intros Hresp. rewrite fresh_search_outcome. unfold built. rewrite Hresp.
  cbn [cls new_searcher set_source_name BaseSearcher_init source_name max_results
       class_source_name].
  erewrite built_entries_kept; [reflexivity|].
  intros a. unfold article_entry, has_heading_and_link, googlenews_result.
  by destruct (find_h3 a), (find_a a).
Qed.

(** ** The requests of a searcher *)

Lemma Forall_slice_to {A} (P : A → Prop) l n : Forall P l → Forall P (slice_to l n).
Proof. unfold slice_to. destruct (0 <=? n); apply Forall_take. Qed.

Lemma request_events_gets w r :
  (1 ≤ count is_get (request_events w r) ≤ 2)%nat ∧
  (count is_sleep (request_events w r) ≤ 1)%nat ∧
  count is_now (request_events w r) = 0%nat ∧
  count is_clock (request_events w r) = 0%nat ∧
  submissions (request_events w r) = [].
Proof. unfold request_events. destruct (attempt w _ r); vm_compute; repeat split; lia. Qed.

Lemma count_repeat_now p n :
  count p (repeat EvNow n) = if p EvNow then n else 0%nat.
Proof.
  induction n as [|n IH]; simpl; [by destruct (p EvNow)|].
  change (EvNow :: repeat EvNow n) with ([EvNow] ++ repeat EvNow n).
  rewrite count_app, IH. unfold count. simpl.
  destruct (p EvNow) eqn:Hp.
  - rewrite filter_cons_True by (by apply Is_true_true). done.
  - rewrite filter_cons_False by (by apply Is_true_false). done.
Qed.

(** X7. What a searcher does in the world. A run of [search] on a fresh
    searcher adds to the trace the events of one call of [_safe_request]
    (the request, and after a failure one pause of a second and the same
    request again), then one reading of the clock per entry it has built,
    and nothing else. The request goes to the address of the class, with a
    timeout of 10 seconds, the keyword and the cap [min(m, 50)] among the
    parameters, and [User-Agent] as its only header. At most two requests
    are sent and at most one pause is made. *)
Theorem searcher_sends_its_own_request `{Builtins} (c : searcher_class) (kw : string)
    (m : Z) (w : world) :
  let s := new_searcher c kw m in
  let r := searcher_search s w in
  trace (final_world r) =
    trace w ++ request_events w (search_request s) ++
    repeat EvNow (length (results (final_self r))) ∧
  req_url (search_request s) = search_url c kw ∧
  req_timeout (search_request s) = 10 ∧
  kw_params (req_kwargs (search_request s)) =
    search_params c kw (Z.min m config.MAX_RESULTS_LIMIT) ∧
  kw_headers (req_kwargs (search_request s)) = Some {["User-Agent" := config.USER_AGENT]} ∧
  (count is_get (trace (final_world r)) ≤ count is_get (trace w) + 2)%nat ∧
  (count is_sleep (trace (final_world r)) ≤ count is_sleep (trace w) + 1)%nat.
Proof.
  cbv zeta. rewrite searcher_search_run.
  cbn [final_world final_self snd fst trace after results with_results new_searcher
       set_source_name BaseSearcher_init app].
  split; [done|]. split; [done|]. split; [done|]. split; [done|].
  split; [unfold search_request, request_of; simpl; by rewrite insert_empty|].
  destruct (request_events_gets w (search_request (new_searcher c kw m)))
    as ([_ Hgets] & Hsleeps & _).
  rewrite !count_app, !count_repeat_now. simpl.
  cbn [new_searcher set_source_name BaseSearcher_init] in Hgets, Hsleeps. lia.
Qed.

(** X8. Every entry the encyclopedia searcher or the story searcher
    returns has a non-empty URL, whatever the answer: the first builds the
    address from a fixed prefix, the second falls back on the address of
    the discussion. (The other three take the URL as it comes, so an entry
    of theirs can have an empty one, which [search] then drops.) *)
Theorem linking_searchers_never_give_empty_urls `{Builtins} (c : searcher_class)
    (kw : string) (m : Z) (w : world) :
  always_links c = true →
  ∃ out, outcome (searcher_search (new_searcher c kw m) w) = Ok out ∧
         Forall (fun entry => truthy (url_of entry) = true) out.
Proof.
  intros Hc. eexists. split; [apply fresh_search_outcome|].
  apply Forall_slice_to. unfold built.
  destruct (safe_response w _) as [resp|]; [|done].
  destruct c; try done;
    cbn [cls new_searcher set_source_name BaseSearcher_init];
    (destruct (and_then (json resp) _) as [items|]; [|done]);
    apply built_entries_Forall; intros item entry timestamp;
    unfold json_entry, and_then, url_of; repeat case_match; intros; simplify_eq; done.
Qed.

(** ** A run of the orchestrator, in full *)

(** The first loop of [search], in full. *)
Lemma submit_all_submitted `{Builtins} srcs : ∀ futures self w,
  WebIntelligenceGatherer.submit_all srcs futures self w =
  (Ok (futures ++ (submitted self srcs w).1), self, (submitted self srcs w).2).
Proof.
  induction srcs as [|source rest IH]; intros futures self w; simpl.
  - by rewrite app_nil_r.
  - rewrite bind_get_self.
    destruct (WebIntelligenceGatherer._get_searcher self source) as [s|] eqn:Hs; [|apply IH].
    unfold bind at 1, WebIntelligenceGatherer.submit at 1.
    change (record_event ?e w) with (after [e] w).
    rewrite searcher_search_run, (get_searcher_fresh _ _ _ Hs). simpl app.
    rewrite IH. simpl. by rewrite <- app_assoc.
Qed.

(** The second loop of [search], in full. *)
Lemma collect_run (completed : list (future * string)) : ∀ self w,
  for_each completed (fun '(future, source) =>
    try_except
      (results <- lift future ;;
       self <- get_self ;;
       WebIntelligenceGatherer.set_all_results
         (WebIntelligenceGatherer.all_results self ++ results))
      (fun e => ret tt)) self w =
  (Ok tt,
   with_all_results
     (WebIntelligenceGatherer.all_results self ++ concat (map future_results completed)) self,
   w).
Proof.
  induction completed as [|[[r|e] source] completed IH]; intros self w.
  - simpl. destruct self. unfold ret, with_all_results. simpl. by rewrite app_nil_r.
  - cbn [for_each].
    erewrite bind_run_ok by reflexivity. rewrite IH.
    unfold with_all_results. simpl. unfold future_results at 2. simpl.
    by rewrite <- app_assoc.
  - cbn [for_each].
    erewrite bind_run_ok by reflexivity. by rewrite IH.
Qed.

(** The world after the first loop: the clock of [time.time] has not been
    read, and at most two requests per source were sent, with at most one
    pause each. *)
Lemma submitted_world `{Builtins} self srcs : ∀ w,
  ∃ evs, (submitted self srcs w).2 = after evs w ∧
    count is_clock evs = 0%nat ∧
    (count is_get evs ≤ 2 * length srcs)%nat ∧
    (count is_sleep evs ≤ length srcs)%nat.
Proof.
  induction srcs as [|source rest IH]; intros w; simpl.
  - exists []. by rewrite after_nil.
  - destruct (WebIntelligenceGatherer._get_searcher self source) as [s|].
    + simpl.
      set (w1 := after [EvSubmit (source_name s)] w).
      set (found := built s w1).
      destruct (IH (after (request_events w1 (search_request s) ++
                           repeat EvNow (length found)) w1))
        as (evs & -> & Hclock & Hgets & Hsleeps).
      destruct (request_events_gets w1 (search_request s)) as ([_ Hg] & Hs & _ & Hc & _).
      exists ([EvSubmit (source_name s)] ++
              (request_events w1 (search_request s) ++ repeat EvNow (length found)) ++ evs).
      split; [unfold w1; by rewrite !after_after, <- !app_assoc|].
      rewrite !count_app, !count_repeat_now, Hc, Hclock. simpl.
      change (count is_clock [EvSubmit (source_name s)]) with 0%nat.
      change (count is_get [EvSubmit (source_name s)]) with 0%nat.
      change (count is_sleep [EvSubmit (source_name s)]) with 0%nat. lia.
    + destruct (IH w) as (evs & -> & Hclock & Hgets & Hsleeps).
      exists evs. split; [done|]. split; [done|]. lia.
Qed.

(** A run of [search], in full. *)
Lemma search_run `{Builtins} self w :
  WebIntelligenceGatherer.search self w =
  let run := submitted self (WebIntelligenceGatherer.sources self) (after [EvClock] w) in
  let all := merged self w run.1 in
  let duration :=
    float_sub (wall w (S (count is_clock (trace w)))) (wall w (count is_clock (trace w))) in
  match deduplicate all with
  | Ok unique =>
      (Ok unique, with_all_results unique (with_search_time duration self),
       after [EvClock] run.2)
  | Raise e =>
      (Raise e, with_all_results all (with_search_time duration self),
       after [EvClock] run.2)
  end.
Proof.
  unfold WebIntelligenceGatherer.search.
  rewrite (bind_run_ok time_time _ self w _ _ _ eq_refl), bind_get_self.
  change (record_event ?e w) with (after [e] w).
  unfold bind at 1. rewrite submit_all_submitted. cbn [app].
  cbv zeta.
  destruct (submitted_world self (WebIntelligenceGatherer.sources self) (after [EvClock] w))
    as (evs & Hw & Hclock & _).
  set (run := submitted self (WebIntelligenceGatherer.sources self) (after [EvClock] w))
    in *.
  unfold bind at 1, as_completed at 1.
  unfold bind at 1. rewrite collect_run.
  unfold bind at 1, time_time at 1.
  unfold bind at 1, WebIntelligenceGatherer.set_search_time at 1.
  rewrite bind_get_self. unfold bind at 1, lift at 1.
  unfold merged.
  assert (order run.2 = order w) as -> by (by rewrite Hw).
  assert (wall run.2 = wall w) as -> by (by rewrite Hw).
  assert (count is_clock (trace run.2) = S (count is_clock (trace w))) as ->.
  { rewrite Hw. simpl. rewrite !count_app, Hclock. simpl.
    change (count is_clock [EvClock]) with 1%nat. lia. }
  cbn [WebIntelligenceGatherer.all_results with_all_results].
  destruct (deduplicate _); reflexivity.
Qed.

(** ** The deduplication pass, once more *)

Lemma and_then_ret {A} (r : result A) : and_then r Ok = r.
Proof. by destruct r. Qed.

(** The pass over a list in two parts. *)
Lemma dedup_loop_app l1 l2 : ∀ seen,
  dedup_loop (l1 ++ l2) [] seen =
  and_then (dedup_loop l1 [] seen) (fun out1 =>
  and_then (dedup_loop l2 [] (url_keys out1 ∪ seen)) (fun out2 => Ok (out1 ++ out2))).
Proof.
  induction l1 as [|entry l1 IH]; intros seen.
  - cbn [app and_then dedup_loop WebIntelligenceGatherer.dedup_loop].
    unfold url_keys. simpl. rewrite (left_id_L ∅ (∪)). by rewrite and_then_ret.
  - rewrite <- app_comm_cons, !dedup_loop_cons.
    destruct (truthy (url_of entry)); [|apply IH].
    destruct (url_key entry) as [k|] eqn:Hk; simpl; [|done].
    destruct (decide (k ∈ seen)); [apply IH|].
    rewrite IH. destruct (dedup_loop l1 [] ({[k]} ∪ seen)) as [out1|]; simpl; [|done].
    assert (url_keys (entry :: out1) ∪ seen = url_keys out1 ∪ ({[k]} ∪ seen)) as ->.
    { unfold url_keys. simpl. rewrite Hk. simpl.
      by rewrite (comm_L (∪) {[k]}), <- (assoc_L (∪)). }
    by destruct (dedup_loop l2 [] _).
Qed.

(** What the pass returns is returned as it is by a second pass. *)
Lemma deduplicate_fixed l out : deduplicate l = Ok out → deduplicate out = Ok out.
Proof.
  intros Hout. destruct (dedup_loop_spec _ _ _ Hout) as (_ & Hkept & Hnodup & _ & _).
  by apply dedup_loop_fixed.
Qed.

(** X9. The deduplication pass can be run in two steps: the pass over
    [l1 ++ l2] gives what the pass over [l1], followed by the pass over its
    output and [l2], gives, and raises when one of these does. *)
Theorem deduplicate_in_two_steps (l1 l2 : list dict) :
  deduplicate (l1 ++ l2) =
  and_then (deduplicate l1) (fun out1 => deduplicate (out1 ++ l2)).
Proof.
  unfold WebIntelligenceGatherer.deduplicate. rewrite dedup_loop_app.
  destruct (dedup_loop l1 [] ∅) as [out1|] eqn:Hout1; simpl; [|done].
  rewrite dedup_loop_app. fold (deduplicate out1).
  by rewrite (deduplicate_fixed _ _ Hout1).
Qed.

Lemma dedup_loop_hashable l : ∀ seen out,
  dedup_loop l [] seen = Ok out → hashable_urls l.
Proof.
  induction l as [|entry rest IH]; intros seen out Hout r Hr Ht.
  { by apply elem_of_nil in Hr. }
  rewrite dedup_loop_cons in Hout.
  apply elem_of_cons in Hr as [->|Hr].
  - rewrite Ht in Hout. by destruct (url_key entry).
  - destruct (truthy (url_of entry)); [|by apply (IH _ _ Hout)].
    apply and_then_ok in Hout as (k & Hk & Hout).
    destruct (decide (k ∈ seen)); [by apply (IH _ _ Hout)|].
    apply and_then_ok in Hout as (out' & Hout' & _). by apply (IH _ _ Hout').
Qed.

Lemma dedup_loop_raises l : ∀ seen e, dedup_loop l [] seen = Raise e → e = TypeError.
Proof.
  induction l as [|entry rest IH]; intros seen e Hout; [done|].
  rewrite dedup_loop_cons in Hout.
  destruct (truthy (url_of entry)); [|by apply (IH _ _ Hout)].
  unfold url_key in Hout.
  destruct (url_of entry); simpl in Hout; try (by simplify_eq);
    (destruct (decide (_ ∈ seen)); [by apply (IH _ _ Hout)|]);
    (destruct (dedup_loop rest [] _) eqn:Hrest; simpl in Hout; [done|]);
    simplify_eq; by apply (IH _ _ Hrest).
Qed.

(** X10. The deduplication pass returns exactly when every non-empty URL
    is hashable, and what it raises otherwise is a [TypeError]. *)
Theorem deduplicate_raises_on_unhashable_urls_only (l : list dict) :
  (is_ok (deduplicate l) = true ↔ hashable_urls l) ∧
  (∀ e, deduplicate l = Raise e → e = TypeError).
Proof.
  split; [split|].
  - destruct (deduplicate l) as [out|] eqn:Hout; [|done].
    intros _. by apply (dedup_loop_hashable _ _ _ Hout).
  - intros Hl. unfold WebIntelligenceGatherer.deduplicate.
    by destruct (dedup_loop_ok l ∅ Hl) as [out ->].
  - apply dedup_loop_raises.
Qed.

(** The table of [_get_searcher]: a source that has a searcher is an
    available one, and the searcher carries its name, the keyword and the cap
    of the orchestrator, and no result yet. *)
Lemma get_searcher_fields self source s :
  WebIntelligenceGatherer._get_searcher self source = Some s →
  source ∈ config.AVAILABLE_SOURCES ∧
  source_name s = source ∧ keyword s = WebIntelligenceGatherer.keyword self ∧
  max_results s = Z.min (WebIntelligenceGatherer.max_results self) config.MAX_RESULTS_LIMIT ∧
  results s = [].
Proof.
  unfold WebIntelligenceGatherer._get_searcher.
  destruct (WebIntelligenceGatherer.searchers !! source) as [c|] eqn:Hc; [|done].
  intros [= <-].
  unfold WebIntelligenceGatherer.searchers in Hc. apply elem_of_list_to_map_2 in Hc.
  repeat (apply elem_of_cons in Hc as [Hc|Hc];
          [simplify_eq; split; [|done]; unfold config.AVAILABLE_SOURCES;
           repeat first [apply list_elem_of_here|apply list_elem_of_further]|]).
  by apply elem_of_nil in Hc.
Qed.

(** X11. [_get_searcher] has a searcher for a source exactly when the
    source is one of [config.AVAILABLE_SOURCES]: the table of the method and
    the list the constructor validates against name the same five sources.
    The searcher it returns bears the name of the source, the keyword of the
    orchestrator, the cap [min(max_results, 50)] and no result. *)
Theorem registry_agrees_with_available_sources (self : WebIntelligenceGatherer.t)
    (source : string) :
  (is_Some (WebIntelligenceGatherer._get_searcher self source) ↔
   source ∈ config.AVAILABLE_SOURCES) ∧
  (∀ s, WebIntelligenceGatherer._get_searcher self source = Some s →
     source_name s = source ∧ keyword s = WebIntelligenceGatherer.keyword self ∧
     max_results s =
       Z.min (WebIntelligenceGatherer.max_results self) config.MAX_RESULTS_LIMIT ∧
     results s = []).
Proof.
  split; [split|].
  - intros [s Hs]. by destruct (get_searcher_fields self source s Hs).
  - intros Hin. destruct (get_searcher_known self source Hin) as (s & -> & _). by eexists.
  - intros s Hs. by destruct (get_searcher_fields self source s Hs) as (_ & ?).
Qed.

(** ** The merged list *)

Lemma insert_at_Permutation {A} n (x : A) l : insert_at n x l ≡ₚ x :: l.
Proof.
  unfold insert_at. rewrite <- Permutation_middle. by rewrite take_drop.
Qed.

(** The futures complete in some order: none is lost, none comes twice. *)
Lemma arrange_Permutation {A} order (pending : list A) : ∀ i done,
  arrange order i done pending ≡ₚ done ++ pending.
Proof.
  induction pending as [|x rest IH]; intros i done; simpl.
  - by rewrite app_nil_r.
  - rewrite IH, insert_at_Permutation. simpl. apply Permutation_middle.
Qed.

Lemma elem_of_concat_map {A B} (g : A → list B) l x :
  x ∈ concat (map g l) ↔ ∃ y, y ∈ l ∧ x ∈ g y.
Proof.
  induction l as [|y l IH]; simpl.
  - split; [by intros ?%elem_of_nil|by intros (? & ?%elem_of_nil & _)].
  - rewrite elem_of_app, IH. split.
    + intros [Hx|(z & Hz & Hx)]; [exists y; split; [left|done]|exists z; split; [by right|done]].
    + intros (z & [->|Hz]%elem_of_cons & Hx); [by left|right; eauto].
Qed.

(** The entries of the merged list: those [self] held, and those of the futures. *)
Lemma elem_of_merged self w futures entry :
  entry ∈ merged self w futures ↔
  entry ∈ WebIntelligenceGatherer.all_results self ∨
  ∃ f, f ∈ futures ∧ entry ∈ future_results f.
Proof.
  unfold merged. rewrite elem_of_app, elem_of_concat_map.
  split; (intros [?|(f & Hf & ?)]; [by left|right; exists f; split; [|done]]).
  - by rewrite arrange_Permutation in Hf.
  - by rewrite arrange_Permutation.
Qed.

Lemma length_concat_map {A B} (g : A → list B) l :
  length (concat (map g l)) = sum_list (map (fun y => length (g y)) l).
Proof. induction l as [|y l IH]; simpl; [done|]. by rewrite length_app, IH. Qed.

Lemma length_merged self w futures :
  length (merged self w futures) =
  (length (WebIntelligenceGatherer.all_results self) +
   sum_list (map (fun f => length (future_results f)) futures))%nat.
Proof.
  unfold merged. rewrite length_app, length_concat_map. f_equal.
  change (map ?f ?l) with (f <$> l).
  by rewrite (arrange_Permutation (order w) futures 0 []).
Qed.

(** The futures of the first loop: one per source that has a searcher, each
    holding what the searcher built, truncated. *)
Lemma submitted_futures `{Builtins} self srcs : ∀ w,
  (length (submitted self srcs w).1 ≤ length srcs)%nat ∧
  Forall (fun f =>
            f.2 ∈ srcs ∧
            ∃ s w1, WebIntelligenceGatherer._get_searcher self f.2 = Some s ∧
                    f.1 = Ok (slice_to (built s w1) (max_results s)))
         (submitted self srcs w).1.
Proof.
  induction srcs as [|source rest IH]; intros w; simpl; [by split|].
  destruct (WebIntelligenceGatherer._get_searcher self source) as [s|] eqn:Hs.
  - cbn [fst].
    set (w1 := after [EvSubmit (source_name s)] w).
    set (w2 := after (request_events w1 (search_request s) ++
                      repeat EvNow (length (built s w1))) w1).
    destruct (IH w2) as [Hlen Hall]. split; [simpl; lia|].
    constructor.
    + split; [left|]. simpl. rewrite Hs. eauto.
    + eapply Forall_impl; [exact Hall|]. intros f [Hf Hrest]. split; [by right|done].
  - destruct (IH w) as [Hlen Hall]. split; [lia|].
    eapply Forall_impl; [exact Hall|]. intros f [Hf Hrest]. split; [by right|done].
Qed.

(** Every entry a searcher builds is labelled with the searcher's name. *)
Lemma built_labelled `{Builtins} s w :
  Forall (fun entry => source_of entry = VStr (source_name s)) (built s w).
Proof.
  unfold built. destruct (safe_response w _) as [resp|]; [|done].
  destruct (cls s);
    try (destruct (and_then (json resp) _) as [items|]; [|done]);
    apply built_entries_Forall; intros item entry timestamp;
    unfold json_entry, article_entry, and_then, source_of;
    repeat case_match; intros; simplify_eq; done.
Qed.

Lemma length_slice_to_nat {A} (l : list A) n :
  0 ≤ n → (length (slice_to l n) ≤ Z.to_nat n)%nat.
Proof. intros Hn. pose proof (length_slice_to l n Hn). lia. Qed.

Lemma sum_list_bound {A} (g : A → nat) c l :
  Forall (fun y => (g y ≤ c)%nat) l → (sum_list (map g l) ≤ length l * c)%nat.
Proof. induction 1; simpl; lia. Qed.

(** The keys of what the pass returns are those of the non-empty URLs it was given. *)
Lemma deduplicate_keys l out k :
  deduplicate l = Ok out →
  (k ∈ url_keys out ↔
   ∃ entry, entry ∈ l ∧ truthy (url_of entry) = true ∧ url_key entry = Ok k).
Proof.
  intros Hout.
  destruct (dedup_loop_spec _ _ _ Hout) as (Hsub & Hkept & _ & Hall & _).
  unfold url_keys. rewrite elem_of_list_to_set, list_elem_of_omap. split.
  - intros (entry & Hin & Hk). exists entry.
    destruct (Hkept entry Hin) as (Ht & k' & Hk' & _).
    split; [by apply (sublist_subseteq _ _ Hsub)|]. split; [done|].
    rewrite Hk' in Hk. by simplify_eq.
  - intros (entry & Hin & Ht & Hk).
    destruct (Hall entry k Hin Ht Hk) as [[]%elem_of_empty|(kept & Hkept_in & Hkk)].
    exists kept. split; [done|]. by rewrite Hkk.
Qed.

Lemma deduplicate_length l out :
  deduplicate l = Ok out → length out = size (url_keys out).
Proof.
  intros Hout.
  destruct (dedup_loop_spec _ _ _ Hout) as (_ & Hkept & Hnodup & _ & _).
  unfold url_keys.
  assert (url_key <$> out =
          Ok <$> omap (fun entry => match url_key entry with
                                    | Ok k => Some k
                                    | Raise _ => None
                                    end) out) as Hkeys.
  { clear Hnodup Hout. induction out as [|entry out IH]; [done|].
    destruct (Hkept entry (list_elem_of_here _ _)) as (_ & k & Hk & _).
    simpl. rewrite Hk. simpl. f_equal. apply IH. intros r Hr. apply Hkept. by right. }
  rewrite Hkeys in Hnodup. apply (NoDup_fmap_1 Ok) in Hnodup.
  rewrite size_list_to_set by done.
  rewrite <- (length_fmap url_key out), Hkeys. by rewrite length_fmap.
Qed.

(** The pass depends on the entries it is given, whatever their order, as
    far as the URLs it keeps are concerned. *)
Lemma deduplicate_same_entries l1 l2 :
  (∀ entry, entry ∈ l1 ↔ entry ∈ l2) →
  match deduplicate l1, deduplicate l2 with
  | Ok out1, Ok out2 => url_keys out1 = url_keys out2 ∧ length out1 = length out2
  | Raise _, Raise _ => True
  | _, _ => False
  end.
Proof.
  intros Hsame.
  assert (hashable_urls l1 ↔ hashable_urls l2) as Hhash.
  { unfold hashable_urls. split; intros Hl entry Hin; apply Hl; by apply Hsame. }
  destruct (deduplicate l1) as [out1|e1] eqn:H1, (deduplicate l2) as [out2|e2] eqn:H2.
  - assert (url_keys out1 = url_keys out2) as Hkeys.
    { apply set_eq. intros k.
      rewrite (deduplicate_keys _ _ k H1), (deduplicate_keys _ _ k H2).
      split; intros (entry & Hin & Hrest); exists entry; (split; [by apply Hsame|done]). }
    split; [done|]. by rewrite (deduplicate_length _ _ H1), (deduplicate_length _ _ H2), Hkeys.
  - apply dedup_loop_hashable in H1. apply Hhash in H1.
    destruct (dedup_loop_ok l2 ∅ H1) as [out Hout].
    unfold WebIntelligenceGatherer.deduplicate in H2. congruence.
  - apply dedup_loop_hashable in H2. apply Hhash in H2.
    destruct (dedup_loop_ok l1 ∅ H2) as [out Hout].
    unfold WebIntelligenceGatherer.deduplicate in H1. congruence.
  - done.
Qed.

(** The searchers do not look at the order in which the futures complete. *)
Lemma submitted_with_order `{Builtins} self srcs o : ∀ w,
  (submitted self srcs (with_order o w)).1 = (submitted self srcs w).1 ∧
  (submitted self srcs (with_order o w)).2 = with_order o (submitted self srcs w).2.
Proof.
  induction srcs as [|source rest IH]; intros w; simpl; [done|].
  destruct (WebIntelligenceGatherer._get_searcher self source) as [s|]; [|apply IH].
  cbn [fst snd].
  set (w1 := after [EvSubmit (source_name s)] w).
  change (after [EvSubmit (source_name s)] (with_order o w)) with (with_order o w1).
  change (built s (with_order o w1)) with (built s w1).
  change (request_events (with_order o w1) (search_request s))
    with (request_events w1 (search_request s)).
  set (evs := request_events w1 (search_request s) ++ repeat EvNow (length (built s w1))).
  change (after evs (with_order o w1)) with (with_order o (after evs w1)).
  destruct (IH (after evs w1)) as [-> ->]. done.
Qed.

(** ** What a search does and leaves *)

(** What [search] leaves in [all_results]: the list it returns, or, when the
    deduplication pass raises, the merged list. *)
Lemma search_all_results `{Builtins} self w :
  let r := WebIntelligenceGatherer.search self w in
  let all := merged self w
               (submitted self (WebIntelligenceGatherer.sources self) (after [EvClock] w)).1 in
  (∀ out, outcome r = Ok out →
     deduplicate all = Ok out ∧ WebIntelligenceGatherer.all_results (final_self r) = out) ∧
  WebIntelligenceGatherer.all_results (final_self r) `sublist_of` all.
Proof.
  cbv zeta. rewrite search_run. cbv zeta.
  destruct (deduplicate _) as [unique|e] eqn:Hd; simpl.
  - split; [by intros out [= <-]|]. by destruct (dedup_loop_spec _ _ _ Hd) as (Hsub & _).
  - split; [by intros out [=]|done].
Qed.

(** X12. The effects of [search], whether it returns or raises: at most
    two requests and at most one pause per listed source, and exactly two
    readings of [time.time()], whose difference is the [search_time] it
    stores (the searchers do not read that clock). *)
Theorem search_sends_at_most_two_requests_per_source `{Builtins}
    (self : WebIntelligenceGatherer.t) (w : world) :
  let r := WebIntelligenceGatherer.search self w in
  let n := length (WebIntelligenceGatherer.sources self) in
  (count is_get (trace (final_world r)) ≤ count is_get (trace w) + 2 * n)%nat ∧
  (count is_sleep (trace (final_world r)) ≤ count is_sleep (trace w) + n)%nat ∧
  count is_clock (trace (final_world r)) = (count is_clock (trace w) + 2)%nat ∧
  WebIntelligenceGatherer.search_time (final_self r) =
    float_sub (wall w (S (count is_clock (trace w)))) (wall w (count is_clock (trace w))).
Proof.
  cbv zeta. rewrite search_run. cbv zeta.
  destruct (submitted_world self (WebIntelligenceGatherer.sources self) (after [EvClock] w))
    as (evs & Hw & Hclock & Hgets & Hsleeps).
  destruct (deduplicate _); cbn [final_world final_self fst snd]; rewrite Hw;
    cbn [trace after WebIntelligenceGatherer.search_time with_all_results with_search_time];
    rewrite !count_app, Hclock;
    change (count is_get [EvClock]) with 0%nat;
    change (count is_sleep [EvClock]) with 0%nat;
    change (count is_clock [EvClock]) with 1%nat;
    (split; [lia|]); (split; [lia|]); (split; [lia|done]).
Qed.


(** X14. The order in which the futures complete changes neither whether
    [search] returns, nor the URLs of the entries it returns, nor their
    number: two runs that differ in that order only return lists with the
    same set of URL keys and the same length, or both raise. *)
Theorem search_urls_do_not_depend_on_the_completion_order `{Builtins}
    (self : WebIntelligenceGatherer.t) (w : world) (o : nat → nat) :
  match outcome (WebIntelligenceGatherer.search self w),
        outcome (WebIntelligenceGatherer.search self (with_order o w)) with
  | Ok out1, Ok out2 => url_keys out1 = url_keys out2 ∧ length out1 = length out2
  | Raise _, Raise _ => True
  | _, _ => False
  end.
Proof.
  rewrite !search_run. cbv zeta.
  change (after [EvClock] (with_order o w)) with (with_order o (after [EvClock] w)).
  destruct (submitted_with_order self (WebIntelligenceGatherer.sources self) o
              (after [EvClock] w)) as [-> _].
  set (fs := (submitted self (WebIntelligenceGatherer.sources self) (after [EvClock] w)).1).
  pose proof (deduplicate_same_entries (merged self w fs) (merged self (with_order o w) fs))
    as Hsame.
  destruct (deduplicate (merged self w fs)), (deduplicate (merged self (with_order o w) fs));
    apply Hsame; intros entry; by rewrite !elem_of_merged.
Qed.

(** X15. After [search], whether it returned or raised, every entry of
    [all_results] was there before the call or carries as [source] one of
    the listed sources, which is an available one. *)
Theorem search_results_are_labelled_with_the_listed_sources `{Builtins}
    (self : WebIntelligenceGatherer.t) (w : world) :
  Forall (fun entry =>
            entry ∈ WebIntelligenceGatherer.all_results self ∨
            ∃ source, source ∈ WebIntelligenceGatherer.sources self ∧
                      source ∈ config.AVAILABLE_SOURCES ∧
                      source_of entry = VStr source)
    (WebIntelligenceGatherer.all_results
       (final_self (WebIntelligenceGatherer.search self w))).
Proof.
  destruct (search_all_results self w) as [_ Hsub]. cbv zeta in Hsub.
  apply Forall_forall. intros entry Hentry.
  apply (sublist_subseteq _ _ Hsub), elem_of_merged in Hentry as [?|(f & Hf & Hin)];
    [by left|right].
  destruct (submitted_futures self (WebIntelligenceGatherer.sources self) (after [EvClock] w))
    as [_ Hall].
  apply (proj1 (Forall_forall _ _) Hall) in Hf as (Hsource & s & w1 & Hs & Hr).
  exists f.2. split; [done|].
  destruct (get_searcher_fields self f.2 s Hs) as (Hknown & Hname & _).
  split; [done|]. rewrite <- Hname.
  unfold future_results in Hin. rewrite Hr in Hin.
  pose proof (built_labelled s w1) as Hlab.
  apply (Forall_slice_to _ _ (max_results s)) in Hlab.
  by apply (proj1 (Forall_forall _ _) Hlab).
Qed.

(** X16. With a cap that is not negative, [search] adds to [all_results]
    at most [min(max_results, 50)] entries per listed source. *)
Theorem search_holds_at_most_the_cap_per_source `{Builtins}
    (self : WebIntelligenceGatherer.t) (w : world) :
  0 ≤ WebIntelligenceGatherer.max_results self →
  (length (WebIntelligenceGatherer.all_results
             (final_self (WebIntelligenceGatherer.search self w)))
   ≤ length (WebIntelligenceGatherer.all_results self) +
     length (WebIntelligenceGatherer.sources self) *
     Z.to_nat (Z.min (WebIntelligenceGatherer.max_results self) config.MAX_RESULTS_LIMIT))%nat.
Proof.
  intros Hcap. destruct (search_all_results self w) as [_ Hsub]. cbv zeta in Hsub.
  apply sublist_length in Hsub. rewrite length_merged in Hsub.
  destruct (submitted_futures self (WebIntelligenceGatherer.sources self) (after [EvClock] w))
    as [Hlen Hall].
  set (cap := Z.min (WebIntelligenceGatherer.max_results self) config.MAX_RESULTS_LIMIT).
  assert (0 ≤ cap) as Hcap' by (unfold cap, config.MAX_RESULTS_LIMIT; lia).
  assert (Forall (fun f => (length (future_results f) ≤ Z.to_nat cap)%nat)
            (submitted self (WebIntelligenceGatherer.sources self) (after [EvClock] w)).1)
    as Hbound.
  { eapply Forall_impl; [exact Hall|]. intros f (_ & s & w1 & Hs & Hr).
    destruct (get_searcher_fields self f.2 s Hs) as (_ & _ & _ & Hmax & _).
    unfold future_results. rewrite Hr, Hmax. by apply length_slice_to_nat. }
  apply sum_list_bound in Hbound.
  etrans; [exact Hsub|]. apply Nat.add_le_mono_l.
  etrans; [exact Hbound|]. by apply Nat.mul_le_mono_r.
Qed.


(** Outside C6 as amended: a source listed twice passes the constructor
    and has two futures, so with the cap 2 the buffer holds four entries of
    that one source before the deduplication pass. *)
Example repeated_source_contributes_twice :
  let self := WebIntelligenceGatherer.Make "kw" ["wikipedia"; "wikipedia"] 2 [] 0 in
  WebIntelligenceGatherer.__init__ "kw" ["wikipedia"; "wikipedia"] 2 = Ok self ∧
  ∃ futures w',
    WebIntelligenceGatherer.submit_all ["wikipedia"; "wikipedia"] [] self
      (record_event EvClock example_world) = (Ok futures, self, w') ∧
    length (merged self example_world futures) = 4%nat ∧
    Forall (fun entry => source_of entry = VStr "wikipedia")
      (merged self example_world futures).
Proof.
  cbv zeta. split; [vm_compute; reflexivity|].
  do 2 eexists. split; [vm_compute; reflexivity|].
  split; [vm_compute; reflexivity|]. repeat constructor.
Qed.



(** ** Reading a quoted field back *)

Lemma read_doubled s rest :
  no_quote_ahead rest = true →
  read_quoted_content (double_quotes s +:+ String quote_char rest) = Some (s, rest).
Proof.
  intros Hrest. induction s as [|c s IH].
  - change (read_quoted_content (String quote_char rest) = Some (EmptyString, rest)).
    cbn [read_quoted_content]. rewrite Ascii.eqb_refl.
    destruct rest as [|c rest]; [done|].
    simpl in Hrest. by destruct (Ascii.eqb c quote_char).
  - change (double_quotes (String c s))
      with (if Ascii.eqb c quote_char then String c (String c (double_quotes s))
            else String c (double_quotes s)).
    destruct (Ascii.eqb_spec c quote_char) as [->|Hne].
    + change (read_quoted_content
                (String quote_char (String quote_char
                   (double_quotes s +:+ String quote_char rest)))
              = Some (String quote_char s, rest)).
      cbn [read_quoted_content]. rewrite Ascii.eqb_refl, IH. done.
    + change (read_quoted_content
                (String c (double_quotes s +:+ String quote_char rest))
              = Some (String c s, rest)).
      cbn [read_quoted_content].
      rewrite (proj2 (Ascii.eqb_neq c quote_char) Hne), IH. done.
Qed.

(** X17. The quoting of [to_csv] can be undone: a field written between
    double quotes with its own double quotes doubled, followed by anything
    that does not start with a double quote, is read back as the original
    text by a reader that takes two double quotes for one and a single one
    for the end of the field (as the readers of CSV do). *)
Theorem quoted_field_reads_back (s rest : string) :
  no_quote_ahead rest = true →
  read_quoted (chr 34 +:+ str_replace (chr 34) (chr 34 +:+ chr 34) s +:+ chr 34 +:+ rest)
  = Some (s, rest).
Proof.
  intros Hrest. rewrite replace_quote.
  change (read_quoted (String quote_char (double_quotes s +:+ String quote_char rest))
          = Some (s, rest)).
  cbn [read_quoted]. rewrite Ascii.eqb_refl. by apply read_doubled.
Qed.

(** ** When [to_csv] returns *)

Lemma csv_row_ok entry :
  is_ok (ReportGenerator.csv_row entry) = true → text_fields entry.
Proof.
  unfold ReportGenerator.csv_row. cbv zeta. intros Hrow k Hk.
  destruct (dict_get entry "title" (VStr EmptyString)) eqn:Htitle; try done.
  destruct (dict_get entry "description" (VStr EmptyString)) eqn:Hdescription; try done.
  cbn [py_replace and_then py_join py_iter all_strs] in Hrow.
  destruct (dict_get entry "source" (VStr EmptyString)) eqn:Hsource; try done.
  destruct (dict_get entry "url" (VStr EmptyString)) eqn:Hurl; try done.
  destruct (dict_get entry "timestamp" (VStr EmptyString)) eqn:Htimestamp; try done.
  unfold schema_keys in Hk.
  repeat (apply elem_of_cons in Hk as [->|Hk]; [by eauto|]).
  by apply elem_of_nil in Hk.
Qed.

Lemma csv_row_raises entry e :
  ReportGenerator.csv_row entry = Raise e → e = AttributeError ∨ e = TypeError.
Proof.
  unfold ReportGenerator.csv_row. cbv zeta.
  destruct (dict_get entry "title" (VStr EmptyString)); simpl;
    try (intros; simplify_eq; by left);
    destruct (dict_get entry "description" (VStr EmptyString)); simpl;
    try (intros; simplify_eq; by left);
    unfold py_join; simpl; repeat case_match; intros; simplify_eq; by right.
Qed.

Lemma csv_rows_ok l : ∀ output,
  is_ok (ReportGenerator.csv_rows l output) = true → Forall text_fields l.
Proof.
  induction l as [|entry rest IH]; intros output Hrows; [done|].
  cbn [ReportGenerator.csv_rows] in Hrows.
  destruct (ReportGenerator.csv_row entry) as [row|] eqn:Hrow; [|done].
  constructor; [apply csv_row_ok; by rewrite Hrow|by apply (IH _ Hrows)].
Qed.

Lemma csv_rows_raises l : ∀ output e,
  ReportGenerator.csv_rows l output = Raise e → e = AttributeError ∨ e = TypeError.
Proof.
  induction l as [|entry rest IH]; intros output e Hrows; [done|].
  cbn [ReportGenerator.csv_rows] in Hrows.
  destruct (ReportGenerator.csv_row entry) as [row|e'] eqn:Hrow.
  - by apply (IH _ _ Hrows).
  - simpl in Hrows. simplify_eq. by apply (csv_row_raises entry).
Qed.

(** X18. [to_csv] returns exactly when the five fields of every result
    are text or missing; otherwise it raises an [AttributeError] (a title or
    a description without [replace]) or a [TypeError] (a field [join]
    refuses). *)
Theorem to_csv_returns_exactly_on_text_fields (l : list dict) :
  (is_ok (ReportGenerator.to_csv l) = true ↔ Forall text_fields l) ∧
  (∀ e, ReportGenerator.to_csv l = Raise e → e = AttributeError ∨ e = TypeError).
Proof.
  split; [split|].
  - destruct l as [|entry rest]; [done|]. apply csv_rows_ok.
  - intros Hl. destruct l as [|entry rest]; [done|].
    unfold ReportGenerator.to_csv. by rewrite csv_rows_text.
  - destruct l as [|entry rest]; [done|]. apply csv_rows_raises.
Qed.

(** ** The errors of the constructor *)

(** X19. The errors of the constructor, in the order of its checks: a
    keyword of fewer than 2 characters is reported first, whatever the
    sources; then a keyword of more than 200 characters, with a message that
    says [less than 200] although 200 characters are accepted; then the
    unknown sources, and the message carries exactly the listed sources that
    are not available. Otherwise the constructor returns the orchestrator
    with its three arguments, no result and the search time 0. *)
Theorem init_reports_the_first_failed_check (kw : string) (srcs : list string) (m : Z) :
  ((String.length kw < 2)%nat →
   WebIntelligenceGatherer.__init__ kw srcs m =
   Raise (ValueError (Msg "Keyword must be at least 2 characters"))) ∧
  ((200 < String.length kw)%nat →
   WebIntelligenceGatherer.__init__ kw srcs m =
   Raise (ValueError (Msg "Keyword must be less than 200 characters"))) ∧
  ((2 ≤ String.length kw ≤ 200)%nat → ¬ known_sources srcs →
   ∃ invalid,
     WebIntelligenceGatherer.__init__ kw srcs m =
       Raise (ValueError (MsgInvalidSources invalid)) ∧
     ∀ s, s ∈ invalid ↔ s ∈ srcs ∧ s ∉ config.AVAILABLE_SOURCES) ∧
  ((2 ≤ String.length kw ≤ 200)%nat → known_sources srcs →
   WebIntelligenceGatherer.__init__ kw srcs m =
   Ok (WebIntelligenceGatherer.Make kw srcs m [] 0)).
Proof.
  unfold WebIntelligenceGatherer.__init__. rewrite empty_keyword_is_short.
  unfold config.MIN_KEYWORD_LENGTH, config.MAX_KEYWORD_LENGTH.
  destruct (Nat.ltb_spec (String.length kw) 2);
    [repeat split; first [done|intros; lia]|].
  destruct (Nat.ltb_spec 200 (String.length kw));
    [repeat split; first [done|intros; lia]|].
  split; [intros; lia|]. split; [intros; lia|].
  destruct (decide _) as [Hempty|Hsome].
  - apply invalid_sources_empty in Hempty. split; [by intros _ []|done].
  - split.
    + intros _ _. eexists. split; [reflexivity|]. intros s.
      by rewrite elem_of_difference, !elem_of_list_to_set.
    + intros _ Hknown. by apply invalid_sources_empty in Hknown.
Qed.

(** ** The response of a request *)

(** X20. [_safe_request] returns the response of the first attempt if it
    succeeds and that of the second otherwise, and raises what the second
    attempt raises (the exception of the first is lost). It never returns
    [None]: the last line of the method is not reached. A response it
    returns was received from the network and has no status from 400 to
    599. The object is left as it is. *)
Theorem safe_request_returns_the_first_good_response {Self} (url : string) (kw : kwargs)
    (s : Self) (w : world) :
  let r := _safe_request url kw s w in
  outcome r =
    match safe_response w (request_of url kw) with
    | Ok resp => Ok (Some resp)
    | Raise e => Raise e
    end ∧
  outcome r ≠ Ok None ∧
  (∀ resp, outcome r = Ok (Some resp) →
     ¬ (400 ≤ status_code resp < 600) ∧
     ∃ n, net w n (request_of url kw) = Ok resp) ∧
  final_self r = s ∧
  trace (final_world r) = trace w ++ request_events w (request_of url kw).
Proof.
  cbv zeta. rewrite safe_request_run. cbv zeta.
  unfold safe_response, request_events.
  assert (∀ n resp, attempt w n (request_of url kw) = Ok resp →
            ¬ (400 ≤ status_code resp < 600) ∧ ∃ n, net w n (request_of url kw) = Ok resp)
    as Hgood.
  { intros n resp. unfold attempt.
    destruct (net w n (request_of url kw)) as [resp'|] eqn:Hnet; [|done].
    destruct (_ && _) eqn:Hstatus; [done|]. intros [= <-].
    split; [|by eauto]. apply andb_false_iff in Hstatus. lia. }
  destruct (attempt w (count is_get (trace w)) _) as [resp|e] eqn:Hfirst.
  - cbn [outcome final_self final_world fst snd trace record_event].
    split; [done|]. split; [done|]. split; [|done].
    intros resp' [= <-]. by apply (Hgood _ _ Hfirst).
  - cbn [outcome final_self final_world fst snd trace record_event].
    destruct (attempt w (S _) _) as [resp|e'] eqn:Hsecond.
    + split; [done|]. split; [done|]. split; [|by rewrite <- !app_assoc].
      intros resp' [= <-]. by apply (Hgood _ _ Hsecond).
    + split; [done|]. split; [done|]. split; [done|by rewrite <- !app_assoc].
Qed.

(** ** The groups of [print_results] *)

Lemma file_under_keys k source entry g :
  (file_under k source entry g).*1 = if decide (k ∈ g.*1) then g.*1 else g.*1 ++ [k].
Proof.
  induction g as [|[k' [source' filed]] g IH].
  - simpl. destruct (decide (k ∈ [])) as [Hin|]; [by apply elem_of_nil in Hin|done].
  - cbn [file_under]. destruct (decide (k' = k)) as [Heq|Hne]; [subst k'|].
    + cbn [fmap list_fmap fst]. destruct (decide (k ∈ k :: g.*1)) as [|Hnot];
        [done|destruct Hnot; left].
    + cbn [fmap list_fmap fst]. fold (g.*1). fold ((file_under k source entry g).*1).
      rewrite IH.
      destruct (decide (k ∈ g.*1)) as [Hin|Hnot], (decide (k ∈ k' :: g.*1)) as [Hin'|Hnot'];
        try done.
      * destruct Hnot'. by right.
      * apply elem_of_cons in Hin' as [?|?]; by simplify_eq.
Qed.

Lemma filed_under_file_under k' k source entry g :
  filed_under k' (file_under k source entry g) =
  if decide (k' = k) then filed_under k' g ++ [entry] else filed_under k' g.
Proof.
  induction g as [|[k0 [source0 filed]] g IH].
  - cbn [file_under filed_under].
    destruct (decide (k = k')) as [Heq|Hne], (decide (k' = k)) as [Heq'|Hne'];
      first [done|by destruct Hne|by destruct Hne'].
  - cbn [file_under filed_under].
    destruct (decide (k0 = k)) as [Heq0|Hne0]; cbn [filed_under].
    + subst k0.
      destruct (decide (k = k')) as [Heq|Hne], (decide (k' = k)) as [Heq'|Hne'];
        first [done|by destruct Hne|by destruct Hne'].
    + destruct (decide (k0 = k')) as [Heq|Hne]; [|exact IH].
      subst k0. by destruct (decide (k' = k)).
Qed.

Lemma file_under_length k source entry g :
  length (all_filed (file_under k source entry g)) = S (length (all_filed g)).
Proof.
  unfold all_filed. induction g as [|[k' [source' filed]] g IH]; simpl; [done|].
  destruct (decide (k' = k)); simpl; rewrite !length_app; simpl; [lia|].
  rewrite IH. lia.
Qed.

Lemma has_source_key_true k entry : has_source_key k entry = true ↔ source_key entry = Ok k.
Proof.
  unfold has_source_key. destruct (source_key entry) as [k'|]; [|done].
  rewrite bool_decide_eq_true. split; congruence.
Qed.

Lemma file_under_keyed k source entry g :
  hash_key source = Ok k → keyed g → keyed (file_under k source entry g).
Proof.
  intros Hk. unfold keyed. induction 1 as [|[k' [source' filed]] g Hg Hrest IH]; simpl.
  - by repeat constructor.
  - destruct (decide (k' = k)); constructor; done.
Qed.

Lemma filed_under_lookup k source filed g :
  NoDup g.*1 → (k, (source, filed)) ∈ g → filed_under k g = filed.
Proof.
  induction g as [|[k' [source' filed']] g IH]; simpl; intros Hnodup Hin.
  - by apply elem_of_nil in Hin.
  - apply NoDup_cons in Hnodup as [Hhead Hnodup].
    apply elem_of_cons in Hin as [?|Hin].
    + simplify_eq. by rewrite decide_True.
    + destruct (decide (k' = k)) as [->|Hne]; [|by apply IH].
      destruct Hhead. apply list_elem_of_fmap. by exists (k, (source, filed)).
Qed.

(** The first loop of [print_results], started with the groups [g]. *)
Lemma group_by_source_spec l : ∀ g g',
  group_by_source l g = Ok g' → NoDup g.*1 → keyed g →
  NoDup g'.*1 ∧ keyed g' ∧
  (∀ k, filed_under k g' = filed_under k g ++ with_source_key k l) ∧
  (∀ k, k ∈ g'.*1 ↔ k ∈ g.*1 ∨ ∃ entry, entry ∈ l ∧ source_key entry = Ok k) ∧
  Forall (fun entry => is_ok (source_key entry) = true) l ∧
  length (all_filed g') = (length (all_filed g) + length l)%nat.
Proof.
  induction l as [|entry rest IH]; intros g g' Hrun Hnodup Hkeyed.
  { simpl in Hrun. simplify_eq. split; [done|]. split; [done|].
    split; [intros k; by rewrite app_nil_r|]. split; [|split; [done|simpl; lia]].
    intros k. split; [by left|]. by intros [?|(? & ?%elem_of_nil & _)]. }
  cbn [group_by_source] in Hrun. cbv zeta in Hrun.
  apply and_then_ok in Hrun as (k0 & Hk0 & Hrun).
  destruct (IH _ _ Hrun) as (Hnodup' & Hkeyed' & Hfiled & Hkeys & Hall & Hlen).
  { rewrite file_under_keys. destruct (decide (k0 ∈ g.*1)); [done|].
    apply NoDup_app. split; [done|]. split; [|apply NoDup_singleton].
    intros k Hk ->%list_elem_of_singleton. done. }
  { by apply file_under_keyed. }
  split; [done|]. split; [done|]. split; [|split; [|split]].
  - intros k. rewrite Hfiled, filed_under_file_under. unfold with_source_key.
    destruct (decide (k = k0)) as [->|Hne].
    + rewrite filter_cons_True by (by apply Is_true_true, has_source_key_true).
      by rewrite <- app_assoc.
    + rewrite filter_cons_False; [done|].
      intros Hkey%Is_true_true%has_source_key_true.
      unfold source_key in Hkey. rewrite Hk0 in Hkey. congruence.
  - intros k. rewrite Hkeys, file_under_keys. split.
    + intros [Hin|(e & He & Hke)]; [|right; exists e; split; [by right|done]].
      destruct (decide (k0 ∈ g.*1)); [by left|].
      apply elem_of_app in Hin as [?|Hk%list_elem_of_singleton]; [by left|].
      subst k. right. exists entry. split; [left|done].
    + intros [Hin|(e & [->|He]%elem_of_cons & Hke)].
      * left. destruct (decide (k0 ∈ g.*1)); [done|]. apply elem_of_app. by left.
      * left. unfold source_key in Hke. rewrite Hk0 in Hke. simplify_eq.
        destruct (decide (k ∈ g.*1)); [done|]. apply elem_of_app. right. left.
      * right. eauto.
  - constructor; [|done]. unfold source_key. by rewrite Hk0.
  - rewrite Hlen, file_under_length. simpl. lia.
Qed.

(** Where the first loop of [print_results] goes through. *)
Lemma group_by_source_ok l : ∀ g,
  Forall (fun entry => is_ok (source_key entry) = true) l →
  ∃ g', group_by_source l g = Ok g'.
Proof.
  induction l as [|entry rest IH]; intros g Hl; [by eexists|].
  apply Forall_cons in Hl as [Hentry Hrest]. cbn [group_by_source]. cbv zeta.
  unfold source_key in Hentry.
  destruct (hash_key _) as [k|]; [|done]. simpl. by apply IH.
Qed.

(** X21. The groups of [print_results]: no two groups have the same
    source, every group holds, in their order, exactly the results of its
    source, none is empty, every result is in a group and the groups hold
    as many results as the list. *)
Theorem print_results_groups_by_source (l : list dict) (by_source : groups) :
  group_by_source l [] = Ok by_source →
  NoDup by_source.*1 ∧
  (∀ k source filed, (k, (source, filed)) ∈ by_source →
     filed ≠ [] ∧ filed = with_source_key k l ∧ hash_key source = Ok k) ∧
  (∀ entry, entry ∈ l →
     ∃ k source filed, (k, (source, filed)) ∈ by_source ∧ entry ∈ filed) ∧
  length (all_filed by_source) = length l.
Proof.
  intros Hrun.
  destruct (group_by_source_spec l [] by_source Hrun)
    as (Hnodup & Hkeyed & Hfiled & Hkeys & Hall & Hlen); [constructor|constructor|].
  assert (∀ k source filed, (k, (source, filed)) ∈ by_source →
            filed = with_source_key k l) as Hgroup.
  { intros k source filed Hin.
    by rewrite <- (filed_under_lookup k source filed by_source Hnodup Hin), Hfiled. }
  split; [done|]. split; [|split].
  - intros k source filed Hin. split; [|split; [by eapply Hgroup|]].
    + assert (k ∈ by_source.*1) as Hk
        by (apply list_elem_of_fmap; by exists (k, (source, filed))).
      apply Hkeys in Hk as [[]%elem_of_nil|(entry & Hentry & Hkey)].
      rewrite (Hgroup _ _ _ Hin). intros Hnil.
      assert (entry ∈ with_source_key k l) as Hfiltered
        by (apply list_elem_of_filter; split; [by apply Is_true_true, has_source_key_true|done]).
      rewrite Hnil in Hfiltered. by apply elem_of_nil in Hfiltered.
    + by apply (proj1 (Forall_forall _ _) Hkeyed (k, (source, filed))).
  - intros entry Hentry.
    pose proof (proj1 (Forall_forall _ _) Hall entry Hentry) as Hok.
    cbv beta in Hok.
    destruct (source_key entry) as [k|] eqn:Hk; [|discriminate Hok].
    assert (k ∈ by_source.*1) as Hin by (apply Hkeys; right; eauto).
    apply list_elem_of_fmap in Hin as ([k' [source filed]] & -> & Hin).
    exists k', source, filed. split; [done|].
    rewrite (Hgroup _ _ _ Hin). apply list_elem_of_filter.
    split; [by apply Is_true_true, has_source_key_true|done].
  - exact Hlen.
Qed.

(** ** When [print_results] returns *)

Lemma for_each_checks {S A} (check : A → result unit) (body : A → M S unit) l :
  (∀ x s w, body x s w = (check x, s, w)) →
  ∀ s w, for_each l body s w = (checks check l, s, w).
Proof.
  intros Hbody. induction l as [|x l IH]; intros s w; [done|].
  cbn [for_each checks]. unfold bind. rewrite Hbody.
  destruct (check x) as [[]|e]; [apply IH|done].
Qed.

Lemma checks_ok {A} (check : A → result unit) l :
  is_ok (checks check l) = true ↔ Forall (fun x => is_ok (check x) = true) l.
Proof.
  induction l as [|x l IH]; simpl; [done|].
  rewrite Forall_cons, <- IH. destruct (check x) as [[]|]; simpl; [tauto|].
  split; [done|by intros []].
Qed.

(** A run of [print_results]: the object and the world stay as they are. *)
Lemma print_results_run self w :
  print_results self w =
  (match WebIntelligenceGatherer.all_results self with
   | [] => Ok tt
   | _ => and_then (group_by_source (WebIntelligenceGatherer.all_results self) [])
            (checks check_group)
   end, self, w).
Proof.
  unfold print_results. rewrite bind_get_self.
  destruct (WebIntelligenceGatherer.all_results self) as [|entry rest]; [done|].
  rewrite bind_lift.
  destruct (group_by_source (entry :: rest) []) as [by_source|]; [|done].
  cbn [and_then]. apply for_each_checks.
  intros [k [source filed]] s0 w0. unfold check_group. cbn [fst snd].
  rewrite bind_lift. destruct (py_upper source) as [[]|]; [|done]. cbn [and_then].
  apply for_each_checks. intros entry0 s1 w1. unfold check_entry.
  rewrite bind_lift. destruct (py_slice _ 100) as [[]|]; [|done]. cbn [and_then].
  rewrite bind_lift. by destruct (py_slice _ 70) as [[]|].
Qed.

Lemma hash_key_text v s : hash_key v = Ok (KStr s) → v = VStr s.
Proof. destruct v as [|[]| | | | |]; simpl; intros; by simplify_eq. Qed.

Lemma check_entry_ok entry :
  is_ok (check_entry entry) = true ↔
  sliceable (dict_get entry "description" (VStr "No description")) = true ∧
  sliceable (dict_get entry "url" (VStr "N/A")) = true.
Proof.
  unfold check_entry.
  destruct (dict_get entry "description" _), (dict_get entry "url" _); simpl;
    split; (try done); by intros [].
Qed.

(** Where the expressions [print_results] evaluates go through. *)
Lemma printing_checks (l : list dict) :
  is_ok (match l with
         | [] => Ok tt
         | _ => and_then (group_by_source l []) (checks check_group)
         end) = true ↔
  Forall (fun entry => printable entry = true) l.
Proof.
  assert (is_ok (and_then (group_by_source l []) (checks check_group)) = true ↔
          Forall (fun entry => printable entry = true) l) as Hiff.
  { split.
  - destruct (group_by_source l []) as [by_source|] eqn:Hrun; [|done].
    cbn [and_then]. rewrite checks_ok. intros Hgroups.
    destruct (group_by_source_spec l [] by_source Hrun)
      as (Hnodup & Hkeyed & Hfiled & Hkeys & Hall & _); [constructor|constructor|].
    apply Forall_forall. intros entry Hentry.
    pose proof (proj1 (Forall_forall _ _) Hall entry Hentry) as Hok. cbv beta in Hok.
    destruct (source_key entry) as [k|] eqn:Hk; [|discriminate Hok].
    assert (k ∈ by_source.*1) as Hin by (apply Hkeys; right; eauto).
    apply list_elem_of_fmap in Hin as ([k' [source filed]] & -> & Hin).
    cbn [fst] in *.
    assert (entry ∈ filed) as Hfiled_in.
    { rewrite <- (filed_under_lookup k' source filed by_source Hnodup Hin), Hfiled.
      apply list_elem_of_filter.
      split; [by apply Is_true_true, has_source_key_true|done]. }
    pose proof (proj1 (Forall_forall _ _) Hgroups _ Hin) as Hgroup.
    pose proof (proj1 (Forall_forall _ _) Hkeyed _ Hin) as Hkey.
    unfold check_group in Hgroup. cbn [fst snd] in Hgroup, Hkey.
    destruct source; try discriminate Hgroup. cbn [py_upper and_then] in Hgroup.
    simpl in Hkey. simplify_eq.
    apply checks_ok in Hgroup.
    pose proof (proj1 (Forall_forall _ _) Hgroup entry Hfiled_in) as Hentry_ok.
    apply check_entry_ok in Hentry_ok as [Hd Hu].
    unfold printable. rewrite (hash_key_text _ _ Hk), Hd, Hu. done.
  - intros Hl.
    assert (Forall (fun entry => is_ok (source_key entry) = true) l) as Hkeys_ok.
    { eapply Forall_impl; [exact Hl|]. intros entry Hp. unfold printable in Hp.
      unfold source_key. by destruct (dict_get entry "source" _). }
    destruct (group_by_source_ok l [] Hkeys_ok) as [by_source Hrun].
    rewrite Hrun. cbn [and_then]. apply checks_ok.
    destruct (group_by_source_spec l [] by_source Hrun)
      as (Hnodup & Hkeyed & Hfiled & Hkeys & Hall & _); [constructor|constructor|].
    apply Forall_forall. intros [k [source filed]] Hin.
    pose proof (proj1 (Forall_forall _ _) Hkeyed _ Hin) as Hkey. cbn [fst snd] in Hkey.
    assert (filed = with_source_key k l) as Hgroup
      by (by rewrite <- (filed_under_lookup k source filed by_source Hnodup Hin), Hfiled).
    assert (k ∈ by_source.*1) as Hk
      by (apply list_elem_of_fmap; by exists (k, (source, filed))).
    apply Hkeys in Hk as [[]%elem_of_nil|(entry & Hentry & Hentry_key)].
    pose proof (proj1 (Forall_forall _ _) Hl entry Hentry) as Hp. cbv beta in Hp.
    unfold printable in Hp. unfold source_key in Hentry_key.
    destruct (dict_get entry "source" (VStr "unknown")) eqn:Hsource; try discriminate Hp.
    simpl in Hentry_key. simplify_eq.
    apply hash_key_text in Hkey as ->.
    unfold check_group. cbn [fst snd py_upper and_then]. apply checks_ok.
    apply Forall_forall. intros e He.
    apply list_elem_of_filter in He as [_ He].
    pose proof (proj1 (Forall_forall _ _) Hl e He) as Hpe. cbv beta in Hpe.
    unfold printable in Hpe. apply andb_true_iff in Hpe as [Hpe Hu].
    apply andb_true_iff in Hpe as [_ Hd]. by apply check_entry_ok. }
  destruct l as [|entry rest]; [done|exact Hiff].
Qed.

(** X22. [print_results] returns exactly when every result has a text
    source and a description and a URL that can be sliced (text or a list);
    it changes neither the orchestrator nor the world. A description that is
    [None], as the repository searcher stores it for [null], makes it
    raise. *)
Theorem print_results_returns_exactly_on_printable_results
    (self : WebIntelligenceGatherer.t) (w : world) :
  (is_ok (outcome (print_results self w)) = true ↔
   Forall (fun entry => printable entry = true) (WebIntelligenceGatherer.all_results self)) ∧
  final_self (print_results self w) = self ∧
  final_world (print_results self w) = w.
Proof.
  rewrite print_results_run. cbn [outcome final_self final_world fst snd].
  split; [apply printing_checks|done].
Qed.

(** ** The entry point *)

Lemma init_returns kw srcs m :
  valid_keyword kw → known_sources srcs →
  WebIntelligenceGatherer.__init__ kw srcs m = Ok (WebIntelligenceGatherer.Make kw srcs m [] 0).
Proof.
  intros Hkw Hknown. unfold WebIntelligenceGatherer.__init__.
  rewrite empty_keyword_is_short.
  unfold config.MIN_KEYWORD_LENGTH, config.MAX_KEYWORD_LENGTH, valid_keyword in *.
  destruct (Nat.ltb_spec (String.length kw) 2); [lia|].
  destruct (Nat.ltb_spec 200 (String.length kw)); [lia|].
  rewrite decide_True; [done|]. by apply invalid_sources_empty.
Qed.

(** [main] up to the search: with arguments the two checks accept, the
    orchestrator is built on the processed sources and [search] is run. *)
Lemma main_after_search `{Builtins} `{JsonLibrary} args d w :
  let sources := process_sources (arg_sources args) in
  let gatherer :=
    WebIntelligenceGatherer.Make (arg_keyword args) sources (arg_max_results args) [] 0 in
  valid_keyword (arg_keyword args) → known_sources sources →
  main (Parsed args) d w =
  match WebIntelligenceGatherer.search gatherer w with
  | (Raise _, _, w) => (1, d, w)
  | (Ok _, gatherer, w) =>
      if forallb printable (WebIntelligenceGatherer.all_results gatherer) then
        match arg_output args with
        | Some output =>
            if truthy (VStr output) then
              match arg_format args with
              | OUTPUT_FORMAT_JSON =>
                  (write_report output
                     (json_dumps
                        (ReportGenerator.report
                           (WebIntelligenceGatherer.all_results gatherer)
                           (arg_keyword args)
                           (WebIntelligenceGatherer.search_time gatherer) sources
                           (now w (count is_now (trace w))))) d,
                   after [EvNow] w)
              | OUTPUT_FORMAT_CSV =>
                  match ReportGenerator.to_csv
                          (WebIntelligenceGatherer.all_results gatherer) with
                  | Ok report => (write_report output report d, w)
                  | Raise _ => (1, d, w)
                  end
              end
            else (0, d, w)
        | None => (0, d, w)
        end
      else (1, d, w)
  end.
Proof.
  cbv zeta. intros Hkw Hknown. unfold main. cbv zeta.
  rewrite decide_True by (by apply invalid_sources_empty).
  rewrite (init_returns _ _ _ Hkw Hknown).
  destruct (WebIntelligenceGatherer.search _ w) as [[[out|e] g1] w1]; [|done].
  rewrite print_results_run.
  pose proof (printing_checks (WebIntelligenceGatherer.all_results g1)) as Hiff.
  destruct (match WebIntelligenceGatherer.all_results g1 with
            | [] => Ok tt
            | _ => and_then (group_by_source (WebIntelligenceGatherer.all_results g1) [])
                     (checks check_group)
            end) as [r|e] eqn:Hprint.
  2: { destruct (forallb printable (WebIntelligenceGatherer.all_results g1)) eqn:Hall; [|done].
       assert (is_ok (Raise (A:=unit) e) = true) as Hr; [|done].
       apply Hiff. apply Forall_forall. intros entry Hentry.
       rewrite forallb_forall in Hall. by apply Hall, list_elem_of_In. }
  assert (forallb printable (WebIntelligenceGatherer.all_results g1) = true) as ->.
  { apply forallb_forall. intros entry Hentry%list_elem_of_In.
    by apply (proj1 (Forall_forall _ _) (proj1 Hiff eq_refl)). }
  destruct r.
  destruct (arg_output args) as [output|]; [|done].
  destruct (truthy (VStr output)); [|done].
  destruct (arg_format args).
  - unfold ReportGenerator.to_json, bind, datetime_now_isoformat, ret. cbn iota beta.
    change (record_event EvNow w1) with (after [EvNow] w1). done.
  - unfold lift. by destruct (ReportGenerator.to_csv _).
Qed.

Lemma text_fields_printable entry : text_fields entry → printable entry = true.
Proof.
  intros Htext.
  assert (∀ k default, k ∈ schema_keys → ∃ s, dict_get entry k (VStr default) = VStr s)
    as Hget.
  { intros k default Hk. destruct (Htext k Hk) as [s Hs]. clear Htext Hk.
    induction entry as [|[k' v] entry IH]; simpl in *; [by eauto|].
    destruct (String.eqb k' k); [by eauto|by apply IH]. }
  unfold printable.
  destruct (Hget "source" "unknown") as [? ->]; [schema_key|].
  destruct (Hget "description" "No description") as [? ->]; [schema_key|].
  destruct (Hget "url" "N/A") as [? ->]; [schema_key|]. done.
Qed.

Lemma forallb_printable l :
  forallb printable l = true ↔ Forall (fun entry => printable entry = true) l.
Proof.
  rewrite forallb_forall, Forall_forall.
  split; intros Hl entry Hentry; apply Hl; by apply list_elem_of_In.
Qed.

Lemma search_stores_what_it_returns `{Builtins} self w out self' w' :
  WebIntelligenceGatherer.search self w = (Ok out, self', w') →
  WebIntelligenceGatherer.all_results self' = out.
Proof.
  intros Hrun. destruct (search_all_results self w) as [Hout _].
  rewrite Hrun in Hout. by destruct (Hout out eq_refl).
Qed.

(** X23. With a source that is not available ([all] next to another
    source counts as one) or a keyword of a length that is not accepted,
    [main] exits with the status 1 and nothing has happened: no searcher
    was submitted, no request sent, no file written. *)
Theorem main_refuses_bad_arguments `{Builtins} `{JsonLibrary} (args : arguments) (d : disk)
    (w : world) :
  ¬ known_sources (process_sources (arg_sources args)) ∨ ¬ valid_keyword (arg_keyword args) →
  main (Parsed args) d w = (1, d, w).
Proof.
  intros Hbad. unfold main. cbv zeta.
  destruct (decide (_ = ∅)) as [Hempty|]; [|done].
  apply invalid_sources_empty in Hempty.
  destruct (WebIntelligenceGatherer.__init__ _ _ _) as [g|] eqn:Hinit; [|done].
  assert (is_ok (WebIntelligenceGatherer.__init__ (arg_keyword args)
                   (process_sources (arg_sources args)) (arg_max_results args)) = true)
    as Hok by (by rewrite Hinit).
  apply init_ok in Hok as [Hkw _]. by destruct Hbad.
Qed.

(** X24. With arguments that pass the checks, [main] submits one
    searcher per processed source, in order: the five available sources for
    [--sources all], the listed ones otherwise (the three default sources
    when the option is not given). *)
Theorem main_submits_the_processed_sources `{Builtins} `{JsonLibrary} (args : arguments)
    (d : disk) (w : world) :
  valid_keyword (arg_keyword args) →
  known_sources (process_sources (arg_sources args)) →
  submissions (trace (main (Parsed args) d w).2) =
  submissions (trace w) ++ process_sources (arg_sources args).
Proof.
  intros Hkw Hknown. rewrite (main_after_search args d w Hkw Hknown).
  set (gatherer := WebIntelligenceGatherer.Make _ _ _ _ _).
  pose proof (search_submissions gatherer w Hknown) as Hsub.
  cbn [WebIntelligenceGatherer.sources gatherer] in Hsub. rewrite <- Hsub.
  destruct (WebIntelligenceGatherer.search gatherer w) as [[[out|e] g1] w1];
    cbn [final_world snd]; [|done].
  repeat case_match; cbn [snd trace after]; try done;
    by rewrite submissions_snoc.
Qed.



(** X26. When the search returns a result that [print_results] cannot
    print, [main] exits with the status 1 after the search and writes no
    report, whatever the format asked for. *)
Theorem main_exits_with_1_on_a_result_it_cannot_print `{Builtins} `{JsonLibrary}
    (args : arguments) (d : disk) (w w1 : world) (out : list dict)
    (gatherer : WebIntelligenceGatherer.t) :
  valid_keyword (arg_keyword args) →
  known_sources (process_sources (arg_sources args)) →
  WebIntelligenceGatherer.search
    (WebIntelligenceGatherer.Make (arg_keyword args) (process_sources (arg_sources args))
       (arg_max_results args) [] 0) w = (Ok out, gatherer, w1) →
  ¬ Forall (fun entry => printable entry = true) out →
  main (Parsed args) d w = (1, d, w1).
Proof.
  intros Hkw Hknown Hrun Hnot. rewrite (main_after_search args d w Hkw Hknown), Hrun.
  rewrite (search_stores_what_it_returns _ _ _ _ _ Hrun).
  destruct (forallb printable out) eqn:Hall; [|done].
  by apply forallb_printable in Hall.
Qed.

(** X27. When the search returns results whose fields are text and
    [--output] names a file that can be written, [main] exits with the
    status 0 having made the directories of that file and written that one
    file: the CSV document of the results for the format [csv], and for the
    format [json] the serialised report with the keyword, the processed
    sources, the search time and one more reading of the clock. *)
Theorem main_writes_the_report `{Builtins} `{JsonLibrary} (args : arguments) (d : disk)
    (w w1 : world) (out : list dict) (gatherer : WebIntelligenceGatherer.t)
    (output : string) :
  valid_keyword (arg_keyword args) →
  known_sources (process_sources (arg_sources args)) →
  WebIntelligenceGatherer.search
    (WebIntelligenceGatherer.Make (arg_keyword args) (process_sources (arg_sources args))
       (arg_max_results args) [] 0) w = (Ok out, gatherer, w1) →
  Forall text_fields out →
  arg_output args = Some output → output ≠ EmptyString → can_write d output →
  main (Parsed args) d w =
  match arg_format args with
  | OUTPUT_FORMAT_CSV =>
      (0, Disk (store d) (made d ++ [output]) (written d ++ [(output, csv_document out)]), w1)
  | OUTPUT_FORMAT_JSON =>
      (0,
       Disk (store d) (made d ++ [output])
         (written d ++
          [(output,
            json_dumps
              (ReportGenerator.report out (arg_keyword args)
                 (WebIntelligenceGatherer.search_time gatherer)
                 (process_sources (arg_sources args))
                 (now w1 (count is_now (trace w1)))))]),
       after [EvNow] w1)
  end.
Proof.
  intros Hkw Hknown Hrun Htext Houtput Hname Hwritable.
  rewrite (main_after_search args d w Hkw Hknown), Hrun.
  rewrite (search_stores_what_it_returns _ _ _ _ _ Hrun).
  rewrite (proj2 (forallb_printable out))
    by (eapply Forall_impl; [exact Htext|apply text_fields_printable]).
  rewrite Houtput.
  assert (truthy (VStr output) = true) as -> by (by destruct output).
  assert (∀ report,
            write_report output report d =
            (0, Disk (store d) (made d ++ [output]) (written d ++ [(output, report)])))
    as Hdone by (intros report; unfold write_report; by rewrite Hwritable).
  destruct (arg_format args); [by rewrite Hdone|].
  assert (ReportGenerator.to_csv out = Ok (csv_document out)) as ->;
    [|by rewrite Hdone].
  destruct out as [|entry rest]; [done|].
  unfold ReportGenerator.to_csv, csv_document. by rewrite csv_rows_text.
Qed.

(** ** The further theorems at concrete inputs *)

Lemma wikipedia_search_maps_items_witness :
  outcome (searcher_search (new_searcher WikipediaSearcher "kw" 2) example_world) =
  Ok (slice_to
        (stamped wikipedia_result (now example_world) (count is_now (trace example_world))
           [hit "A"; hit "B"; hit "C"])
        (Z.min 2 config.MAX_RESULTS_LIMIT)).
Proof.
  apply (wikipedia_search_maps_items "kw" 2 example_world (json_response three_hits)
           [("query", VDict [("search", VList [hit "A"; hit "B"; hit "C"])])]
           [("search", VList [hit "A"; hit "B"; hit "C"])]
           [hit "A"; hit "B"; hit "C"] []).
  - reflexivity.
  - reflexivity.
  - reflexivity.
  - reflexivity.
  - repeat constructor.
  - intros item Hitem. discriminate Hitem.
Defined.

Lemma github_search_maps_items_witness :
  outcome (searcher_search (new_searcher GitHubSearcher "kw" 5)
             (world_of (Ok (json_response two_repositories)))) =
  Ok (slice_to
        (stamped github_result (now (world_of (Ok (json_response two_repositories)))) 0
           [repository "one" (VStr "first"); repository "two" VNone])
        (Z.min 5 config.MAX_RESULTS_LIMIT)).
Proof.
  apply (github_search_maps_items "kw" 5 (world_of (Ok (json_response two_repositories)))
           (json_response two_repositories)
           [("items",
             VList [repository "one" (VStr "first"); repository "two" VNone; VStr "garbage"])]
           [repository "one" (VStr "first"); repository "two" VNone] [VStr "garbage"]).
  - reflexivity.
  - reflexivity.
  - reflexivity.
  - repeat constructor.
  - intros item Hitem. injection Hitem as <-. reflexivity.
Defined.

Lemma stackoverflow_search_maps_items_witness :
  outcome (searcher_search (new_searcher StackOverflowSearcher "kw" 5)
             (world_of (Ok (json_response two_questions)))) =
  Ok (slice_to
        (stamped stackoverflow_result (now (world_of (Ok (json_response two_questions)))) 0
           [question])
        (Z.min 5 config.MAX_RESULTS_LIMIT)).
Proof.
  apply (stackoverflow_search_maps_items "kw" 5 (world_of (Ok (json_response two_questions)))
           (json_response two_questions)
           [("items", VList [question; VDict [("title", VStr "t"); ("tags", VInt 0)]])]
           [question] [VDict [("title", VStr "t"); ("tags", VInt 0)]]).
  - reflexivity.
  - reflexivity.
  - reflexivity.
  - repeat constructor.
  - intros item Hitem. injection Hitem as <-. reflexivity.
Defined.

Lemma hackernews_search_maps_items_witness :
  outcome (searcher_search (new_searcher HackerNewsSearcher "kw" 5)
             (world_of (Ok (json_response two_stories)))) =
  Ok (slice_to
        (stamped hackernews_result (now (world_of (Ok (json_response two_stories)))) 0
           [VDict [("title", VStr "a"); ("points", VInt 10); ("num_comments", VInt 2);
                   ("url", VStr "https://a.example")];
            VDict [("title", VStr "b"); ("url", VNone); ("objectID", VStr "42")]])
        (Z.min 5 config.MAX_RESULTS_LIMIT)).
Proof.
  apply (hackernews_search_maps_items "kw" 5 (world_of (Ok (json_response two_stories)))
           (json_response two_stories)
           [("hits",
             VList [VDict [("title", VStr "a"); ("points", VInt 10); ("num_comments", VInt 2);
                           ("url", VStr "https://a.example")];
                    VDict [("title", VStr "b"); ("url", VNone); ("objectID", VStr "42")]])]
           _ []).
  - reflexivity.
  - reflexivity.
  - reflexivity.
  - repeat constructor.
  - intros item Hitem. discriminate Hitem.
Defined.

Lemma googlenews_search_keeps_articles_with_heading_and_link_witness :
  outcome (searcher_search (new_searcher GoogleNewsSearcher "kw" 5) (world_of (Ok news_page))) =
  Ok (slice_to
        (stamped googlenews_result (now (world_of (Ok news_page)))
           (count is_now (trace (world_of (Ok news_page))))
           (filter has_heading_and_link
              (find_all_article news_page (Z.min 5 config.MAX_RESULTS_LIMIT))))
        (Z.min 5 config.MAX_RESULTS_LIMIT)).
Proof.
  apply (googlenews_search_keeps_articles_with_heading_and_link "kw" 5
           (world_of (Ok news_page)) news_page).
  reflexivity.
Defined.

Lemma linking_searchers_never_give_empty_urls_witness :
  ∃ out,
    outcome (searcher_search (new_searcher HackerNewsSearcher "kw" 5)
               (world_of (Ok (json_response two_stories)))) = Ok out ∧
    Forall (fun entry => truthy (url_of entry) = true) out.
Proof.
  apply (linking_searchers_never_give_empty_urls HackerNewsSearcher "kw" 5
           (world_of (Ok (json_response two_stories)))).
  reflexivity.
Defined.

Lemma quoted_field_reads_back_witness :
  read_quoted (chr 34 +:+
               str_replace (chr 34) (chr 34 +:+ chr 34) ("say " +:+ chr 34 +:+ "hi" +:+ chr 34)
               +:+ chr 34 +:+ ",next")
  = Some ("say " +:+ chr 34 +:+ "hi" +:+ chr 34, ",next").
Proof.
  apply (quoted_field_reads_back ("say " +:+ chr 34 +:+ "hi" +:+ chr 34) ",next").
  reflexivity.
Defined.

Lemma print_results_groups_by_source_witness :
  ∃ by_source,
    group_by_source example_listing [] = Ok by_source ∧
    NoDup by_source.*1 ∧
    (∀ k source filed, (k, (source, filed)) ∈ by_source →
       filed ≠ [] ∧ filed = with_source_key k example_listing ∧ hash_key source = Ok k) ∧
    (∀ entry, entry ∈ example_listing →
       ∃ k source filed, (k, (source, filed)) ∈ by_source ∧ entry ∈ filed) ∧
    length (all_filed by_source) = length example_listing.
Proof.
  eexists. split; [vm_compute; reflexivity|].
  apply (print_results_groups_by_source example_listing).
  vm_compute. reflexivity.
Defined.

Lemma search_holds_at_most_the_cap_per_source_witness :
  (length (WebIntelligenceGatherer.all_results
             (final_self (WebIntelligenceGatherer.search example_gatherer example_world)))
   ≤ length (WebIntelligenceGatherer.all_results example_gatherer) +
     length (WebIntelligenceGatherer.sources example_gatherer) *
     Z.to_nat (Z.min (WebIntelligenceGatherer.max_results example_gatherer)
                 config.MAX_RESULTS_LIMIT))%nat.
Proof.
  apply (search_holds_at_most_the_cap_per_source example_gatherer example_world).
  simpl. lia.
Defined.



Lemma search_results_are_normalized_witness :
  ∃ out self' w',
    WebIntelligenceGatherer.search example_gatherer example_world = (Ok out, self', w') ∧
    Forall has_schema_keys out.
Proof.
  do 3 eexists. split; [vm_compute; reflexivity|].
  eapply (search_results_are_normalized example_gatherer example_world);
    [vm_compute; reflexivity|constructor].
Defined.

Lemma main_refuses_bad_arguments_witness :
  main (H0:=ReferenceJson.library)
    (Parsed (Args "kw" ["all"; "wikipedia"] 5 OUTPUT_FORMAT_JSON None))
    empty_disk example_world = (1, empty_disk, example_world).
Proof.
  apply (main_refuses_bad_arguments (H0:=ReferenceJson.library)).
  left. intros Hknown.
  pose proof (Hknown "all" (list_elem_of_here _ _)) as Hall.
  revert Hall. apply (bool_decide_eq_false_1 ("all" ∈ config.AVAILABLE_SOURCES)).
  vm_compute. reflexivity.
Defined.

Lemma main_submits_the_processed_sources_witness :
  submissions
    (trace (main (H0:=ReferenceJson.library)
              (Parsed (Args "kw" ["all"] 5 OUTPUT_FORMAT_JSON None)) empty_disk offline).2) =
    submissions (trace offline) ++ config.AVAILABLE_SOURCES ∧
  submissions
    (trace (main (H0:=ReferenceJson.library) (Parsed (default_arguments "kw")) empty_disk
              offline).2) =
    submissions (trace offline) ++ config.DEFAULT_SOURCES.
Proof.
  split.
  - apply (main_submits_the_processed_sources (H0:=ReferenceJson.library)
             (Args "kw" ["all"] 5 OUTPUT_FORMAT_JSON None) empty_disk offline).
    + unfold valid_keyword. simpl. lia.
    + apply known_sources_check. vm_compute. reflexivity.
  - apply (main_submits_the_processed_sources (H0:=ReferenceJson.library)
             (default_arguments "kw") empty_disk offline).
    + unfold valid_keyword. simpl. lia.
    + apply known_sources_check. vm_compute. reflexivity.
Defined.

Lemma main_exits_with_1_on_a_result_it_cannot_print_witness :
  ∃ w1,
    main (H0:=ReferenceJson.library) (Parsed github_arguments) empty_disk
      (world_of (Ok (json_response two_repositories))) = (1, empty_disk, w1).
Proof.
  eexists.
  eapply (main_exits_with_1_on_a_result_it_cannot_print (H0:=ReferenceJson.library)
            github_arguments empty_disk).
  - unfold valid_keyword. simpl. lia.
  - apply known_sources_check. vm_compute. reflexivity.
  - vm_compute. reflexivity.
  - intros Hall. apply Forall_cons in Hall as [_ Hall].
    apply Forall_cons in Hall as [Hsecond _]. vm_compute in Hsecond. discriminate Hsecond.
Defined.

Lemma main_writes_the_report_witness :
  ∃ out w1,
    main (H0:=ReferenceJson.library) (Parsed wikipedia_arguments) empty_disk example_world =
    (0,
     Disk (store empty_disk) (made empty_disk ++ ["report.csv"])
       (written empty_disk ++ [("report.csv", csv_document out)]),
     w1).
Proof.
  do 2 eexists.
  eapply (main_writes_the_report (H0:=ReferenceJson.library) wikipedia_arguments empty_disk
            example_world).
  - unfold valid_keyword. simpl. lia.
  - apply known_sources_check. vm_compute. reflexivity.
  - vm_compute. reflexivity.
  - repeat constructor;
      (intros k Hk; unfold schema_keys in Hk;
       repeat (apply elem_of_cons in Hk as [->|Hk]; [eexists; reflexivity|]);
       by apply elem_of_nil in Hk).
  - reflexivity.
  - discriminate.
  - intros content. reflexivity.
Defined.
